(** * Medicine reminder: the scheduler scan, the queries and the mutations

    A shallow embedding of [src/main.py] (class [MedicineReminder]) and the
    properties of its reminder engine.

    Conventions of the embedding.
    - A calendar day is its day number on [Z] (as [date.toordinal]): the
      days [datetime] holds, those of the years 1 to 9999, are the numbers 1
      to 3652059.  The stored ISO-8601 strings ([isoformat]) and their
      reading back ([parse]) are the identity on it; ISO strings
      [YYYY-MM-DD] compare as their days do, so equality and order of the
      stored strings are equality and order on [Z].  [d + relativedelta(days=n)]
      is [d + n] when that is a day [datetime] holds and raises
      [OverflowError] when it is not.
    - A text is a [string]; a text with a character beyond ASCII is one with
      a byte above 127 (its UTF-8 encoding).  What [int] reads in such a text
      depends on the Unicode tables of the interpreter: it is a parameter of
      the scan, the one place that calls [int].
    - A stored record holds, for a key, a value of the type the operations
      write there or [None] (a null of the data file), or lacks the key.
    - A Python [dict] is an insertion-ordered association list with the
      replace-in-place semantics of [d[k] = v].
    - [datetime.datetime.now()] and [uuid.uuid4()] are inputs of the
      operations that read them.
    - The three YAML files written by [_save_data] are outside the model:
      [_save_data] swallows its own errors and nothing reads the files back
      after start-up.
    - The notifier [_send_whatsapp_reminder] only logs; its messages are the
      output trace of a program. *)

From Stdlib Require Import ZArith List String Ascii Bool Lia.
From Stdlib Require Import Sorting.Sorted Sorting.Permutation.
Import ListNotations.

Local Open Scope Z_scope.

(* ================================================================== *)
(** ** Python values used by the program *)

Module Py.

(** [datetime.date], by day number. *)
Definition date := Z.

(** [datetime.date.max.toordinal()]: 9999-12-31.  Day 1 is 0001-01-01. *)
Definition MAXORDINAL : Z := 3652059.

(** The day numbers that are a [datetime.date]. *)
Definition is_date (d : Z) : bool := (1 <=? d) && (d <=? MAXORDINAL).

(** [datetime.datetime]: the program reads [.date()] and [.hour] only. *)
Record datetime := { date_of : date; hour : Z }.

(** *** Exceptions the program can raise, and the result of a call *)
Inductive exception : Type :=
| ValueError_not_found (medicine_id : string)
    (** [raise ValueError(f"Medicine with ID {medicine_id} not found")] *)
| ValueError_int (text : string)
    (** [int(text)] on a text that is no numeral *)
| TypeError_parse
    (** [parse(None)] *)
| TypeError_days
    (** [relativedelta(days=None)] *)
| AttributeError_split
    (** [None.split(':')] *)
| OverflowError_date
    (** a [datetime] plus or minus days that leaves the years 1 to 9999 *)
| KeyError (key : string)
    (** [d[key]] on an absent key *).

Inductive outcome (A : Type) : Type :=
| Return (a : A)
| Raise (e : exception).
Arguments Return {A} a.
Arguments Raise {A} e.

(** *** A key of a stored record

    The key is absent, or it holds [None], or it holds a value.  A Python
    value that can be [None] is an [option]. *)
Inductive field (A : Type) : Type :=
| Absent
| Null
| Value (a : A).
Arguments Absent {A}.
Arguments Null {A}.
Arguments Value {A} a.

(** [record.get(key, default)] *)
Definition get_or {A : Type} (f : field A) (default : option A) : option A :=
  match f with
  | Absent => default
  | Null => None
  | Value a => Some a
  end.

(** [parse(timestr)] of [dateutil] on a stored day, or on [None]. *)
Definition parse (timestr : option date) : outcome date :=
  match timestr with
  | Some d => Return d
  | None => Raise TypeError_parse
  end.

(** [d + relativedelta(days=n)] and [d - relativedelta(days=n)] on a
    [datetime] at day [d]: [relativedelta(days=None)] raises a TypeError,
    and the sum raises an OverflowError when it is not a day of the years 1
    to 9999. *)
Definition add_days (d : date) (n : option Z) : outcome date :=
  match n with
  | None => Raise TypeError_days
  | Some n => if is_date (d + n) then Return (d + n) else Raise OverflowError_date
  end.

Definition sub_days (d : date) (n : option Z) : outcome date :=
  match n with
  | None => Raise TypeError_days
  | Some n => if is_date (d - n) then Return (d - n) else Raise OverflowError_date
  end.

(** *** Insertion-ordered dictionaries with string keys *)
Section Dict.
Context {V : Type}.

Definition dict := list (string * V).

Definition keys (d : dict) : list string := map fst d.
Definition values (d : dict) : list V := map snd d.

(** [d.get(k)], also [d[k]] and [k in d]. *)
Fixpoint dict_get (k : string) (d : dict) : option V :=
  match d with
  | [] => None
  | (k', v) :: d' => if String.eqb k k' then Some v else dict_get k d'
  end.

Definition dict_mem (k : string) (d : dict) : bool :=
  match dict_get k d with Some _ => true | None => false end.

(** [d[k] = v]: a present key keeps its place, a new key goes last. *)
Fixpoint dict_set (k : string) (v : V) (d : dict) : dict :=
  match d with
  | [] => [(k, v)]
  | (k', v') :: d' =>
      if String.eqb k k' then (k', v) :: d' else (k', v') :: dict_set k v d'
  end.
End Dict.
Arguments dict V : clear implicits.

(** *** [s.split(':')[0]] *)
Fixpoint split_colon_0 (s : string) : string :=
  match s with
  | EmptyString => EmptyString
  | String c s' => if Ascii.eqb c ":" then EmptyString else String c (split_colon_0 s')
  end.

(** *** [int(s)] on ASCII text

    White space around (the six characters of C's [isspace]: tab, line
    feed, vertical tab, form feed, carriage return, space), an optional
    sign, decimal digits with single underscores between them, and no more
    than 4300 digits ([sys.int_info.default_max_str_digits]). *)
Definition is_space (c : ascii) : bool :=
  let n := nat_of_ascii c in
  (Nat.leb 9 n && Nat.leb n 13) || Nat.eqb n 32.

Fixpoint lstrip (s : string) : string :=
  match s with
  | EmptyString => EmptyString
  | String c s' => if is_space c then lstrip s' else s
  end.

Fixpoint rstrip (s : string) : string :=
  match s with
  | EmptyString => EmptyString
  | String c s' =>
      match rstrip s' with
      | EmptyString => if is_space c then EmptyString else String c EmptyString
      | t => String c t
      end
  end.

Definition digit_of (c : ascii) : option Z :=
  let n := nat_of_ascii c in
  if Nat.leb 48 n && Nat.leb n 57 then Some (Z.of_nat n - 48) else None.

Fixpoint digits (s : string) (acc : Z) (after_digit : bool) : option Z :=
  match s with
  | EmptyString => if after_digit then Some acc else None
  | String c s' =>
      match digit_of c with
      | Some d => digits s' (10 * acc + d) true
      | None =>
          if Ascii.eqb c "_" && after_digit then digits s' acc false else None
      end
  end.

Fixpoint count_digits (s : string) : Z :=
  match s with
  | EmptyString => 0
  | String c s' =>
      match digit_of c with
      | Some _ => 1 + count_digits s'
      | None => count_digits s'
      end
  end.

Definition max_str_digits : Z := 4300.

Definition numeral (s : string) : option Z :=
  if max_str_digits <? count_digits s then None else digits s 0 false.

Definition int_ascii (s : string) : option Z :=
  match rstrip (lstrip s) with
  | String "+" t => numeral t
  | String "-" t => option_map Z.opp (numeral t)
  | t => numeral t
  end.

(** The text has no character beyond ASCII. *)
Fixpoint is_ascii (s : string) : bool :=
  match s with
  | EmptyString => true
  | String c s' => Nat.ltb (nat_of_ascii c) 128 && is_ascii s'
  end.

(** *** [l.sort(key=...)]: the stable sort, here by insertion. *)
Section Sort.
Context {A : Type} (key : A -> Z).

Fixpoint insert (x : A) (l : list A) : list A :=
  match l with
  | [] => [x]
  | y :: l' => if key x <=? key y then x :: l else y :: insert x l'
  end.

Fixpoint sort (l : list A) : list A :=
  match l with
  | [] => []
  | x :: l' => insert x (sort l')
  end.
End Sort.

(** [x == y] on optional days ([None == s] is [False]). *)
Definition opt_date_eqb (x y : option date) : bool :=
  match x, y with
  | Some a, Some b => a =? b
  | None, None => true
  | _, _ => false
  end.

End Py.
Import Py.

(* ================================================================== *)
(** ** The stored records

    A key the program reads with [.get(key, default)] is a [field]: absent,
    [None] and a value read differently.  A key it reads with [.get(key)]
    is an [option]: absent and [None] read the same.  A key it reads with
    [record[key]] is there. *)

Module Medicine.
Record t : Type := {
  id : string;
  name : string;
  dosage : string;
  quantity : field Z;
  refill_period_days : field Z;
  added_date : option date;
  last_refill_date : field date
}.

(** [medicine['last_refill_date'] = d] *)
Definition set_last_refill_date (m : t) (d : date) : t :=
  {| id := id m; name := name m; dosage := dosage m; quantity := quantity m;
     refill_period_days := refill_period_days m; added_date := added_date m;
     last_refill_date := Value d |}.
End Medicine.

Module Reminder.
Record t : Type := {
  medicine_id : string;
  days_before_empty : field Z;
  reminder_time : field string;
  last_reminded_date : option date
}.

(** [reminder['last_reminded_date'] = d] *)
Definition set_last_reminded_date (r : t) (d : date) : t :=
  {| medicine_id := medicine_id r; days_before_empty := days_before_empty r;
     reminder_time := reminder_time r; last_reminded_date := Some d |}.
End Reminder.

Module Order.
Record t : Type := {
  id : string;
  medicine_id : string;
  medicine_name : string;
  medicine_dosage : string;
  order_date : date;
  status : string
}.
End Order.

(** An element of the list [get_upcoming_reminders] returns. *)
Module Upcoming.
Record t : Type := {
  medicine_id : string;
  medicine_name : string;
  medicine_dosage : string;
  reminder_date : date;
  empty_date : date;
  reminder_time : option string
}.
End Upcoming.

(** The instance state of [MedicineReminder]. *)
Record MedicineReminder : Type := {
  medicines : dict Medicine.t;
  reminders : dict Reminder.t;
  orders : dict Order.t
}.

Definition set_medicines (self : MedicineReminder) (d : dict Medicine.t) : MedicineReminder :=
  {| medicines := d; reminders := reminders self; orders := orders self |}.

Definition set_reminders (self : MedicineReminder) (d : dict Reminder.t) : MedicineReminder :=
  {| medicines := medicines self; reminders := d; orders := orders self |}.

Definition set_orders (self : MedicineReminder) (d : dict Order.t) : MedicineReminder :=
  {| medicines := medicines self; reminders := reminders self; orders := d |}.

(** A message handed to the notifier: the medicine and the text. *)
Definition whatsapp : Type := (string * string)%type.

(* ================================================================== *)
(** ** Methods as programs

    A method runs on the instance state, returns or raises, leaves a state
    (kept when it raises: Python does not roll back) and the messages it
    sent. *)

Definition prog (A : Type) : Type :=
  MedicineReminder -> outcome A * MedicineReminder * list whatsapp.

Definition ret {A : Type} (a : A) : prog A :=
  fun self => (Return a, self, []).

Definition raise {A : Type} (e : exception) : prog A :=
  fun self => (Raise e, self, []).

Definition bind {A B : Type} (m : prog A) (f : A -> prog B) : prog B :=
  fun self =>
    match m self with
    | (Return a, self1, sent1) =>
        let '(o, self2, sent2) := f a self1 in (o, self2, sent1 ++ sent2)
    | (Raise e, self1, sent1) => (Raise e, self1, sent1)
    end.

Definition get : prog MedicineReminder :=
  fun self => (Return self, self, []).

Definition put (self' : MedicineReminder) : prog unit :=
  fun _ => (Return tt, self', []).

Definition send (w : whatsapp) : prog unit :=
  fun self => (Return tt, self, [w]).

Definition lift {A : Type} (o : outcome A) : prog A :=
  fun self => (o, self, []).

Declare Scope prog_scope.
Delimit Scope prog_scope with prog.
Notation "x <- c1 ;; c2" := (bind c1 (fun x => c2))
  (at level 100, c1 at next level, right associativity) : prog_scope.
Notation "c1 ;; c2" := (bind c1 (fun _ => c2))
  (at level 100, right associativity) : prog_scope.
Local Open Scope prog_scope.

(** [for x in xs: body] with the local variables of the loop in [acc]. *)
Fixpoint for_in {A B : Type} (xs : list A) (body : A -> B -> prog B) (acc : B) : prog B :=
  match xs with
  | [] => ret acc
  | x :: xs' => acc' <- body x acc ;; for_in xs' body acc'
  end.

Definition outcome_of {A : Type} (r : outcome A * MedicineReminder * list whatsapp) : outcome A :=
  fst (fst r).
Definition state_of {A : Type} (r : outcome A * MedicineReminder * list whatsapp) : MedicineReminder :=
  snd (fst r).
Definition sent_of {A : Type} (r : outcome A * MedicineReminder * list whatsapp) : list whatsapp :=
  snd r.

(* ================================================================== *)
(** ** The methods of [MedicineReminder] *)

Local Open Scope string_scope.
Local Open Scope list_scope.
Local Open Scope Z_scope.

(** [_save_data(data, file_path)]: writes a YAML file and catches every
    error of the write; the instance state is not touched. *)
Definition _save_data {V : Type} (data : dict V) : prog unit := ret tt.

(** [medicine.get('last_refill_date', medicine.get('added_date'))] *)
Definition last_refill_or_added (medicine : Medicine.t) : option date :=
  get_or (Medicine.last_refill_date medicine) (Medicine.added_date medicine).

(** [_send_whatsapp_reminder(medicine_id)] *)
Definition whatsapp_message (medicine : Medicine.t) (medicine_id : string) : string :=
  String.append "Reminder: Your "
    (String.append (Medicine.name medicine)
      (String.append " ("
        (String.append (Medicine.dosage medicine)
          (String.append ") will run out soon. Reply 'ORDER "
            (String.append medicine_id "' to place a refill order."))))).

Definition _send_whatsapp_reminder (medicine_id : string) : prog unit :=
  self <- get ;;
  match dict_get medicine_id (medicines self) with
  | None => raise (KeyError medicine_id)
  | Some medicine => send (medicine_id, whatsapp_message medicine medicine_id)
  end.

(** Lines 110 and 111 of the scan: the empty date, then the reminder date. *)
Definition check_projection (last_refill_date : date)
    (refill_period days_before_empty : option Z) : outcome (date * date) :=
  match add_days last_refill_date refill_period with
  | Raise e => Raise e
  | Return empty_date =>
      match sub_days empty_date days_before_empty with
      | Raise e => Raise e
      | Return reminder_date => Return (empty_date, reminder_date)
      end
  end.

(** *** The mutations *)

(** [add_medicine]; [uuid_hex] is [uuid.uuid4().hex[:8]]. *)
Definition add_medicine (uuid_hex : string) (now : datetime)
    (name dosage : string) (quantity refill_period_days : Z) : prog Medicine.t :=
  let medicine_id := String.append "med_" uuid_hex in
  let today := date_of now in
  let medicine :=
    {| Medicine.id := medicine_id;
       Medicine.name := name;
       Medicine.dosage := dosage;
       Medicine.quantity := Value quantity;
       Medicine.refill_period_days := Value refill_period_days;
       Medicine.added_date := Some today;
       Medicine.last_refill_date := Value today |} in
  self <- get ;;
  put (set_medicines self (dict_set medicine_id medicine (medicines self))) ;;
  self <- get ;;
  _save_data (medicines self) ;;
  ret medicine.

Definition list_medicines : prog (list Medicine.t) :=
  self <- get ;;
  ret (values (medicines self)).

Definition set_reminder (medicine_id : string) (days_before_empty : Z)
    (reminder_time : string) : prog Reminder.t :=
  self <- get ;;
  if negb (dict_mem medicine_id (medicines self))
  then raise (ValueError_not_found medicine_id)
  else
    let reminder :=
      {| Reminder.medicine_id := medicine_id;
         Reminder.days_before_empty := Value days_before_empty;
         Reminder.reminder_time := Value reminder_time;
         Reminder.last_reminded_date := None |} in
    put (set_reminders self (dict_set medicine_id reminder (reminders self))) ;;
    self <- get ;;
    _save_data (reminders self) ;;
    ret reminder.

(** [order_refill]; [uuid_hex] is [uuid.uuid4().hex[:8]]. *)
Definition order_refill (uuid_hex : string) (now : datetime) (medicine_id : string)
  : prog Order.t :=
  self <- get ;;
  match dict_get medicine_id (medicines self) with
  | None => raise (ValueError_not_found medicine_id)
  | Some medicine =>
      let today := date_of now in
      let order :=
        {| Order.id := String.append "order_" uuid_hex;
           Order.medicine_id := medicine_id;
           Order.medicine_name := Medicine.name medicine;
           Order.medicine_dosage := Medicine.dosage medicine;
           Order.order_date := today;
           Order.status := "placed" |} in
      put (set_medicines self
             (dict_set medicine_id (Medicine.set_last_refill_date medicine today)
                (medicines self))) ;;
      self <- get ;;
      _save_data (medicines self) ;;
      let order_id := Order.id order in
      put (set_orders self (dict_set order_id order (orders self))) ;;
      self <- get ;;
      _save_data (orders self) ;;
      ret order
  end.

(** *** The query, [get_upcoming_reminders] *)

(** Lines 219 and 220 of the query: the empty date, then the reminder date. *)
Definition upcoming_projection (last_refill_date : date)
    (refill_period days_before_empty : option Z) : outcome (date * date) :=
  match add_days last_refill_date refill_period with
  | Raise e => Raise e
  | Return empty_date =>
      match sub_days empty_date days_before_empty with
      | Raise e => Raise e
      | Return reminder_date => Return (empty_date, reminder_date)
      end
  end.

(** The body of the loop, lines 210 to 231, for a key and its reminder;
    [upcoming] is the list built so far. *)
Definition upcoming_body (now : datetime) (medicine_id : string) (reminder : Reminder.t)
    (upcoming : list Upcoming.t) : prog (list Upcoming.t) :=
  let today := date_of now in
  self <- get ;;
  match dict_get medicine_id (medicines self) with
  | None => ret upcoming
  | Some medicine =>
      last_refill_date <- lift (parse (last_refill_or_added medicine)) ;;
      let refill_period := get_or (Medicine.refill_period_days medicine) (Some 30) in
      let days_before_empty := get_or (Reminder.days_before_empty reminder) (Some 5) in
      dates <- lift (upcoming_projection last_refill_date refill_period days_before_empty) ;;
      let empty_date := fst dates in
      let reminder_date := snd dates in
      if today <=? reminder_date
      then ret (upcoming ++
                [ {| Upcoming.medicine_id := medicine_id;
                     Upcoming.medicine_name := Medicine.name medicine;
                     Upcoming.medicine_dosage := Medicine.dosage medicine;
                     Upcoming.reminder_date := reminder_date;
                     Upcoming.empty_date := empty_date;
                     Upcoming.reminder_time :=
                       get_or (Reminder.reminder_time reminder) (Some "08:00") |} ])
      else ret upcoming
  end.

(** One turn of the loop.  The loop variable [reminder] is the object stored
    under the key: it is read from the store where the loop stands. *)
Definition upcoming_reminder (now : datetime) (medicine_id : string)
    (upcoming : list Upcoming.t) : prog (list Upcoming.t) :=
  self <- get ;;
  match dict_get medicine_id (reminders self) with
  | None => ret upcoming
  | Some reminder => upcoming_body now medicine_id reminder upcoming
  end.

Definition get_upcoming_reminders (now : datetime) : prog (list Upcoming.t) :=
  self <- get ;;
  upcoming <- for_in (keys (reminders self)) (upcoming_reminder now) [] ;;
  ret (sort Upcoming.reminder_date upcoming).

(** The same query over the pairs [items()] gives. *)
Definition get_upcoming_reminders_items (now : datetime) : prog (list Upcoming.t) :=
  self <- get ;;
  upcoming <- for_in (reminders self)
                (fun item upcoming => upcoming_body now (fst item) (snd item) upcoming) [] ;;
  ret (sort Upcoming.reminder_date upcoming).

(* ================================================================== *)
(** ** Reading the scan and the query key by key *)

(** Lines 102, 104, 105, 110 and 111: the two dates of the scan for a
    medicine and its reminder. *)
Definition check_dates (medicine : Medicine.t) (reminder : Reminder.t)
  : outcome (date * date) :=
  match parse (last_refill_or_added medicine) with
  | Raise e => Raise e
  | Return last_refill_date =>
      check_projection last_refill_date
        (get_or (Medicine.refill_period_days medicine) (Some 30))
        (get_or (Reminder.days_before_empty reminder) (Some 5))
  end.

(** Lines 214 to 220: the two dates of the query. *)
Definition upcoming_dates (medicine : Medicine.t) (reminder : Reminder.t)
  : outcome (date * date) :=
  match parse (last_refill_or_added medicine) with
  | Raise e => Raise e
  | Return last_refill_date =>
      upcoming_projection last_refill_date
        (get_or (Medicine.refill_period_days medicine) (Some 30))
        (get_or (Reminder.days_before_empty reminder) (Some 5))
  end.

(** The write of line 122 at a key. *)
Definition mark_reminded (today : date) (medicine_id : string) (self : MedicineReminder)
  : MedicineReminder :=
  match dict_get medicine_id (reminders self) with
  | Some stored =>
      set_reminders self
        (dict_set medicine_id (Reminder.set_last_reminded_date stored today) (reminders self))
  | None => self
  end.

(** The message of the notifier for a key. *)
Definition message_for (self : MedicineReminder) (medicine_id : string) : whatsapp :=
  match dict_get medicine_id (medicines self) with
  | Some medicine => (medicine_id, whatsapp_message medicine medicine_id)
  | None => (medicine_id, "")
  end.

(** The loop of the query over a list of keys, from the list [acc]. *)
Definition collect (now : datetime) (ids : list string) (acc : list Upcoming.t)
  : prog (list Upcoming.t) :=
  for_in ids (upcoming_reminder now) acc.

(** The state [self'] is [self] with the marker of some reminders set to
    [today], nothing else changed. *)
Definition marked_from (today : date) (self self' : MedicineReminder) : Prop :=
  medicines self' = medicines self
  /\ orders self' = orders self
  /\ keys (reminders self') = keys (reminders self)
  /\ forall k,
       dict_get k (reminders self') = dict_get k (reminders self)
       \/ exists r, dict_get k (reminders self) = Some r
                    /\ dict_get k (reminders self')
                       = Some (Reminder.set_last_reminded_date r today).

(** The element the query appends for a key, if any. *)
Definition upcoming_entry (now : datetime) (self : MedicineReminder) (medicine_id : string)
  : outcome (option Upcoming.t) :=
  match dict_get medicine_id (reminders self), dict_get medicine_id (medicines self) with
  | Some reminder, Some medicine =>
      match upcoming_dates medicine reminder with
      | Raise e => Raise e
      | Return dates =>
          if date_of now <=? snd dates
          then Return (Some
                 {| Upcoming.medicine_id := medicine_id;
                    Upcoming.medicine_name := Medicine.name medicine;
                    Upcoming.medicine_dosage := Medicine.dosage medicine;
                    Upcoming.reminder_date := snd dates;
                    Upcoming.empty_date := fst dates;
                    Upcoming.reminder_time :=
                      get_or (Reminder.reminder_time reminder) (Some "08:00") |})
          else Return None
      end
  | _, _ => Return None
  end.

(** The elements the query appends over a list of keys, in that order. *)
Fixpoint upcoming_entries (now : datetime) (self : MedicineReminder) (ids : list string)
  : list Upcoming.t :=
  match ids with
  | [] => []
  | medicine_id :: ids' =>
      match upcoming_entry now self medicine_id with
      | Return (Some e) => e :: upcoming_entries now self ids'
      | _ => upcoming_entries now self ids'
      end
  end.

(** The key has an element in the query's result, with reminder date [d]. *)
Definition upcoming_on (now : datetime) (self : MedicineReminder) (d : date)
    (medicine_id : string) : bool :=
  match upcoming_entry now self medicine_id with
  | Return (Some e) => Upcoming.reminder_date e =? d
  | _ => false
  end.

(** The store with no record. *)
Definition empty_store : MedicineReminder :=
  {| medicines := []; reminders := []; orders := [] |}.

(** The three dictionaries are dictionaries: no key is there twice. *)
Definition well_formed (self : MedicineReminder) : Prop :=
  NoDup (keys (medicines self))
  /\ NoDup (keys (reminders self))
  /\ NoDup (keys (orders self)).

(** What the operations write and keep: every record is stored under its own
    identifier with the fields the operations set, a reminder and an order
    name a medicine of the store, and no key is there twice. *)
Definition consistent (self : MedicineReminder) : Prop :=
  well_formed self
  /\ (forall k M, dict_get k (medicines self) = Some M ->
        Medicine.id M = k
        /\ (exists q, Medicine.quantity M = Value q)
        /\ (exists P, Medicine.refill_period_days M = Value P)
        /\ Medicine.added_date M <> None
        /\ (exists D, Medicine.last_refill_date M = Value D))
  /\ (forall k R, dict_get k (reminders self) = Some R ->
        Reminder.medicine_id R = k
        /\ (exists B, Reminder.days_before_empty R = Value B)
        /\ (exists t, Reminder.reminder_time R = Value t)
        /\ dict_get k (medicines self) <> None)
  /\ (forall k O, dict_get k (orders self) = Some O ->
        Order.id O = k
        /\ Order.status O = "placed"
        /\ dict_get (Order.medicine_id O) (medicines self) <> None).

(** No record of [self] is missing from [self']. *)
Definition keeps_records (self self' : MedicineReminder) : Prop :=
  incl (keys (medicines self)) (keys (medicines self'))
  /\ incl (keys (reminders self)) (keys (reminders self'))
  /\ incl (keys (orders self)) (keys (orders self')).

(** A text with no colon. *)
Fixpoint no_colon (s : string) : bool :=
  match s with
  | EmptyString => true
  | String c s' => negb (Ascii.eqb c ":") && no_colon s'
  end.

(* ================================================================== *)
(** ** Stores to run the program on

    The example of the specification: Lisinopril, 30 days a refill, added on
    2024-01-01 (day 738886), reminded 5 days before it runs out, at 08:00. *)

Module Sample.

(** A value for the parameter of the scan, to run it on the examples: their
    texts are ASCII, so that [int] never reads beyond ASCII there. *)
Definition int_ascii_only (text : string) : option Z := None.

Definition jan_1 : datetime := {| date_of := 738886; hour := 10 |}.
Definition jan_26_8h : datetime := {| date_of := 738911; hour := 8 |}.

Definition added : MedicineReminder :=
  state_of (add_medicine "0a1b2c3d" jan_1 "Lisinopril" "10mg" 30 30 empty_store).

Definition store : MedicineReminder :=
  state_of (set_reminder "med_0a1b2c3d" 5 "08:00" added).

Definition lisinopril : Medicine.t :=
  {| Medicine.id := "med_0a1b2c3d"; Medicine.name := "Lisinopril";
     Medicine.dosage := "10mg"; Medicine.quantity := Value 30;
     Medicine.refill_period_days := Value 30;
     Medicine.added_date := Some 738886; Medicine.last_refill_date := Value 738886 |}.

Definition at_8 : Reminder.t :=
  {| Reminder.medicine_id := "med_0a1b2c3d"; Reminder.days_before_empty := Value 5;
     Reminder.reminder_time := Value "08:00"; Reminder.last_reminded_date := None |}.

(** A second medicine, Metformin, with the same dates. *)
Definition two_added : MedicineReminder :=
  state_of (add_medicine "99aa88bb" jan_1 "Metformin" "500mg" 60 30 added).

Definition metformin : Medicine.t :=
  {| Medicine.id := "med_99aa88bb"; Medicine.name := "Metformin";
     Medicine.dosage := "500mg"; Medicine.quantity := Value 60;
     Medicine.refill_period_days := Value 30;
     Medicine.added_date := Some 738886; Medicine.last_refill_date := Value 738886 |}.

(** Both reminded, Lisinopril first with a time [int] cannot read. *)
Definition bad_time_first : MedicineReminder :=
  state_of (set_reminder "med_99aa88bb" 5 "08:00"
    (state_of (set_reminder "med_0a1b2c3d" 5 "8am" two_added))).

(** Both reminded, Metformin second with a time [int] cannot read. *)
Definition bad_time_second : MedicineReminder :=
  state_of (set_reminder "med_99aa88bb" 5 "8am"
    (state_of (set_reminder "med_0a1b2c3d" 5 "08:00" two_added))).

(** Lisinopril refilled on 2024-01-26, then Metformin with the same order
    identifier drawn again. *)
Definition lisinopril_refilled : MedicineReminder :=
  state_of (order_refill "ffff0000" jan_26_8h "med_0a1b2c3d" two_added).

Definition both_refilled : MedicineReminder :=
  state_of (order_refill "ffff0000" jan_26_8h "med_99aa88bb" lisinopril_refilled).

(** A reminder left behind for a medicine the store does not hold. *)
Definition with_orphan : MedicineReminder :=
  set_reminders store (dict_set "med_deadbeef" at_8 (reminders store)).

(** The reminder of Metformin in [bad_time_first]. *)
Definition metformin_at_8 : Reminder.t :=
  {| Reminder.medicine_id := "med_99aa88bb"; Reminder.days_before_empty := Value 5;
     Reminder.reminder_time := Value "08:00"; Reminder.last_reminded_date := None |}.

(** The example store with the marker of 2024-01-26 on its reminder: the
    state the scan of that day at 8 leaves. *)
Definition reminded_store : MedicineReminder :=
  mark_reminded 738911 "med_0a1b2c3d" store.

(** Lisinopril reminded 30 days before it runs out, that is on the day of
    the refill, with the marker of that day: the state the scan of
    2024-01-01 at 8 leaves. *)
Definition reminded_on_refill_day : MedicineReminder :=
  mark_reminded 738886 "med_0a1b2c3d"
    (state_of (set_reminder "med_0a1b2c3d" 30 "08:00" added)).

(** Four medicines added on 2024-01-01 and reminded in the order a, b, c, d:
    the reminder dates are the days +20, +10, +20 and +3. *)
Definition four_reminders : MedicineReminder :=
  let add uuid_hex name days self :=
    state_of (add_medicine uuid_hex jan_1 name "1mg" 30 days self) in
  let remind medicine_id days self :=
    state_of (set_reminder medicine_id days "08:00" self) in
  remind "med_dddddddd" 0 (remind "med_cccccccc" 5 (remind "med_bbbbbbbb" 5 (remind "med_aaaaaaaa" 10
    (add "dddddddd" "Delta" 3 (add "cccccccc" "Gamma" 25 (add "bbbbbbbb" "Beta" 15
      (add "aaaaaaaa" "Alpha" 30 empty_store))))))).

Definition jan_6 : datetime := {| date_of := 738891; hour := 12 |}.

Definition four_upcoming : list Upcoming.t :=
  [ {| Upcoming.medicine_id := "med_bbbbbbbb"; Upcoming.medicine_name := "Beta";
       Upcoming.medicine_dosage := "1mg"; Upcoming.reminder_date := 738896;
       Upcoming.empty_date := 738901; Upcoming.reminder_time := Some "08:00" |};
    {| Upcoming.medicine_id := "med_aaaaaaaa"; Upcoming.medicine_name := "Alpha";
       Upcoming.medicine_dosage := "1mg"; Upcoming.reminder_date := 738906;
       Upcoming.empty_date := 738916; Upcoming.reminder_time := Some "08:00" |};
    {| Upcoming.medicine_id := "med_cccccccc"; Upcoming.medicine_name := "Gamma";
       Upcoming.medicine_dosage := "1mg"; Upcoming.reminder_date := 738906;
       Upcoming.empty_date := 738911; Upcoming.reminder_time := Some "08:00" |} ].

End Sample.

(** More stores to run the program on. *)
Module More.

(** A numeral of [n] zeros. *)
Fixpoint zeros (n : nat) : string :=
  match n with
  | O => EmptyString
  | S n' => String "0" (zeros n')
  end.

(** The example store with a reminder whose hour no clock shows. *)
Definition at_24 : MedicineReminder :=
  state_of (set_reminder "med_0a1b2c3d" 5 "24:00" Sample.added).

(** A medicine whose refill lasts 3000000 days, added on 2024-01-01 and
    reminded: it runs out after the year 9999. *)
Definition far : MedicineReminder :=
  state_of (set_reminder "med_0a1b2c3d" 5 "08:00"
    (state_of (add_medicine "0a1b2c3d" Sample.jan_1 "Lisinopril" "10mg" 30 3000000
                 empty_store))).

(** A store read from a file in which the medicine has no date. *)
Definition undated : MedicineReminder :=
  {| medicines :=
       [("med_0a1b2c3d",
         {| Medicine.id := "med_0a1b2c3d"; Medicine.name := "Lisinopril";
            Medicine.dosage := "10mg"; Medicine.quantity := Value 30;
            Medicine.refill_period_days := Value 30;
            Medicine.added_date := None; Medicine.last_refill_date := Absent |})];
     reminders := [("med_0a1b2c3d", Sample.at_8)];
     orders := [] |}.

(** A store read from a file in which the last refill date is null: the
    added date is not read in its place. *)
Definition null_refill_date : MedicineReminder :=
  {| medicines :=
       [("med_0a1b2c3d",
         {| Medicine.id := "med_0a1b2c3d"; Medicine.name := "Lisinopril";
            Medicine.dosage := "10mg"; Medicine.quantity := Value 30;
            Medicine.refill_period_days := Value 30;
            Medicine.added_date := Some 738886; Medicine.last_refill_date := Null |})];
     reminders := [("med_0a1b2c3d", Sample.at_8)];
     orders := [] |}.

(** Three medicines added in the order b, a, c and reminded in the order
    c, b, a; on 2024-01-26 at 8 the reminders of b and a are due. *)
Definition three_reminders : MedicineReminder :=
  let add uuid_hex name days self :=
    state_of (add_medicine uuid_hex Sample.jan_1 name "1mg" 30 days self) in
  let remind medicine_id self :=
    state_of (set_reminder medicine_id 5 "08:00" self) in
  remind "med_aaaaaaaa" (remind "med_bbbbbbbb" (remind "med_cccccccc"
    (add "cccccccc" "Gamma" 20 (add "aaaaaaaa" "Alpha" 30
      (add "bbbbbbbb" "Beta" 30 empty_store))))).

(** Three medicines of 30 days added on 2024-01-01 and reminded in the
    order b, a, c, the reminder of a with a time [int] cannot read: on
    2024-01-26 at 8 the three would be due. *)
Definition unreadable_second : MedicineReminder :=
  let add uuid_hex name self :=
    state_of (add_medicine uuid_hex Sample.jan_1 name "1mg" 30 30 self) in
  let remind medicine_id reminder_time self :=
    state_of (set_reminder medicine_id 5 reminder_time self) in
  remind "med_cccccccc" "08:00" (remind "med_aaaaaaaa" "8 o'clock"
    (remind "med_bbbbbbbb" "08:00"
      (add "cccccccc" "Gamma" (add "aaaaaaaa" "Alpha"
        (add "bbbbbbbb" "Beta" empty_store))))).

End More.

(* ================================================================== *)
(** ** The scheduler scan, [_check_reminders]

    The scan is the one place that calls [int].  Of a text with a character
    beyond ASCII, [int] reads what the Unicode tables of the interpreter
    make of it (the decimal digits and the white space of every script);
    the scan is defined, and everything below is proved, for whatever it
    reads there. *)

Section Scan.

Variable int_beyond_ascii : string -> option Z.

(** [int(text)] *)
Definition int (text : string) : option Z :=
  if is_ascii text then int_ascii text else int_beyond_ascii text.

(** [int(text)] as a call that can raise. *)
Definition int_of (text : string) : outcome Z :=
  match int text with
  | Some n => Return n
  | None => Raise (ValueError_int text)
  end.

(** Lines 106 and 107: [reminder_time = reminder.get('reminder_time', '08:00')]
    and [int(reminder_time.split(':')[0])]. *)
Definition reminder_hour_of (reminder : Reminder.t) : outcome Z :=
  match get_or (Reminder.reminder_time reminder) (Some "08:00") with
  | None => Raise AttributeError_split
  | Some reminder_time => int_of (split_colon_0 reminder_time)
  end.

(** The body of the loop, lines 98 to 123, for a key and its reminder. *)
Definition check_body (now : datetime) (medicine_id : string) (reminder : Reminder.t)
  : prog unit :=
  let today := date_of now in
  let current_hour := hour now in
  self <- get ;;
  match dict_get medicine_id (medicines self) with
  | None => ret tt
  | Some medicine =>
      last_refill_date <- lift (parse (last_refill_or_added medicine)) ;;
      let quantity := get_or (Medicine.quantity medicine) (Some 30) in
      let refill_period := get_or (Medicine.refill_period_days medicine) (Some 30) in
      let days_before_empty := get_or (Reminder.days_before_empty reminder) (Some 5) in
      reminder_hour <- lift (reminder_hour_of reminder) ;;
      dates <- lift (check_projection last_refill_date refill_period days_before_empty) ;;
      let reminder_date := snd dates in
      if (reminder_date =? today) && (reminder_hour =? current_hour)
         && negb (opt_date_eqb (Reminder.last_reminded_date reminder) (Some today))
      then
        _send_whatsapp_reminder medicine_id ;;
        self <- get ;;
        match dict_get medicine_id (reminders self) with
        | None => raise (KeyError medicine_id)
        | Some stored =>
            put (set_reminders self
                   (dict_set medicine_id
                      (Reminder.set_last_reminded_date stored today)
                      (reminders self))) ;;
            self <- get ;;
            _save_data (reminders self)
        end
      else ret tt
  end.

(** One turn of the loop.  The loop variable [reminder] is the object stored
    under the key, the one the write of line 122 reaches through
    [self.reminders[medicine_id]]: it is read from the store where the loop
    stands. *)
Definition _check_reminder (now : datetime) (medicine_id : string) : prog unit :=
  self <- get ;;
  match dict_get medicine_id (reminders self) with
  | None => ret tt
  | Some reminder => check_body now medicine_id reminder
  end.

Definition _check_reminders (now : datetime) : prog unit :=
  self <- get ;;
  for_in (keys (reminders self)) (fun medicine_id _ => _check_reminder now medicine_id) tt.

(** The same loop over the pairs [items()] gives when the loop starts. *)
Definition _check_reminders_items (now : datetime) : prog unit :=
  self <- get ;;
  for_in (reminders self) (fun item _ => check_body now (fst item) (snd item)) tt.

(** The exception the body of the scan raises at a key, if it raises: that
    of line 102, else that of line 107, else that of lines 110 and 111. *)
Definition check_raises (self : MedicineReminder) (medicine_id : string) : option exception :=
  match dict_get medicine_id (reminders self), dict_get medicine_id (medicines self) with
  | Some reminder, Some medicine =>
      match parse (last_refill_or_added medicine) with
      | Raise e => Some e
      | Return last_refill_date =>
          match reminder_hour_of reminder with
          | Raise e => Some e
          | Return _ =>
              match check_projection last_refill_date
                      (get_or (Medicine.refill_period_days medicine) (Some 30))
                      (get_or (Reminder.days_before_empty reminder) (Some 5)) with
              | Raise e => Some e
              | Return _ => None
              end
          end
      end
  | _, _ => None
  end.

(** The test of lines 114 to 116 at a key: [false] where the body skips the
    key or raises before the test. *)
Definition is_due (now : datetime) (self : MedicineReminder) (medicine_id : string) : bool :=
  match dict_get medicine_id (reminders self), dict_get medicine_id (medicines self) with
  | Some reminder, Some medicine =>
      match check_dates medicine reminder, reminder_hour_of reminder with
      | Return dates, Return reminder_hour =>
          (snd dates =? date_of now) && (reminder_hour =? hour now)
          && negb (opt_date_eqb (Reminder.last_reminded_date reminder) (Some (date_of now)))
      | _, _ => false
      end
  | _, _ => false
  end.

(** The loop of the scan over a list of keys. *)
Definition scan (now : datetime) (ids : list string) : prog unit :=
  for_in ids (fun medicine_id _ => _check_reminder now medicine_id) tt.

(** The eligibility predicate of the specification (section 4.2) for the
    reminder [R] stored under [medicine_id]:
    1. the medicine [M] exists; 2. the projected fire date is [now]'s day;
    3. [now]'s hour is the parsed hour of [R]'s reminder time;
    4. [R] was not reminded on [now]'s day. *)
Definition eligible (now : datetime) (self : MedicineReminder) (medicine_id : string)
    (R : Reminder.t) : Prop :=
  exists M,
    dict_get medicine_id (medicines self) = Some M
    /\ (exists empty_date, check_dates M R = Return (empty_date, date_of now))
    /\ reminder_hour_of R = Return (hour now)
    /\ Reminder.last_reminded_date R <> Some (date_of now).

(** The scan gets to the key: the body raises at no key before it in the
    dictionary of the reminders. *)
Definition reached (self : MedicineReminder) (medicine_id : string) : Prop :=
  exists pre post,
    keys (reminders self) = pre ++ medicine_id :: post
    /\ forall k, In k pre -> check_raises self k = None.

(** *** The stores the program reaches

    The data files start empty; the instance state is then what the five
    operations and the scans make of it. *)

Inductive reachable : MedicineReminder -> Prop :=
| reach_empty :
    reachable empty_store
| reach_add_medicine uuid_hex now name dosage quantity refill_period_days self :
    reachable self ->
    reachable (state_of (add_medicine uuid_hex now name dosage quantity
                           refill_period_days self))
| reach_list_medicines self :
    reachable self -> reachable (state_of (list_medicines self))
| reach_set_reminder medicine_id days_before_empty reminder_time self :
    reachable self ->
    reachable (state_of (set_reminder medicine_id days_before_empty reminder_time self))
| reach_order_refill uuid_hex now medicine_id self :
    reachable self -> reachable (state_of (order_refill uuid_hex now medicine_id self))
| reach_get_upcoming_reminders now self :
    reachable self -> reachable (state_of (get_upcoming_reminders now self))
| reach_check_reminders now self :
    reachable self -> reachable (state_of (_check_reminders now self)).

(** The scheduler calling the scan time after time, at the times [nows]:
    the state it leaves and the messages of all the scans. *)
Fixpoint scans (nows : list datetime) (self : MedicineReminder)
  : MedicineReminder * list whatsapp :=
  match nows with
  | [] => (self, [])
  | now :: nows' =>
      let first := _check_reminders now self in
      let rest := scans nows' (state_of first) in
      (fst rest, sent_of first ++ snd rest)
  end.

(** No scan, at any time, finds the key due. *)
Definition never_due (self : MedicineReminder) (medicine_id : string) : Prop :=
  forall now, is_due now self medicine_id = false.

(* ================================================================== *)
(** ** Dictionaries *)

Section DictFacts.
Context {V : Type}.
Implicit Types (d : dict V) (k : string) (v : V).

Lemma dict_get_set_same k v d : dict_get k (dict_set k v d) = Some v.
Proof.
  induction d as [|[k' v'] d IH]; simpl.
  - now rewrite String.eqb_refl.
  - destruct (String.eqb k k') eqn:E; simpl; rewrite E; auto.
Qed.

Lemma dict_get_set_other k k' v d :
  k <> k' -> dict_get k' (dict_set k v d) = dict_get k' d.
Proof.
  intros Hne. induction d as [|[k0 v0] d IH]; simpl.
  - destruct (String.eqb_spec k' k); congruence.
  - destruct (String.eqb_spec k k0) as [->|]; simpl.
    + destruct (String.eqb_spec k' k0); congruence.
    + now rewrite IH.
Qed.

Lemma dict_get_set k k' v d :
  dict_get k' (dict_set k v d) = if String.eqb k k' then Some v else dict_get k' d.
Proof.
  destruct (String.eqb_spec k k') as [<-|Hne].
  - apply dict_get_set_same.
  - now apply dict_get_set_other.
Qed.

Lemma keys_dict_set_present k v d :
  dict_get k d <> None -> keys (dict_set k v d) = keys d.
Proof.
  induction d as [|[k0 v0] d IH]; simpl; [congruence|].
  destruct (String.eqb_spec k k0) as [->|]; simpl; intros H; [reflexivity|].
  f_equal. now apply IH.
Qed.

Lemma dict_set_absent k v d :
  dict_get k d = None -> dict_set k v d = d ++ [(k, v)].
Proof.
  induction d as [|[k0 v0] d IH]; simpl; [reflexivity|].
  destruct (String.eqb k k0); [discriminate|].
  intros H. now rewrite IH.
Qed.

Lemma dict_get_keys k d : In k (keys d) <-> dict_get k d <> None.
Proof.
  induction d as [|[k0 v0] d IH]; simpl.
  - split; [contradiction|congruence].
  - destruct (String.eqb_spec k k0) as [->|Hne].
    + split; [discriminate|auto].
    + rewrite <- IH. split; [intros [?|?]; congruence || assumption|auto].
Qed.

Lemma keys_dict_set_absent k v d :
  dict_get k d = None -> keys (dict_set k v d) = keys d ++ [k].
Proof.
  intros H. rewrite dict_set_absent by assumption.
  unfold keys. now rewrite map_app.
Qed.

Lemma NoDup_keys_dict_set k v d : NoDup (keys d) -> NoDup (keys (dict_set k v d)).
Proof.
  intros Hd. destruct (dict_get k d) as [v0|] eqn:Hk.
  - rewrite keys_dict_set_present; [assumption|congruence].
  - rewrite keys_dict_set_absent by assumption.
    apply NoDup_app; [assumption|repeat constructor; intros []|].
    intros k' Hin [<-|[]]. apply dict_get_keys in Hin. contradiction.
Qed.

Lemma incl_keys_dict_set k v d : incl (keys d) (keys (dict_set k v d)).
Proof.
  intros k' Hk'. apply dict_get_keys. apply dict_get_keys in Hk'.
  rewrite dict_get_set. now destruct (String.eqb k k').
Qed.

Lemma In_item_key k v d : In (k, v) d -> In k (keys d).
Proof. intros H. change k with (fst (k, v)). now apply in_map. Qed.

(** With distinct keys, the value [items()] gives with a key is the value
    stored under the key. *)
Lemma dict_get_item k v d : NoDup (keys d) -> In (k, v) d -> dict_get k d = Some v.
Proof.
  induction d as [|[k0 v0] d IH]; cbn; [contradiction|].
  intros Hd [[= -> ->]|Hin].
  - now rewrite String.eqb_refl.
  - inversion Hd as [|? ? Hk0 Hd']; subst.
    destruct (String.eqb_spec k k0) as [->|]; [|auto].
    exfalso. apply Hk0. eapply In_item_key; eassumption.
Qed.

(** With distinct keys, [d[k] = v] on a present key changes the value at its
    place and nothing else. *)
Lemma dict_set_present_map k v d :
  NoDup (keys d) -> dict_get k d <> None ->
  dict_set k v d = map (fun kv => if String.eqb k (fst kv) then (fst kv, v) else kv) d.
Proof.
  induction d as [|[k0 v0] d IH]; cbn; [congruence|].
  intros Hnd Hk. inversion Hnd as [|? ? Hk0 Hnd']; subst.
  destruct (String.eqb_spec k k0) as [->|Hne].
  - f_equal. symmetry. erewrite map_ext_in; [apply map_id|].
    intros [k1 v1] Hin. cbn. destruct (String.eqb_spec k0 k1) as [<-|]; [|reflexivity].
    exfalso. apply Hk0. eapply In_item_key; eassumption.
  - f_equal. now apply IH.
Qed.

(** [d[k] = v] on a present key keeps the number of entries. *)
Lemma length_dict_set_present k v d :
  dict_get k d <> None -> List.length (dict_set k v d) = List.length d.
Proof.
  intros H. rewrite <- (length_map fst (dict_set k v d)), <- (length_map fst d).
  fold (keys (dict_set k v d)) (keys d). now rewrite keys_dict_set_present.
Qed.

End DictFacts.

Lemma append_inj_l (p a b : string) : String.append p a = String.append p b -> a = b.
Proof. induction p as [|c p IH]; cbn; [auto|]. intros [= H]. auto. Qed.

(* ================================================================== *)
(** ** The stable sort *)

Section SortFacts.
Context {A : Type} (key : A -> Z).

Lemma insert_perm x l : Permutation (x :: l) (insert key x l).
Proof.
  induction l as [|y l IH]; cbn; [reflexivity|].
  destruct (key x <=? key y); [reflexivity|].
  rewrite perm_swap. now constructor.
Qed.

Lemma sort_perm l : Permutation l (sort key l).
Proof.
  induction l as [|x l IH]; cbn; [constructor|].
  rewrite <- insert_perm. now constructor.
Qed.

Lemma insert_sorted x l :
  StronglySorted (fun a b => key a <= key b) l ->
  StronglySorted (fun a b => key a <= key b) (insert key x l).
Proof.
  induction 1 as [|y l Hl IH Hy]; cbn.
  - repeat constructor.
  - destruct (Z.leb_spec (key x) (key y)) as [Hxy|Hyx].
    + constructor; [now constructor|].
      constructor; [assumption|].
      eapply Forall_impl; [|exact Hy]. cbn. intros; lia.
    + constructor; [assumption|].
      eapply Permutation_Forall; [apply insert_perm|].
      constructor; [lia|assumption].
Qed.

Lemma sort_sorted l : StronglySorted (fun a b => key a <= key b) (sort key l).
Proof.
  induction l as [|x l IH]; cbn; [constructor|now apply insert_sorted].
Qed.

(** [insert] puts [x] before every element of its key: the elements of one
    key keep their order. *)
Lemma filter_insert d x l :
  filter (fun a => key a =? d) (insert key x l)
  = if key x =? d then x :: filter (fun a => key a =? d) l
    else filter (fun a => key a =? d) l.
Proof.
  induction l as [|y l IH]; cbn; [reflexivity|].
  destruct (Z.leb_spec (key x) (key y)) as [Hxy|Hyx]; cbn; [reflexivity|].
  rewrite IH.
  destruct (Z.eqb_spec (key x) d) as [Hx|Hx]; [|reflexivity].
  destruct (Z.eqb_spec (key y) d) as [Hy|Hy]; [lia|reflexivity].
Qed.

Lemma filter_sort d l :
  filter (fun a => key a =? d) (sort key l) = filter (fun a => key a =? d) l.
Proof.
  induction l as [|x l IH]; cbn; [reflexivity|].
  rewrite filter_insert, IH. reflexivity.
Qed.

End SortFacts.

(* ================================================================== *)
(** ** The two dates *)

Lemma check_projection_returns D P B empty_date reminder_date :
  check_projection D P B = Return (empty_date, reminder_date) <->
  exists p b,
    P = Some p /\ B = Some b
    /\ is_date (D + p) = true /\ is_date (D + p - b) = true
    /\ empty_date = D + p /\ reminder_date = D + p - b.
Proof.
  unfold check_projection, add_days, sub_days. split.
  - destruct P as [p|]; [|discriminate].
    destruct (is_date (D + p)) eqn:Hp; [|discriminate].
    destruct B as [b|]; [|discriminate].
    destruct (is_date (D + p - b)) eqn:Hb; [|discriminate].
    intros [= <- <-]. exists p, b. auto 10.
  - intros (p & b & -> & -> & Hp & Hb & -> & ->). now rewrite Hp, Hb.
Qed.

(** When lines 110 and 111 raise, and what. *)
Lemma check_projection_raises D P B e :
  check_projection D P B = Raise e <->
  (P = None /\ e = TypeError_days)
  \/ (exists p, P = Some p /\ is_date (D + p) = false /\ e = OverflowError_date)
  \/ (exists p, P = Some p /\ is_date (D + p) = true /\ B = None /\ e = TypeError_days)
  \/ (exists p b, P = Some p /\ is_date (D + p) = true /\ B = Some b
                  /\ is_date (D + p - b) = false /\ e = OverflowError_date).
Proof.
  unfold check_projection, add_days, sub_days. split.
  - destruct P as [p|]; [|intros [= <-]; auto].
    destruct (is_date (D + p)) eqn:Hp; [|intros [= <-]; right; left; eauto].
    destruct B as [b|]; [|intros [= <-]; right; right; left; eauto].
    destruct (is_date (D + p - b)) eqn:Hb; [discriminate|].
    intros [= <-]. right; right; right. exists p, b. auto 10.
  - intros [(-> & ->)|[(p & -> & Hp & ->)|[(p & -> & Hp & -> & ->)
                                           |(p & b & -> & Hp & -> & Hb & ->)]]];
      rewrite ?Hp, ?Hb; reflexivity.
Qed.

(** The scan and the query compute their dates alike. *)
Lemma upcoming_projection_check_projection D P B :
  upcoming_projection D P B = check_projection D P B.
Proof. reflexivity. Qed.

Lemma upcoming_dates_check_dates M R : upcoming_dates M R = check_dates M R.
Proof. reflexivity. Qed.

Lemma check_dates_returns M R empty_date reminder_date :
  check_dates M R = Return (empty_date, reminder_date) <->
  exists D p b,
    last_refill_or_added M = Some D
    /\ get_or (Medicine.refill_period_days M) (Some 30) = Some p
    /\ get_or (Reminder.days_before_empty R) (Some 5) = Some b
    /\ is_date (D + p) = true /\ is_date (D + p - b) = true
    /\ empty_date = D + p /\ reminder_date = D + p - b.
Proof.
  unfold check_dates, parse. split.
  - destruct (last_refill_or_added M) as [D|]; [|discriminate].
    intros H. apply check_projection_returns in H.
    destruct H as (p & b & ? & ? & ? & ? & ? & ?). exists D, p, b. auto 10.
  - intros (D & p & b & -> & Hp & Hb & ?). apply check_projection_returns.
    exists p, b. auto.
Qed.

(** When the dates of a medicine and its reminder raise, and what: line
    102 on a medicine with no date, then lines 110 and 111. *)
Lemma check_dates_raises M R e :
  check_dates M R = Raise e <->
  (last_refill_or_added M = None /\ e = TypeError_parse)
  \/ exists D,
       last_refill_or_added M = Some D
       /\ check_projection D (get_or (Medicine.refill_period_days M) (Some 30))
            (get_or (Reminder.days_before_empty R) (Some 5)) = Raise e.
Proof.
  unfold check_dates, parse.
  destruct (last_refill_or_added M) as [D|]; split.
  - intros H. right. eauto.
  - intros [[[=] _]|(D' & [= <-] & H)]. exact H.
  - intros [= <-]. auto.
  - intros [[_ ->]|(D' & [=] & _)]. reflexivity.
Qed.

Lemma check_dates_marker medicine r today :
  check_dates medicine (Reminder.set_last_reminded_date r today) = check_dates medicine r.
Proof. reflexivity. Qed.

(* ================================================================== *)
(** ** The scan, one key at a time *)

Lemma reminder_hour_of_marker r today :
  reminder_hour_of (Reminder.set_last_reminded_date r today) = reminder_hour_of r.
Proof. reflexivity. Qed.

Lemma _check_reminder_run now medicine_id self :
  _check_reminder now medicine_id self =
    match check_raises self medicine_id with
    | Some e => (Raise e, self, [])
    | None =>
        if is_due now self medicine_id
        then (Return tt, mark_reminded (date_of now) medicine_id self,
              [message_for self medicine_id])
        else (Return tt, self, [])
    end.
Proof.
  unfold _check_reminder, check_raises, is_due, mark_reminded, message_for.
  unfold bind at 1. cbn [get].
  destruct (dict_get medicine_id (reminders self)) as [reminder|] eqn:Hr; [|reflexivity].
  unfold check_body, bind at 1. cbn [get].
  destruct (dict_get medicine_id (medicines self)) as [medicine|] eqn:Hm; [|reflexivity].
  unfold check_dates.
  unfold bind at 1, lift at 1.
  destruct (parse (last_refill_or_added medicine)) as [D|e]; [|reflexivity].
  unfold bind at 1, lift at 1.
  destruct (reminder_hour_of reminder) as [h|e]; [|reflexivity].
  unfold bind at 1, lift at 1.
  destruct (check_projection D _ _) as [dates|e]; [|reflexivity].
  match goal with |- context [if ?c then _ else _] => destruct c end; [|reflexivity].
  unfold _send_whatsapp_reminder, _save_data, bind, get, put, send, ret, set_reminders.
  cbn. rewrite Hm, Hr. reflexivity.
Qed.

Lemma scan_nil now self : scan now [] self = (Return tt, self, []).
Proof. reflexivity. Qed.

Lemma scan_cons now medicine_id ids self :
  scan now (medicine_id :: ids) self =
    match check_raises self medicine_id with
    | Some e => (Raise e, self, [])
    | None =>
        if is_due now self medicine_id
        then let '(o, self', sent) :=
               scan now ids (mark_reminded (date_of now) medicine_id self) in
             (o, self', message_for self medicine_id :: sent)
        else scan now ids self
    end.
Proof.
  unfold scan at 1. cbn [for_in]. unfold bind.
  rewrite _check_reminder_run.
  destruct (check_raises self medicine_id); [reflexivity|].
  destruct (is_due now self medicine_id).
  - fold (scan now ids (mark_reminded (date_of now) medicine_id self)).
    destruct (scan now ids _) as [[o s'] w]. destruct o; reflexivity.
  - fold (scan now ids self).
    destruct (scan now ids self) as [[o s'] w]. reflexivity.
Qed.

Lemma _check_reminders_scan now self :
  _check_reminders now self = scan now (keys (reminders self)) self.
Proof.
  unfold _check_reminders, bind, get. fold (scan now (keys (reminders self))).
  destruct (scan now (keys (reminders self)) self) as [[o s'] w]. reflexivity.
Qed.

Lemma fst_message_for self medicine_id : fst (message_for self medicine_id) = medicine_id.
Proof. unfold message_for. destruct (dict_get _ _); reflexivity. Qed.

(** The body raises at no key it finds due. *)
Lemma is_due_no_raise now self k : is_due now self k = true -> check_raises self k = None.
Proof.
  unfold is_due, check_raises, check_dates.
  destruct (dict_get k (reminders self)) as [R|]; [|reflexivity].
  destruct (dict_get k (medicines self)) as [M|]; [|reflexivity].
  destruct (parse (last_refill_or_added M)) as [D|]; [|discriminate].
  destruct (check_projection D _ _); [|discriminate].
  destruct (reminder_hour_of R); [reflexivity|discriminate].
Qed.

(** *** States that differ by markers only *)

Lemma marked_from_refl today self : marked_from today self self.
Proof. unfold marked_from. auto. Qed.

Lemma marked_from_trans today s1 s2 s3 :
  marked_from today s1 s2 -> marked_from today s2 s3 -> marked_from today s1 s3.
Proof.
  intros (Hm1 & Ho1 & Hk1 & H1) (Hm2 & Ho2 & Hk2 & H2).
  repeat split; try congruence.
  intros k. destruct (H2 k) as [E2|(r2 & E2 & E2')]; destruct (H1 k) as [E1|(r1 & E1 & E1')].
  - left. congruence.
  - right. exists r1. split; congruence.
  - right. exists r2. split; congruence.
  - right. exists r1. split; [assumption|].
    rewrite E2'. rewrite E1' in E2. injection E2 as <-. reflexivity.
Qed.

Lemma marked_from_mark today medicine_id self :
  marked_from today self (mark_reminded today medicine_id self).
Proof.
  unfold mark_reminded.
  destruct (dict_get medicine_id (reminders self)) as [stored|] eqn:Hr;
    [|apply marked_from_refl].
  unfold marked_from; cbn. repeat split.
  - apply keys_dict_set_present. congruence.
  - intros k. destruct (String.eqb_spec medicine_id k) as [<-|Hne].
    + right. exists stored. split; [assumption|apply dict_get_set_same].
    + left. now apply dict_get_set_other.
Qed.

Lemma marked_from_raises today self self' k :
  marked_from today self self' -> check_raises self' k = check_raises self k.
Proof.
  intros (Hm & _ & _ & H). unfold check_raises. rewrite Hm.
  destruct (H k) as [E|(r & E & E')]; rewrite ?E, ?E'; reflexivity.
Qed.

Lemma opt_date_eqb_refl d : opt_date_eqb (Some d) (Some d) = true.
Proof. apply Z.eqb_refl. Qed.

Lemma opt_date_eqb_eq x y : opt_date_eqb x y = true <-> x = y.
Proof.
  destruct x as [a|], y as [b|]; cbn; try (split; [discriminate|congruence]).
  - rewrite Z.eqb_eq. split; congruence.
  - split; reflexivity.
Qed.

Lemma marked_from_due now self self' k :
  marked_from (date_of now) self self' ->
  is_due now self' k = true -> is_due now self k = true.
Proof.
  intros (Hm & _ & _ & H). unfold is_due. rewrite Hm.
  destruct (H k) as [E|(r & E & E')]; rewrite ?E, ?E'; [auto|].
  destruct (dict_get k (medicines self)); [|auto].
  rewrite check_dates_marker, reminder_hour_of_marker.
  destruct (check_dates _ r); [|auto].
  destruct (reminder_hour_of r); [|auto].
  cbn [Reminder.last_reminded_date Reminder.set_last_reminded_date].
  rewrite opt_date_eqb_refl. cbn. rewrite andb_false_r. discriminate.
Qed.

Lemma is_due_mark_same now medicine_id self :
  is_due now self medicine_id = true ->
  is_due now (mark_reminded (date_of now) medicine_id self) medicine_id = false.
Proof.
  unfold is_due, mark_reminded.
  destruct (dict_get medicine_id (reminders self)) as [stored|] eqn:Hr; [|discriminate].
  cbn. rewrite dict_get_set_same.
  destruct (dict_get medicine_id (medicines self)); [|reflexivity].
  rewrite check_dates_marker, reminder_hour_of_marker.
  destruct (check_dates _ stored); [|reflexivity].
  destruct (reminder_hour_of stored); [|reflexivity].
  cbn [Reminder.last_reminded_date Reminder.set_last_reminded_date].
  rewrite opt_date_eqb_refl. cbn. now rewrite andb_false_r.
Qed.

Lemma is_due_mark_other now medicine_id k self :
  medicine_id <> k ->
  is_due now (mark_reminded (date_of now) medicine_id self) k = is_due now self k.
Proof.
  intros Hne. unfold is_due, mark_reminded.
  destruct (dict_get medicine_id (reminders self)) as [stored|] eqn:Hr; [|reflexivity].
  cbn. now rewrite dict_get_set_other.
Qed.

(** A reminder marked today is not due today. *)
Lemma is_due_reminded_today now self medicine_id R :
  dict_get medicine_id (reminders self) = Some R ->
  Reminder.last_reminded_date R = Some (date_of now) ->
  is_due now self medicine_id = false.
Proof.
  intros HR Hmark. unfold is_due. rewrite HR, Hmark, opt_date_eqb_refl.
  destruct (dict_get medicine_id (medicines self)) as [M|]; [|reflexivity].
  destruct (check_dates M R); [|reflexivity].
  destruct (reminder_hour_of R); [|reflexivity].
  cbn. apply andb_false_r.
Qed.

Lemma message_for_marked today self self' k :
  marked_from today self self' -> message_for self' k = message_for self k.
Proof. intros (Hm & _). unfold message_for. now rewrite Hm. Qed.

(** *** The loop of the scan *)

Ltac scan_step now x ids self :=
  rewrite (scan_cons now x ids self);
  destruct (check_raises self x) as [?e|] eqn:?Hraise;
  [|destruct (is_due now self x) eqn:?Hdue;
    [destruct (scan now ids (mark_reminded (date_of now) x self))
       as [[?o ?s] ?w] eqn:?Hrest|]].

Lemma scan_marked now ids : forall self o self' sent,
  scan now ids self = (o, self', sent) -> marked_from (date_of now) self self'.
Proof.
  induction ids as [|x ids IH]; intros self o self' sent.
  - rewrite scan_nil. intros [= _ <- _]. apply marked_from_refl.
  - scan_step now x ids self.
    + intros [= _ <- _]. apply marked_from_refl.
    + intros [= _ <- _]. eapply marked_from_trans; [apply marked_from_mark|].
      eapply IH; eassumption.
    + apply IH.
Qed.

(** A message of the scan is for a key of the list that was due. *)
Lemma scan_sound now ids : forall self o self' sent,
  scan now ids self = (o, self', sent) ->
  forall k, In k (map fst sent) -> In k ids /\ is_due now self k = true.
Proof.
  induction ids as [|x ids IH]; intros self o self' sent.
  - rewrite scan_nil. intros [= _ _ <-] k [].
  - scan_step now x ids self.
    + intros [= _ _ <-] k [].
    + intros [= _ _ <-] k. cbn [map In]. rewrite fst_message_for.
      intros [<-|Hk]; [split; [now left|assumption]|].
      destruct (IH _ _ _ _ Hrest k Hk) as [Hin Hd]. split; [now right|].
      eapply marked_from_due; [apply marked_from_mark|eassumption].
    + intros Hscan k Hk. destruct (IH _ _ _ _ Hscan k Hk). split; [now right|assumption].
Qed.

(** A scan that runs to its end sends a message for every due key. *)
Lemma scan_complete now ids : forall self self' sent,
  scan now ids self = (Return tt, self', sent) ->
  forall k, In k ids -> is_due now self k = true -> In k (map fst sent).
Proof.
  induction ids as [|x ids IH]; intros self self' sent.
  - intros _ k [].
  - scan_step now x ids self.
    + discriminate.
    + intros [= -> <- <-] k Hin Hk. cbn [map In]. rewrite fst_message_for.
      destruct (String.eqb_spec x k) as [->|Hne]; [now left|right].
      destruct Hin as [->|Hin]; [congruence|].
      eapply IH; [eassumption|assumption|].
      now rewrite is_due_mark_other.
    + intros Hscan k [->|Hin] Hk; [congruence|]. eapply IH; eassumption.
Qed.

(** A scan sends a message for a due key when the body raises at no key
    before it, whatever happens after. *)
Lemma scan_reaches now k post pre : forall self o self' sent,
  scan now (pre ++ k :: post) self = (o, self', sent) ->
  (forall k', In k' pre -> check_raises self k' = None) ->
  is_due now self k = true ->
  In k (map fst sent).
Proof.
  induction pre as [|x pre IH]; intros self o self' sent; cbn [app].
  - intros Hscan _ Hk. revert Hscan. rewrite scan_cons.
    rewrite (is_due_no_raise _ _ _ Hk), Hk.
    destruct (scan now post _) as [[o1 s1] w1]. intros [= _ _ <-].
    cbn [map In]. rewrite fst_message_for. now left.
  - scan_step now x (pre ++ k :: post) self.
    + intros _ Hpre. rewrite Hpre in Hraise by now left. discriminate.
    + intros [= _ _ <-] Hpre Hk. cbn [map In]. rewrite fst_message_for.
      destruct (String.eqb_spec x k) as [->|Hne]; [now left|right].
      eapply IH; [exact Hrest| |].
      * intros k' Hk'.
        rewrite (marked_from_raises _ _ _ k' (marked_from_mark (date_of now) x self)).
        apply Hpre. now right.
      * now rewrite is_due_mark_other.
    + intros Hscan Hpre Hk. eapply IH; [exact Hscan| |exact Hk].
      intros k' Hk'. apply Hpre. now right.
Qed.

(** No key gets two messages in one scan. *)
Lemma scan_NoDup now ids : forall self o self' sent,
  scan now ids self = (o, self', sent) -> NoDup (map fst sent).
Proof.
  induction ids as [|x ids IH]; intros self o self' sent.
  - rewrite scan_nil. intros [= _ _ <-]. constructor.
  - scan_step now x ids self.
    + intros [= _ _ <-]. constructor.
    + intros [= _ _ <-]. cbn [map]. rewrite fst_message_for. constructor.
      * intros Hin. destruct (scan_sound _ _ _ _ _ _ Hrest x Hin) as [_ Hd].
        rewrite is_due_mark_same in Hd by assumption. discriminate.
      * eapply IH; eassumption.
    + apply IH.
Qed.

(** A second scan from the state the first one left stops where the first
    one stopped, sends nothing and changes nothing. *)
Lemma scan_again now ids : forall self o self' sent,
  scan now ids self = (o, self', sent) -> scan now ids self' = (o, self', []).
Proof.
  induction ids as [|x ids IH]; intros self o self' sent.
  - rewrite !scan_nil. now intros [= <- <- _].
  - scan_step now x ids self.
    + intros [= <- <- _]. rewrite scan_cons, Hraise. reflexivity.
    + intros [= <- <- _]. rewrite scan_cons.
      pose proof (scan_marked _ _ _ _ _ _ Hrest) as Hm.
      rewrite (marked_from_raises _ _ _ x Hm).
      rewrite (marked_from_raises _ _ _ x (marked_from_mark _ x self)), Hraise.
      destruct (is_due now s x) eqn:Hd.
      * apply (marked_from_due _ _ _ _ Hm) in Hd.
        rewrite is_due_mark_same in Hd by assumption. discriminate.
      * eapply IH; eassumption.
    + intros Hscan. rewrite scan_cons.
      pose proof (scan_marked _ _ _ _ _ _ Hscan) as Hm.
      rewrite (marked_from_raises _ _ _ x Hm), Hraise.
      destruct (is_due now self' x) eqn:Hd.
      * apply (marked_from_due _ _ _ _ Hm) in Hd. congruence.
      * eapply IH; eassumption.
Qed.

(** The scan leaves alone the reminder of a key it sent no message for. *)
Lemma scan_frame now ids : forall self o self' sent,
  scan now ids self = (o, self', sent) ->
  forall k, ~ In k (map fst sent) ->
  dict_get k (reminders self') = dict_get k (reminders self).
Proof.
  induction ids as [|x ids IH]; intros self o self' sent.
  - rewrite scan_nil. now intros [= _ <- _].
  - scan_step now x ids self.
    + now intros [= _ <- _].
    + intros [= _ <- <-] k. cbn [map In]. rewrite fst_message_for. intros Hk.
      rewrite (IH _ _ _ _ Hrest k) by tauto.
      unfold mark_reminded. destruct (dict_get x (reminders self)); [|reflexivity].
      cbn. apply dict_get_set_other. tauto.
    + apply IH.
Qed.

(** The scan leaves the marker of today on the reminder of a key it sent a
    message for. *)
Lemma scan_marks_sent now ids : forall self o self' sent,
  scan now ids self = (o, self', sent) ->
  forall k, In k (map fst sent) ->
  exists r, dict_get k (reminders self) = Some r
            /\ dict_get k (reminders self')
               = Some (Reminder.set_last_reminded_date r (date_of now)).
Proof.
  induction ids as [|x ids IH]; intros self o self' sent.
  - rewrite scan_nil. intros [= _ _ <-] k [].
  - scan_step now x ids self.
    + intros [= _ _ <-] k [].
    + intros [= _ <- <-] k. cbn [map In]. rewrite fst_message_for.
      assert (Hx : exists r, dict_get x (reminders self) = Some r).
      { unfold is_due in Hdue. destruct (dict_get x (reminders self)); [eauto|discriminate]. }
      destruct Hx as [rx Hx].
      destruct (String.eqb_spec x k) as [<-|Hne].
      * intros _. exists rx. split; [assumption|].
        destruct (in_dec string_dec x (map fst w)) as [Hin|Hnin].
        -- destruct (scan_sound _ _ _ _ _ _ Hrest x Hin) as [_ Hd].
           rewrite is_due_mark_same in Hd by assumption. discriminate.
        -- rewrite (scan_frame _ _ _ _ _ _ Hrest x Hnin).
           unfold mark_reminded. rewrite Hx. cbn. apply dict_get_set_same.
      * intros [?|Hin]; [congruence|].
        destruct (IH _ _ _ _ Hrest k Hin) as (r & E & E').
        exists r. split; [|assumption].
        rewrite <- E. unfold mark_reminded. rewrite Hx. cbn.
        symmetry. now apply dict_get_set_other.
    + apply IH.
Qed.

(** A scan raises nothing when the body raises at no key of the list. *)
Lemma scan_returns now ids : forall self o self' sent,
  (forall k, In k ids -> check_raises self k = None) ->
  scan now ids self = (o, self', sent) -> o = Return tt.
Proof.
  induction ids as [|x ids IH]; intros self o self' sent Hok.
  - rewrite scan_nil. now intros [= <- _ _].
  - scan_step now x ids self.
    + rewrite Hok in Hraise by now left. discriminate.
    + intros [= <- _ _]. eapply IH; [|exact Hrest].
      intros k Hk.
      rewrite (marked_from_raises _ _ _ k (marked_from_mark _ x self)).
      apply Hok. now right.
    + apply IH. intros k Hk. apply Hok. now right.
Qed.

(** A scan that returns met no key at which the body raises. *)
Lemma scan_returned now ids : forall self self' sent,
  scan now ids self = (Return tt, self', sent) ->
  forall k, In k ids -> check_raises self k = None.
Proof.
  induction ids as [|x ids IH]; intros self self' sent.
  - intros _ k [].
  - scan_step now x ids self.
    + discriminate.
    + intros [= -> _ _] k [<-|Hk]; [assumption|].
      rewrite <- (marked_from_raises _ _ _ k (marked_from_mark (date_of now) x self)).
      eapply IH; eassumption.
    + intros Hscan k [<-|Hk]; [assumption|]. eapply IH; eassumption.
Qed.

(** A scan that raises stopped at the first key at which the body raises,
    and sent messages for keys before it only. *)
Lemma scan_raised now ids e : forall self self' sent,
  scan now ids self = (Raise e, self', sent) ->
  exists pre k post,
    ids = pre ++ k :: post
    /\ (forall k', In k' pre -> check_raises self k' = None)
    /\ check_raises self k = Some e
    /\ (forall k', In k' (map fst sent) -> In k' pre).
Proof.
  induction ids as [|x ids IH]; intros self self' sent.
  - rewrite scan_nil. discriminate.
  - scan_step now x ids self.
    + intros [= -> _ <-]. exists [], x, ids. repeat split; [intros ? []|assumption|intros ? []].
    + intros [= -> _ <-].
      destruct (IH _ _ _ Hrest) as (pre & k & post & -> & Hpre & Hk & Hsent).
      exists (x :: pre), k, post. repeat split.
      * intros k' [<-|Hk']; [assumption|].
        rewrite <- (marked_from_raises _ _ _ k' (marked_from_mark (date_of now) x self)).
        now apply Hpre.
      * now rewrite <- (marked_from_raises _ _ _ k (marked_from_mark (date_of now) x self)).
      * cbn [map In]. rewrite fst_message_for. intros k' [<-|Hk']; [now left|right; auto].
    + intros Hscan.
      destruct (IH _ _ _ Hscan) as (pre & k & post & -> & Hpre & Hk & Hsent).
      exists (x :: pre), k, post. repeat split; [|assumption|intros; right; auto].
      intros k' [<-|Hk']; [assumption|auto].
Qed.

(** A scan raises only what the body raises at a key of the list. *)
Lemma scan_raises now ids e self self' sent :
  scan now ids self = (Raise e, self', sent) ->
  exists k, In k ids /\ check_raises self k = Some e.
Proof.
  intros Hscan.
  destruct (scan_raised _ _ _ _ _ _ Hscan) as (pre & k & post & -> & _ & Hk & _).
  exists k. split; [|assumption]. apply in_or_app. right. now left.
Qed.

(** With distinct keys, the messages of a scan are those of the due keys it
    went through, in the order of the keys: all of them when it returns,
    those before the first key at which the body raises when it raises. *)
Lemma scan_trace now ids : forall self o self' sent,
  NoDup ids ->
  scan now ids self = (o, self', sent) ->
  exists done,
    sent = map (message_for self) (filter (is_due now self) done)
    /\ (forall k, In k done -> check_raises self k = None)
    /\ match o with
       | Return _ => done = ids
       | Raise e => exists k post, ids = done ++ k :: post /\ check_raises self k = Some e
       end.
Proof.
  induction ids as [|x ids IH]; intros self o self' sent Hnd.
  - rewrite scan_nil. intros [= <- _ <-]. exists []. repeat split. intros k [].
  - inversion Hnd as [|? ? Hx Hnd']; subst.
    scan_step now x ids self.
    + intros [= <- _ <-]. exists []. split; [reflexivity|]. split; [intros k []|].
      exists x, ids. split; [reflexivity|assumption].
    + intros [= <- _ <-].
      destruct (IH _ _ _ _ Hnd' Hrest) as (done & Hw & Hok & Ho).
      assert (Hin : forall k, In k done -> In k ids).
      { destruct o0; [now subst|].
        destruct Ho as (k & post & -> & _). intros k' Hk'. apply in_or_app. now left. }
      exists (x :: done). split; [|split].
      * cbn [filter]. rewrite Hdue. cbn [map]. f_equal. rewrite Hw.
        rewrite (filter_ext_in (is_due now (mark_reminded (date_of now) x self))
                               (is_due now self)).
        -- apply map_ext. intros k.
           apply (message_for_marked _ _ _ k (marked_from_mark (date_of now) x self)).
        -- intros k Hk. apply is_due_mark_other. intros ->. apply Hx. now apply Hin.
      * intros k [<-|Hk]; [assumption|].
        rewrite <- (marked_from_raises _ _ _ k (marked_from_mark (date_of now) x self)).
        now apply Hok.
      * destruct o0; [now subst|].
        destruct Ho as (k & post & -> & Hk). exists k, post. split; [reflexivity|].
        now rewrite <- (marked_from_raises _ _ _ k (marked_from_mark (date_of now) x self)).
    + intros Hscan.
      destruct (IH _ _ _ _ Hnd' Hscan) as (done & Hw & Hok & Ho).
      exists (x :: done). split; [|split].
      * cbn [filter]. rewrite Hdue. assumption.
      * intros k [<-|Hk]; [assumption|auto].
      * destruct o; [now subst|].
        destruct Ho as (k & post & -> & Hk). exists k, post. split; [reflexivity|assumption].
Qed.

(** A message of a scan is the text of line 132 for a medicine of the store. *)
Lemma scan_messages now ids : forall self o self' sent,
  scan now ids self = (o, self', sent) ->
  forall msg, In msg sent ->
  exists M, dict_get (fst msg) (medicines self) = Some M
            /\ snd msg = whatsapp_message M (fst msg).
Proof.
  induction ids as [|x ids IH]; intros self o self' sent.
  - rewrite scan_nil. intros [= _ _ <-] msg [].
  - scan_step now x ids self.
    + intros [= _ _ <-] msg [].
    + intros [= _ _ <-] msg [<-|Hmsg].
      * unfold is_due in Hdue. unfold message_for.
        destruct (dict_get x (reminders self)); [|discriminate].
        destruct (dict_get x (medicines self)) as [M|] eqn:HM; [|discriminate].
        exists M. split; [exact HM|reflexivity].
      * destruct (IH _ _ _ _ Hrest msg Hmsg) as (M & HM & Htext).
        exists M. split; [|assumption].
        destruct (marked_from_mark (date_of now) x self) as (E & _). now rewrite <- E.
    + apply IH.
Qed.

(** *** The test of the scan and the eligibility predicate *)

Lemma is_due_eligible now self medicine_id R :
  dict_get medicine_id (reminders self) = Some R ->
  is_due now self medicine_id = true <-> eligible now self medicine_id R.
Proof.
  intros HR. unfold is_due, eligible. rewrite HR.
  destruct (dict_get medicine_id (medicines self)) as [M|].
  - destruct (check_dates M R) as [[empty_date reminder_date]|e] eqn:Hp.
    + destruct (reminder_hour_of R) as [h|e] eqn:Hh.
      * cbn [snd]. rewrite !andb_true_iff, negb_true_iff, !Z.eqb_eq.
        split.
        -- intros [[-> ->] Hmark]. exists M. repeat split; eauto.
           intros E. apply opt_date_eqb_eq in E. congruence.
        -- intros (M' & [= <-] & (e' & He') & [= ->] & Hmark).
           rewrite Hp in He'. injection He' as _ ->.
           repeat split.
           destruct (opt_date_eqb _ _) eqn:E; [|reflexivity].
           apply opt_date_eqb_eq in E. contradiction.
      * split; [discriminate|]. intros (M' & _ & _ & [=] & _).
    + split; [discriminate|].
      intros (M' & [= <-] & (e' & He') & _). congruence.
  - split; [discriminate|]. intros (M' & [=] & _).
Qed.

(** What the body of the scan raises at a key, and on what: at a reminder
    [R] of a medicine [M] of the store, the TypeError of [parse(None)] when
    [M] has no date; else the exception of line 107 on the reminder time;
    else the exception of lines 110 and 111. *)
Lemma check_raises_kind self k e :
  check_raises self k = Some e <->
  exists M R,
    dict_get k (medicines self) = Some M
    /\ dict_get k (reminders self) = Some R
    /\ ((last_refill_or_added M = None /\ e = TypeError_parse)
        \/ exists D,
             last_refill_or_added M = Some D
             /\ (reminder_hour_of R = Raise e
                 \/ ((exists h, reminder_hour_of R = Return h)
                     /\ check_projection D
                          (get_or (Medicine.refill_period_days M) (Some 30))
                          (get_or (Reminder.days_before_empty R) (Some 5))
                        = Raise e))).
Proof.
  unfold check_raises. split.
  - destruct (dict_get k (reminders self)) as [R|]; [|discriminate].
    destruct (dict_get k (medicines self)) as [M|]; [|discriminate].
    unfold parse. destruct (last_refill_or_added M) as [D|] eqn:HD.
    + destruct (reminder_hour_of R) as [h|e'] eqn:Hh.
      * destruct (check_projection D _ _) as [dates|e'] eqn:Hp; [discriminate|].
        intros [= <-]. exists M, R. repeat split. right. exists D. split; [exact HD|].
        right. split; [eauto|assumption].
      * intros [= <-]. exists M, R. repeat split. right. exists D. auto.
    + intros [= <-]. exists M, R. auto.
  - intros (M & R & -> & -> & [[-> ->]|(D & -> & [Hh|[[h Hh] Hp]])]); cbn [parse].
    + reflexivity.
    + now rewrite Hh.
    + now rewrite Hh, Hp.
Qed.

(** When line 107 raises, and what. *)
Lemma reminder_hour_of_raises R e :
  reminder_hour_of R = Raise e <->
  (Reminder.reminder_time R = Null /\ e = AttributeError_split)
  \/ exists t,
       get_or (Reminder.reminder_time R) (Some "08:00") = Some t
       /\ int (split_colon_0 t) = None
       /\ e = ValueError_int (split_colon_0 t).
Proof.
  unfold reminder_hour_of, int_of.
  destruct (Reminder.reminder_time R) as [| |t]; cbn [get_or].
  - destruct (int (split_colon_0 "08:00")) eqn:E; split.
    + discriminate.
    + intros [[[=] _]|(t & [= <-] & Ht & _)]. congruence.
    + intros [= <-]. right. eauto.
    + intros [[[=] _]|(t & [= <-] & _ & ->)]. reflexivity.
  - split.
    + intros [= <-]. auto.
    + intros [[_ ->]|(t & [=] & _)]. reflexivity.
  - destruct (int (split_colon_0 t)) eqn:E; split.
    + discriminate.
    + intros [[[=] _]|(t' & [= <-] & Ht & _)]. congruence.
    + intros [= <-]. right. eauto.
    + intros [[[=] _]|(t' & [= <-] & _ & ->)]. reflexivity.
Qed.

(* ================================================================== *)
(** ** The query, one key at a time *)

Lemma upcoming_reminder_run now medicine_id acc self :
  upcoming_reminder now medicine_id acc self =
    match upcoming_entry now self medicine_id with
    | Raise e => (Raise e, self, [])
    | Return (Some e) => (Return (acc ++ [e]), self, [])
    | Return None => (Return acc, self, [])
    end.
Proof.
  unfold upcoming_reminder, upcoming_entry.
  unfold bind at 1. cbn [get].
  destruct (dict_get medicine_id (reminders self)) as [reminder|]; [|reflexivity].
  unfold upcoming_body, bind at 1. cbn [get].
  destruct (dict_get medicine_id (medicines self)) as [medicine|]; [|reflexivity].
  unfold upcoming_dates. unfold bind at 1, lift at 1.
  destruct (parse (last_refill_or_added medicine)) as [D|e]; [|reflexivity].
  unfold bind, lift.
  destruct (upcoming_projection D _ _) as [dates|e]; [|reflexivity].
  destruct (date_of now <=? snd dates); reflexivity.
Qed.

Lemma collect_cons now medicine_id ids acc self :
  collect now (medicine_id :: ids) acc self =
    match upcoming_entry now self medicine_id with
    | Raise e => (Raise e, self, [])
    | Return (Some e) => collect now ids (acc ++ [e]) self
    | Return None => collect now ids acc self
    end.
Proof.
  unfold collect at 1. cbn [for_in]. unfold bind.
  rewrite upcoming_reminder_run.
  destruct (upcoming_entry now self medicine_id) as [[e|]|e]; [| |reflexivity].
  - fold (collect now ids (acc ++ [e])).
    destruct (collect now ids (acc ++ [e]) self) as [[o s'] w]. reflexivity.
  - fold (collect now ids acc).
    destruct (collect now ids acc self) as [[o s'] w]. reflexivity.
Qed.

(** The loop of the query writes nothing and sends nothing. *)
Lemma collect_pure now ids : forall acc self,
  state_of (collect now ids acc self) = self /\ sent_of (collect now ids acc self) = [].
Proof.
  induction ids as [|x ids IH]; intros acc self; [split; reflexivity|].
  rewrite collect_cons.
  destruct (upcoming_entry now self x) as [[e|]|e]; auto.
Qed.

(** When the loop of the query returns, it returns the elements of the keys,
    in the order of the keys, after what the list held. *)
Lemma collect_returns now ids : forall acc self l,
  outcome_of (collect now ids acc self) = Return l ->
  l = acc ++ upcoming_entries now self ids.
Proof.
  induction ids as [|x ids IH]; intros acc self l.
  - cbn. intros [= <-]. now rewrite app_nil_r.
  - rewrite collect_cons. cbn [upcoming_entries].
    destruct (upcoming_entry now self x) as [[e|]|e].
    + intros H. apply IH in H. now rewrite <- app_assoc in H.
    + apply IH.
    + discriminate.
Qed.

(** The loop of the query returns when no key raises. *)
Lemma collect_total now ids : forall acc self,
  (forall k e, In k ids -> upcoming_entry now self k <> Raise e) ->
  exists l, outcome_of (collect now ids acc self) = Return l.
Proof.
  induction ids as [|x ids IH]; intros acc self Hok.
  - exists acc. reflexivity.
  - rewrite collect_cons.
    destruct (upcoming_entry now self x) as [[e|]|e] eqn:Hx.
    + apply IH. intros k e' Hk. apply Hok. now right.
    + apply IH. intros k e' Hk. apply Hok. now right.
    + exfalso. apply (Hok x e); [now left|assumption].
Qed.

(** A loop of the query that raises stopped at the first key that raises. *)
Lemma collect_raised now ids e : forall acc self,
  outcome_of (collect now ids acc self) = Raise e ->
  exists pre k post,
    ids = pre ++ k :: post
    /\ (forall k' e', In k' pre -> upcoming_entry now self k' <> Raise e')
    /\ upcoming_entry now self k = Raise e.
Proof.
  induction ids as [|x ids IH]; intros acc self.
  - discriminate.
  - rewrite collect_cons.
    destruct (upcoming_entry now self x) as [[e0|]|e0] eqn:Hx.
    + intros H. destruct (IH _ _ H) as (pre & k & post & -> & Hpre & Hk).
      exists (x :: pre), k, post. repeat split; [|assumption].
      intros k' e' [<-|Hk']; [congruence|auto].
    + intros H. destruct (IH _ _ H) as (pre & k & post & -> & Hpre & Hk).
      exists (x :: pre), k, post. repeat split; [|assumption].
      intros k' e' [<-|Hk']; [congruence|auto].
    + intros [= ->]. exists [], x, ids. repeat split; [|assumption]. intros k' e' [].
Qed.

Lemma collect_raises now ids e acc self :
  outcome_of (collect now ids acc self) = Raise e ->
  exists k, In k ids /\ upcoming_entry now self k = Raise e.
Proof.
  intros H. destruct (collect_raised _ _ _ _ _ H) as (pre & k & post & -> & _ & Hk).
  exists k. split; [|assumption]. apply in_or_app. right. now left.
Qed.

Lemma collect_raises_at now ids k e : forall acc self,
  In k ids -> upcoming_entry now self k = Raise e ->
  exists e', outcome_of (collect now ids acc self) = Raise e'.
Proof.
  induction ids as [|x ids IH]; intros acc self; [intros []|].
  intros [->|Hin] Hk; rewrite collect_cons.
  - rewrite Hk. eexists. reflexivity.
  - destruct (upcoming_entry now self x) as [[e0|]|e0]; [eauto|eauto|].
    eexists. reflexivity.
Qed.

Lemma get_upcoming_reminders_run now self :
  get_upcoming_reminders now self =
    match outcome_of (collect now (keys (reminders self)) [] self) with
    | Return upcoming => (Return (sort Upcoming.reminder_date upcoming), self, [])
    | Raise e => (Raise e, self, [])
    end.
Proof.
  unfold get_upcoming_reminders, bind at 1. cbn [get].
  unfold bind. fold (collect now (keys (reminders self)) []).
  destruct (collect_pure now (keys (reminders self)) [] self) as [Hs Hw].
  destruct (collect now (keys (reminders self)) [] self) as [[o s'] w].
  cbn in Hs, Hw. subst. destruct o; reflexivity.
Qed.

(** Where an element of the loop comes from. *)
Lemma upcoming_entries_In now self ids e :
  In e (upcoming_entries now self ids) ->
  exists k, In k ids /\ upcoming_entry now self k = Return (Some e).
Proof.
  induction ids as [|x ids IH]; cbn; [contradiction|].
  destruct (upcoming_entry now self x) as [[e'|]|e'] eqn:Hx.
  - intros [<-|H]; [exists x; auto|].
    destruct (IH H) as (k & ? & ?). exists k. auto.
  - intros H. destruct (IH H) as (k & ? & ?). exists k. auto.
  - intros H. destruct (IH H) as (k & ? & ?). exists k. auto.
Qed.

Lemma upcoming_entries_complete now self ids k e :
  In k ids -> upcoming_entry now self k = Return (Some e) ->
  In e (upcoming_entries now self ids).
Proof.
  induction ids as [|x ids IH]; cbn; [contradiction|].
  intros [->|Hin] He.
  - rewrite He. now left.
  - destruct (upcoming_entry now self x) as [[e'|]|e']; [right| |]; auto.
Qed.

(** What the query appends for a key, field by field. *)
Lemma upcoming_entry_record now self k e :
  upcoming_entry now self k = Return (Some e) <->
  exists M R,
    dict_get k (medicines self) = Some M
    /\ dict_get k (reminders self) = Some R
    /\ upcoming_dates M R = Return (Upcoming.empty_date e, Upcoming.reminder_date e)
    /\ date_of now <= Upcoming.reminder_date e
    /\ Upcoming.medicine_id e = k
    /\ Upcoming.medicine_name e = Medicine.name M
    /\ Upcoming.medicine_dosage e = Medicine.dosage M
    /\ Upcoming.reminder_time e = get_or (Reminder.reminder_time R) (Some "08:00").
Proof.
  unfold upcoming_entry. split.
  - destruct (dict_get k (reminders self)) as [R|]; [|discriminate].
    destruct (dict_get k (medicines self)) as [M|]; [|discriminate].
    destruct (upcoming_dates M R) as [[ed rd]|] eqn:Hp; [|discriminate].
    cbn [fst snd]. destruct (Z.leb_spec (date_of now) rd); [|discriminate].
    intros [= <-]. exists M, R. cbn. repeat split; auto.
  - intros (M & R & -> & -> & -> & Hle & <- & Hn & Hd & Ht). cbn [fst snd].
    destruct (Z.leb_spec (date_of now) (Upcoming.reminder_date e)); [|lia].
    destruct e. cbn in *. now subst.
Qed.

Lemma upcoming_entry_fields now self k e :
  upcoming_entry now self k = Return (Some e) ->
  exists reminder medicine,
    dict_get k (reminders self) = Some reminder
    /\ dict_get k (medicines self) = Some medicine
    /\ upcoming_dates medicine reminder
       = Return (Upcoming.empty_date e, Upcoming.reminder_date e)
    /\ Upcoming.medicine_id e = k
    /\ date_of now <= Upcoming.reminder_date e.
Proof.
  intros H. apply upcoming_entry_record in H.
  destruct H as (M & R & ? & ? & ? & ? & ? & _). exists R, M. auto.
Qed.

Lemma upcoming_entry_raises now self k e :
  upcoming_entry now self k = Raise e <->
  exists M R, dict_get k (medicines self) = Some M
              /\ dict_get k (reminders self) = Some R
              /\ upcoming_dates M R = Raise e.
Proof.
  unfold upcoming_entry.
  destruct (dict_get k (reminders self)) as [R|].
  - destruct (dict_get k (medicines self)) as [M|].
    + destruct (upcoming_dates M R) as [dates|e'] eqn:Hd; split.
      * destruct (date_of now <=? snd dates); discriminate.
      * intros (M' & R' & [= <-] & [= <-] & H). congruence.
      * intros [= <-]. eauto.
      * intros (M' & R' & [= <-] & [= <-] & H). congruence.
    + split; [discriminate|]. intros (M' & R' & [=] & _).
  - split; [discriminate|]. intros (M' & R' & _ & [=] & _).
Qed.

(** The elements with one reminder date, in the order of the keys. *)
Lemma upcoming_entries_on now self d ids :
  map Upcoming.medicine_id
    (filter (fun e => Upcoming.reminder_date e =? d) (upcoming_entries now self ids))
  = filter (upcoming_on now self d) ids.
Proof.
  induction ids as [|x ids IH]; [reflexivity|].
  cbn [upcoming_entries filter]. unfold upcoming_on at 1.
  destruct (upcoming_entry now self x) as [[e|]|e'] eqn:Hx; [|assumption|assumption].
  cbn [filter]. destruct (Upcoming.reminder_date e =? d); [|assumption].
  cbn [map]. rewrite IH. f_equal.
  apply upcoming_entry_fields in Hx. destruct Hx as (_ & _ & _ & _ & _ & H & _). exact H.
Qed.

Lemma upcoming_entries_ids now self ids :
  map Upcoming.medicine_id (upcoming_entries now self ids)
  = filter (fun k => match upcoming_entry now self k with
                     | Return (Some _) => true
                     | _ => false
                     end) ids.
Proof.
  induction ids as [|x ids IH]; [reflexivity|].
  cbn [upcoming_entries filter].
  destruct (upcoming_entry now self x) as [[e|]|e'] eqn:Hx; [|assumption|assumption].
  cbn [map]. rewrite IH. f_equal.
  apply upcoming_entry_record in Hx. now destruct Hx as (_ & _ & _ & _ & _ & _ & H & _).
Qed.

Lemma get_upcoming_reminders_In now self l e :
  outcome_of (get_upcoming_reminders now self) = Return l ->
  In e l <->
  exists k, In k (keys (reminders self)) /\ upcoming_entry now self k = Return (Some e).
Proof.
  rewrite get_upcoming_reminders_run.
  destruct (outcome_of (collect now (keys (reminders self)) [] self)) as [upcoming|e0] eqn:Hc;
    [|discriminate].
  apply collect_returns in Hc. cbn in Hc. subst upcoming.
  cbn. intros [= <-]. split.
  - intros Hin. apply upcoming_entries_In.
    eapply Permutation_in; [symmetry; apply sort_perm|exact Hin].
  - intros (k & Hk & He).
    eapply Permutation_in; [apply sort_perm|].
    eapply upcoming_entries_complete; eassumption.
Qed.

Lemma get_upcoming_reminders_returns now self l :
  outcome_of (get_upcoming_reminders now self) = Return l ->
  l = sort Upcoming.reminder_date (upcoming_entries now self (keys (reminders self))).
Proof.
  rewrite get_upcoming_reminders_run.
  destruct (outcome_of (collect now _ [] self)) as [upcoming|e] eqn:Hc; [|discriminate].
  apply collect_returns in Hc. cbn in Hc. subst. now intros [= <-].
Qed.

(** A query that returns met no key that raises. *)
Lemma get_upcoming_reminders_returned now self l k e :
  outcome_of (get_upcoming_reminders now self) = Return l ->
  In k (keys (reminders self)) ->
  upcoming_entry now self k <> Raise e.
Proof.
  rewrite get_upcoming_reminders_run. intros Hl Hk He.
  destruct (collect_raises_at now _ k e [] self Hk He) as [e' He'].
  rewrite He' in Hl. discriminate.
Qed.

(** The query returns when the dates of no reminder of a medicine of the
    store raise. *)
Lemma get_upcoming_reminders_total now self :
  (forall k M R e, dict_get k (medicines self) = Some M ->
                   dict_get k (reminders self) = Some R ->
                   upcoming_dates M R <> Raise e) ->
  exists l, get_upcoming_reminders now self = (Return l, self, []).
Proof.
  intros Hdates. rewrite get_upcoming_reminders_run.
  destruct (collect_total now (keys (reminders self)) [] self) as [l Hl].
  - intros k e _ He. apply upcoming_entry_raises in He.
    destruct He as (M & R & HM & HR & He). exact (Hdates k M R e HM HR He).
  - rewrite Hl. eauto.
Qed.

(** The element of a reminder in a query that returns. *)
Lemma upcoming_entry_returned now self l k M R D p b :
  outcome_of (get_upcoming_reminders now self) = Return l ->
  dict_get k (medicines self) = Some M ->
  dict_get k (reminders self) = Some R ->
  last_refill_or_added M = Some D ->
  get_or (Medicine.refill_period_days M) (Some 30) = Some p ->
  get_or (Reminder.days_before_empty R) (Some 5) = Some b ->
  upcoming_entry now self k
  = if date_of now <=? D + p - b
    then Return (Some
           {| Upcoming.medicine_id := k;
              Upcoming.medicine_name := Medicine.name M;
              Upcoming.medicine_dosage := Medicine.dosage M;
              Upcoming.reminder_date := D + p - b;
              Upcoming.empty_date := D + p;
              Upcoming.reminder_time :=
                get_or (Reminder.reminder_time R) (Some "08:00") |})
    else Return None.
Proof.
  intros Hl HM HR HD Hp Hb.
  assert (Hk : In k (keys (reminders self))) by (apply dict_get_keys; congruence).
  pose proof (fun e => get_upcoming_reminders_returned now self l k e Hl Hk) as Hno.
  unfold upcoming_entry in *. rewrite HR, HM in *.
  destruct (upcoming_dates M R) as [[ed rd]|e] eqn:Hd; [|now destruct (Hno e)].
  rewrite upcoming_dates_check_dates in Hd. apply check_dates_returns in Hd.
  destruct Hd as (D' & p' & b' & HD' & Hp' & Hb' & _ & _ & -> & ->).
  assert (D' = D) by congruence. assert (p' = p) by congruence.
  assert (b' = b) by congruence. subst. reflexivity.
Qed.

(* ================================================================== *)
(** ** The loops over [items()]

    In a dictionary, where no key is there twice, the reminder a loop gets
    with a key from [items()] is the one stored under the key when the loop
    reaches it: the loops over the pairs are the loops over the keys. *)

Lemma _check_reminder_item now k r self :
  dict_get k (reminders self) = Some r ->
  _check_reminder now k self = check_body now k r self.
Proof.
  intros H. unfold _check_reminder, bind. cbn [get]. rewrite H.
  now destruct (check_body now k r self) as [[o s'] w].
Qed.

Lemma upcoming_reminder_item now k r acc self :
  dict_get k (reminders self) = Some r ->
  upcoming_reminder now k acc self = upcoming_body now k r acc self.
Proof.
  intros H. unfold upcoming_reminder, bind. cbn [get]. rewrite H.
  now destruct (upcoming_body now k r acc self) as [[o s'] w].
Qed.

Lemma scan_items now items : forall self,
  NoDup (keys items) ->
  (forall k r, In (k, r) items -> dict_get k (reminders self) = Some r) ->
  for_in items (fun item _ => check_body now (fst item) (snd item)) tt self
  = scan now (keys items) self.
Proof.
  induction items as [|[k r] items IH]; intros self Hnd Hget; [reflexivity|].
  inversion Hnd as [|? ? Hk Hnd']; subst.
  unfold scan. cbn [keys map fst for_in]. fold (keys items) (scan now (keys items)).
  unfold bind. cbn [fst snd].
  rewrite <- (_check_reminder_item now k r self) by (apply Hget; now left).
  rewrite _check_reminder_run.
  destruct (check_raises self k); [reflexivity|].
  destruct (is_due now self k).
  - rewrite IH; [reflexivity|assumption|].
    intros k' r' Hin. unfold mark_reminded. rewrite (Hget k r) by now left. cbn.
    rewrite dict_get_set_other; [apply Hget; now right|].
    intros ->. apply Hk. eapply In_item_key; eassumption.
  - rewrite IH; [reflexivity|assumption|]. intros k' r' Hin. apply Hget. now right.
Qed.

Lemma collect_items now items : forall acc self,
  NoDup (keys items) ->
  (forall k r, In (k, r) items -> dict_get k (reminders self) = Some r) ->
  for_in items (fun item upcoming => upcoming_body now (fst item) (snd item) upcoming)
    acc self
  = collect now (keys items) acc self.
Proof.
  induction items as [|[k r] items IH]; intros acc self Hnd Hget; [reflexivity|].
  inversion Hnd as [|? ? Hk Hnd']; subst.
  unfold collect. cbn [keys map fst for_in]. fold (keys items).
  unfold bind. cbn [fst snd].
  rewrite <- (upcoming_reminder_item now k r acc self) by (apply Hget; now left).
  rewrite upcoming_reminder_run.
  destruct (upcoming_entry now self k) as [[e|]|e]; [| |reflexivity].
  - rewrite IH; [reflexivity|assumption|]. intros k' r' Hin. apply Hget. now right.
  - rewrite IH; [reflexivity|assumption|]. intros k' r' Hin. apply Hget. now right.
Qed.

(** On a store whose reminders have distinct keys, the scan and the query
    over [items()] are the scan and the query of the model. *)
Lemma loops_over_items now self :
  NoDup (keys (reminders self)) ->
  _check_reminders_items now self = _check_reminders now self
  /\ get_upcoming_reminders_items now self = get_upcoming_reminders now self.
Proof.
  intros Hnd. split.
  - unfold _check_reminders_items, _check_reminders, bind. cbn [get].
    rewrite scan_items; [reflexivity|assumption|].
    intros k r. now apply dict_get_item.
  - unfold get_upcoming_reminders_items, get_upcoming_reminders, bind at 1 3. cbn [get].
    unfold bind. rewrite collect_items; [reflexivity|assumption|].
    intros k r. now apply dict_get_item.
Qed.

(* ================================================================== *)
(** ** The projection *)

Lemma is_due_dated now self k M R empty_date reminder_date :
  dict_get k (medicines self) = Some M ->
  dict_get k (reminders self) = Some R ->
  check_dates M R = Return (empty_date, reminder_date) ->
  is_due now self k = true <->
  reminder_date = date_of now
  /\ reminder_hour_of R = Return (hour now)
  /\ Reminder.last_reminded_date R <> Some (date_of now).
Proof.
  intros HM HR Hc. rewrite (is_due_eligible _ _ _ _ HR). unfold eligible. split.
  - intros (M' & HM' & (e & He) & Hh & Hmark).
    assert (M' = M) by congruence. subst M'.
    rewrite Hc in He. injection He as _ ->. auto.
  - intros (-> & Hh & Hmark). exists M. eauto.
Qed.

(** C1, as the code has it.  For a medicine with last refill date [D] and
    refill period [P] and its reminder with [B] days before empty.  When
    [D + P] and [D + P - B] are days of the years 1 to 9999, the scan and
    the query both compute the empty date [D + P] and the fire date
    [D + P - B]: lines 110, 111 and 219, 220 return them; the body of the
    query appends for the medicine the element with these dates exactly
    when the fire date is not before today, and every element a query
    returns for the medicine carries them; the body of the scan sends the
    message and sets the marker exactly when the fire date is today, the
    hour is the hour of the reminder and the marker is not today's, and so
    does a scan that returns.  When [D + P] or [D + P - B] is not such a
    day, lines 110, 111 and 219, 220 raise OverflowError, and so do the
    bodies of the query and of the scan. *)
Theorem projection_exact now self medicine_id M R D P B :
  dict_get medicine_id (medicines self) = Some M ->
  dict_get medicine_id (reminders self) = Some R ->
  Medicine.last_refill_date M = Value D ->
  Medicine.refill_period_days M = Value P ->
  Reminder.days_before_empty R = Value B ->
  (is_date (D + P) = true -> is_date (D + P - B) = true ->
   check_projection D (Some P) (Some B) = Return (D + P, D + P - B)
   /\ upcoming_projection D (Some P) (Some B) = Return (D + P, D + P - B)
   /\ (forall upcoming,
         upcoming_reminder now medicine_id upcoming self
         = (Return (if date_of now <=? D + P - B
                    then upcoming ++
                         [ {| Upcoming.medicine_id := medicine_id;
                              Upcoming.medicine_name := Medicine.name M;
                              Upcoming.medicine_dosage := Medicine.dosage M;
                              Upcoming.reminder_date := D + P - B;
                              Upcoming.empty_date := D + P;
                              Upcoming.reminder_time :=
                                get_or (Reminder.reminder_time R) (Some "08:00") |} ]
                    else upcoming), self, []))
   /\ (forall l, outcome_of (get_upcoming_reminders now self) = Return l ->
         (forall e, In e l -> Upcoming.medicine_id e = medicine_id ->
            Upcoming.empty_date e = D + P /\ Upcoming.reminder_date e = D + P - B)
         /\ (date_of now <= D + P - B ->
             exists e, In e l /\ Upcoming.medicine_id e = medicine_id))
   /\ (forall h, reminder_hour_of R = Return h ->
         _check_reminder now medicine_id self
         = if (D + P - B =? date_of now) && (h =? hour now)
              && negb (opt_date_eqb (Reminder.last_reminded_date R) (Some (date_of now)))
           then (Return tt, mark_reminded (date_of now) medicine_id self,
                 [(medicine_id, whatsapp_message M medicine_id)])
           else (Return tt, self, []))
   /\ (outcome_of (_check_reminders now self) = Return tt ->
       (In medicine_id (map fst (sent_of (_check_reminders now self))) <->
        D + P - B = date_of now
        /\ reminder_hour_of R = Return (hour now)
        /\ Reminder.last_reminded_date R <> Some (date_of now))))
  /\ (is_date (D + P) = false \/ is_date (D + P - B) = false ->
      check_projection D (Some P) (Some B) = Raise OverflowError_date
      /\ upcoming_projection D (Some P) (Some B) = Raise OverflowError_date
      /\ (forall upcoming,
            upcoming_reminder now medicine_id upcoming self
            = (Raise OverflowError_date, self, []))
      /\ (forall h, reminder_hour_of R = Return h ->
            _check_reminder now medicine_id self = (Raise OverflowError_date, self, []))).
Proof.
  intros HM HR HD HP HB.
  assert (Hlast : last_refill_or_added M = Some D).
  { unfold last_refill_or_added. now rewrite HD. }
  assert (Hdates : check_dates M R = check_projection D (Some P) (Some B)).
  { unfold check_dates. now rewrite Hlast, HP, HB. }
  split.
  - intros Hp Hb.
    assert (Hc : check_projection D (Some P) (Some B) = Return (D + P, D + P - B)).
    { apply check_projection_returns. exists P, B. auto 10. }
    rewrite Hc in Hdates.
    assert (Hentry : upcoming_entry now self medicine_id
                     = if date_of now <=? D + P - B
                       then Return (Some
                              {| Upcoming.medicine_id := medicine_id;
                                 Upcoming.medicine_name := Medicine.name M;
                                 Upcoming.medicine_dosage := Medicine.dosage M;
                                 Upcoming.reminder_date := D + P - B;
                                 Upcoming.empty_date := D + P;
                                 Upcoming.reminder_time :=
                                   get_or (Reminder.reminder_time R) (Some "08:00") |})
                       else Return None).
    { unfold upcoming_entry. now rewrite HR, HM, upcoming_dates_check_dates, Hdates. }
    split; [exact Hc|]. split; [exact Hc|]. split; [|split; [|split]].
    + intros upcoming. rewrite upcoming_reminder_run, Hentry.
      now destruct (date_of now <=? D + P - B).
    + intros l Hl. split.
      * intros e He Hid.
        destruct (proj1 (get_upcoming_reminders_In _ _ _ e Hl) He) as (k & _ & Hk).
        assert (k = medicine_id).
        { apply upcoming_entry_fields in Hk.
          destruct Hk as (_ & _ & _ & _ & _ & Hk & _). congruence. }
        subst k. rewrite Hentry in Hk.
        destruct (date_of now <=? D + P - B); [|discriminate].
        injection Hk as <-. split; reflexivity.
      * intros Hle. eexists. split.
        -- apply (get_upcoming_reminders_In _ _ _ _ Hl). exists medicine_id. split.
           ++ apply dict_get_keys. congruence.
           ++ rewrite Hentry. destruct (Z.leb_spec (date_of now) (D + P - B)); [|lia].
              reflexivity.
        -- reflexivity.
    + intros h Hh. rewrite _check_reminder_run.
      assert (Hno : check_raises self medicine_id = None).
      { unfold check_raises. rewrite HR, HM, Hlast, Hh, HP, HB. cbn [parse get_or].
        now rewrite Hc. }
      rewrite Hno. unfold is_due, message_for. now rewrite HR, HM, Hdates, Hh.
    + intros Hret. rewrite _check_reminders_scan in *.
      destruct (scan now (keys (reminders self)) self) as [[o s'] w] eqn:Hscan.
      cbn in Hret. subst o. cbn [sent_of snd].
      rewrite <- (is_due_dated now self medicine_id M R _ _ HM HR Hdates). split.
      * intros Hin. now destruct (scan_sound _ _ _ _ _ _ Hscan _ Hin).
      * intros Hdue. eapply scan_complete; [exact Hscan| |exact Hdue].
        apply dict_get_keys. congruence.
  - intros Hout.
    assert (Hc : check_projection D (Some P) (Some B) = Raise OverflowError_date).
    { apply check_projection_raises. destruct (is_date (D + P)) eqn:Hp.
      - destruct Hout as [?|Hb]; [discriminate|].
        right; right; right. exists P, B. auto 10.
      - right; left. eauto. }
    rewrite Hc in Hdates.
    split; [exact Hc|]. split; [exact Hc|]. split.
    + intros upcoming. rewrite upcoming_reminder_run. unfold upcoming_entry.
      now rewrite HR, HM, upcoming_dates_check_dates, Hdates.
    + intros h Hh. rewrite _check_reminder_run. unfold check_raises.
      rewrite HR, HM, Hlast, Hh, HP, HB. cbn [parse get_or]. now rewrite Hc.
Qed.

(* ================================================================== *)
(** ** The scheduler scan *)

(** C2, as the code has it.  A scan sends a message for the reminder [R]
    of a key exactly when the four conditions of eligibility hold for it
    and the scan gets to it, that is, the body raises at no key before it in
    the dictionary of the reminders.  The scan returns exactly when the body
    raises at no key; then it sends a message for [R] exactly when the four
    conditions hold.  The body raises at the reminder of a medicine of the
    store: when the medicine has no date (line 102), else when the hour of
    the reminder time cannot be read (line 107), else when the two dates
    cannot be computed (lines 110 and 111). *)
Theorem check_reminders_notifies_eligible now self o self' sent medicine_id R :
  _check_reminders now self = (o, self', sent) ->
  dict_get medicine_id (reminders self) = Some R ->
  (In medicine_id (map fst sent) <->
   eligible now self medicine_id R /\ reached self medicine_id)
  /\ (o = Return tt <->
      forall k, In k (keys (reminders self)) -> check_raises self k = None)
  /\ (o = Return tt ->
      (In medicine_id (map fst sent) <-> eligible now self medicine_id R))
  /\ (forall k e,
        check_raises self k = Some e <->
        exists M R',
          dict_get k (medicines self) = Some M
          /\ dict_get k (reminders self) = Some R'
          /\ ((last_refill_or_added M = None /\ e = TypeError_parse)
              \/ exists D,
                   last_refill_or_added M = Some D
                   /\ (reminder_hour_of R' = Raise e
                       \/ ((exists h, reminder_hour_of R' = Return h)
                           /\ check_projection D
                                (get_or (Medicine.refill_period_days M) (Some 30))
                                (get_or (Reminder.days_before_empty R') (Some 5))
                              = Raise e)))).
Proof.
  rewrite _check_reminders_scan. intros Hscan HR.
  assert (Hkey : In medicine_id (keys (reminders self))).
  { apply dict_get_keys. congruence. }
  split; [|split; [|split; [|exact (check_raises_kind self)]]].
  - split.
    + intros Hin. destruct (scan_sound _ _ _ _ _ _ Hscan _ Hin) as [_ Hdue].
      split; [now apply (is_due_eligible _ _ _ _ HR)|].
      destruct o as [[]|e].
      * destruct (in_split _ _ Hkey) as (pre & post & Hkeys).
        exists pre, post. split; [exact Hkeys|].
        intros k Hk. eapply scan_returned; [exact Hscan|].
        rewrite Hkeys. apply in_or_app. now left.
      * destruct (scan_raised _ _ _ _ _ _ Hscan) as (pre & k & post & Hkeys & Hpre & _ & Hsent).
        destruct (in_split _ _ (Hsent _ Hin)) as (pre1 & pre2 & ->).
        exists pre1, (pre2 ++ k :: post). split.
        -- rewrite Hkeys, <- app_assoc. reflexivity.
        -- intros k' Hk'. apply Hpre. apply in_or_app. now left.
    + intros [Hel (pre & post & Hkeys & Hpre)].
      rewrite Hkeys in Hscan. eapply scan_reaches; [exact Hscan|exact Hpre|].
      now apply (is_due_eligible _ _ _ _ HR).
  - split.
    + intros ->. eapply scan_returned; eassumption.
    + intros Hok. eapply scan_returns; eassumption.
  - intros ->. split.
    + intros Hin. apply (is_due_eligible _ _ _ _ HR).
      now destruct (scan_sound _ _ _ _ _ _ Hscan _ Hin).
    + intros Hel. eapply scan_complete; [exact Hscan|exact Hkey|].
      now apply (is_due_eligible _ _ _ _ HR).
Qed.

(** C3. Two scans in a row at the same [now]: the first sends at most one
    message for a key and leaves the marker of [now]'s day on every reminder
    it sent one for; the second sends none, stops as the first did, and
    leaves the state the first left. *)
Theorem check_reminders_twice now self :
  let first := _check_reminders now self in
  let second := _check_reminders now (state_of first) in
  NoDup (map fst (sent_of first))
  /\ (forall medicine_id, In medicine_id (map fst (sent_of first)) ->
        exists r, dict_get medicine_id (reminders (state_of first)) = Some r
                  /\ Reminder.last_reminded_date r = Some (date_of now))
  /\ sent_of second = []
  /\ state_of second = state_of first
  /\ outcome_of second = outcome_of first.
Proof.
  cbv zeta. rewrite !_check_reminders_scan.
  destruct (scan now (keys (reminders self)) self) as [[o s'] w] eqn:Hscan.
  cbn [state_of sent_of outcome_of fst snd].
  assert (Hkeys : keys (reminders s') = keys (reminders self)).
  { now destruct (scan_marked _ _ _ _ _ _ Hscan) as (_ & _ & Hk & _). }
  rewrite Hkeys, (scan_again _ _ _ _ _ _ Hscan). cbn.
  repeat split.
  - eapply scan_NoDup; eassumption.
  - intros k Hk. destruct (scan_marks_sent _ _ _ _ _ _ Hscan k Hk) as (r & _ & Hr).
    eexists. split; [exact Hr|reflexivity].
Qed.

(* ================================================================== *)
(** ** The mutations *)

Lemma add_medicine_run uuid_hex now name dosage quantity refill_period_days self :
  let medicine :=
    {| Medicine.id := String.append "med_" uuid_hex; Medicine.name := name;
       Medicine.dosage := dosage; Medicine.quantity := Value quantity;
       Medicine.refill_period_days := Value refill_period_days;
       Medicine.added_date := Some (date_of now);
       Medicine.last_refill_date := Value (date_of now) |} in
  add_medicine uuid_hex now name dosage quantity refill_period_days self
  = (Return medicine,
     set_medicines self (dict_set (String.append "med_" uuid_hex) medicine (medicines self)),
     []).
Proof. reflexivity. Qed.

Lemma set_reminder_run medicine_id days_before_empty reminder_time self :
  let reminder :=
    {| Reminder.medicine_id := medicine_id;
       Reminder.days_before_empty := Value days_before_empty;
       Reminder.reminder_time := Value reminder_time;
       Reminder.last_reminded_date := None |} in
  set_reminder medicine_id days_before_empty reminder_time self
  = match dict_get medicine_id (medicines self) with
    | None => (Raise (ValueError_not_found medicine_id), self, [])
    | Some _ =>
        (Return reminder,
         set_reminders self (dict_set medicine_id reminder (reminders self)), [])
    end.
Proof.
  cbv zeta. unfold set_reminder, dict_mem, bind at 1. cbn [get].
  destruct (dict_get medicine_id (medicines self)); reflexivity.
Qed.

Lemma order_refill_run uuid_hex now medicine_id self :
  order_refill uuid_hex now medicine_id self
  = match dict_get medicine_id (medicines self) with
    | None => (Raise (ValueError_not_found medicine_id), self, [])
    | Some medicine =>
        let order :=
          {| Order.id := String.append "order_" uuid_hex;
             Order.medicine_id := medicine_id;
             Order.medicine_name := Medicine.name medicine;
             Order.medicine_dosage := Medicine.dosage medicine;
             Order.order_date := date_of now;
             Order.status := "placed" |} in
        (Return order,
         {| medicines :=
              dict_set medicine_id
                (Medicine.set_last_refill_date medicine (date_of now)) (medicines self);
            reminders := reminders self;
            orders := dict_set (String.append "order_" uuid_hex) order (orders self) |},
         [])
    end.
Proof.
  unfold order_refill, bind at 1. cbn [get].
  destruct (dict_get medicine_id (medicines self)); reflexivity.
Qed.

Lemma list_medicines_run self :
  list_medicines self = (Return (values (medicines self)), self, []).
Proof. reflexivity. Qed.

(** Every method leaves the three dictionaries with distinct keys. *)
Lemma methods_keep_well_formed self :
  well_formed self ->
  (forall uuid_hex now name dosage quantity refill_period_days,
     well_formed (state_of (add_medicine uuid_hex now name dosage quantity
                              refill_period_days self)))
  /\ (forall medicine_id days_before_empty reminder_time,
        well_formed (state_of (set_reminder medicine_id days_before_empty
                                 reminder_time self)))
  /\ (forall uuid_hex now medicine_id,
        well_formed (state_of (order_refill uuid_hex now medicine_id self)))
  /\ (forall now, well_formed (state_of (_check_reminders now self)))
  /\ (forall now, well_formed (state_of (get_upcoming_reminders now self))).
Proof.
  intros (Hm & Hr & Ho). repeat split; intros.
  - rewrite add_medicine_run. cbn. now apply NoDup_keys_dict_set.
  - rewrite add_medicine_run. assumption.
  - rewrite add_medicine_run. assumption.
  - rewrite set_reminder_run. now destruct (dict_get _ _).
  - rewrite set_reminder_run. destruct (dict_get _ _); [cbn|assumption].
    now apply NoDup_keys_dict_set.
  - rewrite set_reminder_run. now destruct (dict_get _ _).
  - rewrite order_refill_run. destruct (dict_get _ _); [cbn|assumption].
    now apply NoDup_keys_dict_set.
  - rewrite order_refill_run. now destruct (dict_get _ _).
  - rewrite order_refill_run. destruct (dict_get _ _); [cbn|assumption].
    now apply NoDup_keys_dict_set.
  - rewrite _check_reminders_scan.
    destruct (scan now _ self) as [[o s'] w] eqn:Hscan.
    destruct (scan_marked _ _ _ _ _ _ Hscan) as (E & _ & _ & _). cbn. now rewrite E.
  - rewrite _check_reminders_scan.
    destruct (scan now _ self) as [[o s'] w] eqn:Hscan.
    destruct (scan_marked _ _ _ _ _ _ Hscan) as (_ & _ & E & _). cbn. now rewrite E.
  - rewrite _check_reminders_scan.
    destruct (scan now _ self) as [[o s'] w] eqn:Hscan.
    destruct (scan_marked _ _ _ _ _ _ Hscan) as (_ & E & _ & _). cbn. now rewrite E.
  - rewrite get_upcoming_reminders_run. now destruct (outcome_of _).
  - rewrite get_upcoming_reminders_run. now destruct (outcome_of _).
  - rewrite get_upcoming_reminders_run. now destruct (outcome_of _).
Qed.

(** C4, as the code has it.  The mutations do not look at the numbers they
    are given.  [add_medicine], on any store and with any refill period,
    raises nothing: it returns the record with the refill period it was
    given and stores it under its identifier.  [set_reminder] on a medicine
    of the store, with any days before empty, returns the reminder with the
    days it was given and stores it under the medicine. *)
Theorem add_medicine_and_set_reminder_take_any_number
    uuid_hex now name dosage quantity refill_period_days
    medicine_id days_before_empty reminder_time self :
  (exists medicine,
     add_medicine uuid_hex now name dosage quantity refill_period_days self
     = (Return medicine,
        set_medicines self (dict_set (Medicine.id medicine) medicine (medicines self)),
        [])
     /\ Medicine.id medicine = String.append "med_" uuid_hex
     /\ Medicine.refill_period_days medicine = Value refill_period_days
     /\ dict_get (Medicine.id medicine)
          (medicines (state_of (add_medicine uuid_hex now name dosage quantity
                                  refill_period_days self)))
        = Some medicine)
  /\ (dict_get medicine_id (medicines self) <> None ->
      exists reminder,
        set_reminder medicine_id days_before_empty reminder_time self
        = (Return reminder,
           set_reminders self (dict_set medicine_id reminder (reminders self)), [])
        /\ Reminder.days_before_empty reminder = Value days_before_empty
        /\ dict_get medicine_id
             (reminders (state_of (set_reminder medicine_id days_before_empty
                                     reminder_time self)))
           = Some reminder).
Proof.
  split.
  - rewrite add_medicine_run. cbv zeta.
    exists {| Medicine.id := String.append "med_" uuid_hex; Medicine.name := name;
              Medicine.dosage := dosage; Medicine.quantity := Value quantity;
              Medicine.refill_period_days := Value refill_period_days;
              Medicine.added_date := Some (date_of now);
              Medicine.last_refill_date := Value (date_of now) |}.
    split; [reflexivity|]. split; [reflexivity|]. split; [reflexivity|].
    cbn. apply dict_get_set_same.
  - intros HM. rewrite set_reminder_run. cbv zeta.
    destruct (dict_get medicine_id (medicines self)); [|congruence].
    eexists. split; [reflexivity|]. split; [reflexivity|].
    cbn. apply dict_get_set_same.
Qed.

(** C5. [set_reminder] on a medicine the store does not hold raises the
    not-found error and changes nothing.  On a medicine of the store it
    returns the record of its three arguments, with no marker, and stores
    that record under the medicine whatever reminder was there (in its
    place when there was one), touching no other reminder, no medicine and
    no order. *)
Theorem set_reminder_not_found_or_replaces
    medicine_id days_before_empty reminder_time self :
  let run := set_reminder medicine_id days_before_empty reminder_time self in
  let reminder :=
    {| Reminder.medicine_id := medicine_id;
       Reminder.days_before_empty := Value days_before_empty;
       Reminder.reminder_time := Value reminder_time;
       Reminder.last_reminded_date := None |} in
  (dict_get medicine_id (medicines self) = None ->
   run = (Raise (ValueError_not_found medicine_id), self, []))
  /\ (dict_get medicine_id (medicines self) <> None ->
      outcome_of run = Return reminder
      /\ sent_of run = []
      /\ dict_get medicine_id (reminders (state_of run)) = Some reminder
      /\ (forall k, k <> medicine_id ->
            dict_get k (reminders (state_of run)) = dict_get k (reminders self))
      /\ (dict_get medicine_id (reminders self) <> None ->
          keys (reminders (state_of run)) = keys (reminders self))
      /\ medicines (state_of run) = medicines self
      /\ orders (state_of run) = orders self).
Proof.
  cbv zeta. rewrite set_reminder_run. cbv zeta.
  destruct (dict_get medicine_id (medicines self)) as [M|].
  - split; [discriminate|]. intros _. cbn. repeat split.
    + apply dict_get_set_same.
    + intros k Hk. apply dict_get_set_other. congruence.
    + apply keys_dict_set_present.
  - split; [reflexivity|congruence].
Qed.

(** C6, as the code has it.  [order_refill] on a medicine the store does
    not hold raises the not-found error and changes nothing.  On a medicine
    [M] of the store it returns an order of status "placed" with the name
    and dosage of [M] and today as its date, records it under the
    identifier it draws and touches no other order: with a new identifier,
    the orders are the orders before and this one after them; with an
    identifier in use, the order takes the place of the one stored under it
    and the orders are as many as before.  It sets the last refill date of
    [M] to today and touches no other medicine.  For a reminder [R] of [M]
    ([P] the refill period of [M], [B] the days before empty of [R]): when
    today plus [P] and today plus [P - B] are days of the years 1 to 9999,
    the fire date computed from then on is the order date plus [P - B],
    which is not before today plus [P - B]; when one of them is not, the
    computation raises OverflowError. *)
Theorem order_refill_not_found_or_places uuid_hex now medicine_id self :
  let run := order_refill uuid_hex now medicine_id self in
  (dict_get medicine_id (medicines self) = None ->
   run = (Raise (ValueError_not_found medicine_id), self, []))
  /\ (forall M,
        dict_get medicine_id (medicines self) = Some M ->
        let order :=
          {| Order.id := String.append "order_" uuid_hex;
             Order.medicine_id := medicine_id;
             Order.medicine_name := Medicine.name M;
             Order.medicine_dosage := Medicine.dosage M;
             Order.order_date := date_of now;
             Order.status := "placed" |} in
        let M' := Medicine.set_last_refill_date M (date_of now) in
        outcome_of run = Return order
        /\ sent_of run = []
        /\ reminders (state_of run) = reminders self
        /\ dict_get (Order.id order) (orders (state_of run)) = Some order
        /\ (forall k, k <> Order.id order ->
              dict_get k (orders (state_of run)) = dict_get k (orders self))
        /\ (dict_get (Order.id order) (orders self) = None ->
            orders (state_of run) = orders self ++ [(Order.id order, order)])
        /\ (dict_get (Order.id order) (orders self) <> None ->
            keys (orders (state_of run)) = keys (orders self)
            /\ List.length (orders (state_of run)) = List.length (orders self))
        /\ dict_get medicine_id (medicines (state_of run)) = Some M'
        /\ Medicine.last_refill_date M' = Value (date_of now)
        /\ (forall k, k <> medicine_id ->
              dict_get k (medicines (state_of run)) = dict_get k (medicines self))
        /\ keys (medicines (state_of run)) = keys (medicines self)
        /\ forall R P B,
             get_or (Medicine.refill_period_days M) (Some 30) = Some P ->
             get_or (Reminder.days_before_empty R) (Some 5) = Some B ->
             (is_date (date_of now + P) = true ->
              is_date (date_of now + P - B) = true ->
              check_dates M' R
              = Return (Order.order_date order + P, Order.order_date order + (P - B))
              /\ upcoming_dates M' R
                 = Return (Order.order_date order + P, Order.order_date order + (P - B))
              /\ Order.order_date order + (P - B) >= date_of now + (P - B))
             /\ (is_date (date_of now + P) = false
                 \/ is_date (date_of now + P - B) = false ->
                 check_dates M' R = Raise OverflowError_date
                 /\ upcoming_dates M' R = Raise OverflowError_date)).
Proof.
  cbv zeta. rewrite order_refill_run. split.
  - intros ->. reflexivity.
  - intros M HM. rewrite HM. cbn [outcome_of sent_of state_of fst snd
                                   medicines reminders orders Order.id Order.order_date].
    split; [reflexivity|]. split; [reflexivity|]. split; [reflexivity|].
    split; [apply dict_get_set_same|].
    split; [intros k Hk; apply dict_get_set_other; congruence|].
    split; [intros Hnew; now apply dict_set_absent|].
    split; [intros Hold; split;
            [now apply keys_dict_set_present|now apply length_dict_set_present]|].
    split; [apply dict_get_set_same|].
    split; [reflexivity|].
    split; [intros k Hk; apply dict_get_set_other; congruence|].
    split; [apply keys_dict_set_present; congruence|].
    intros R P B HP HB.
    assert (Hdates : check_dates (Medicine.set_last_refill_date M (date_of now)) R
                     = check_projection (date_of now) (Some P) (Some B)).
    { unfold check_dates, last_refill_or_added. cbn. now rewrite HP, HB. }
    change (upcoming_dates (Medicine.set_last_refill_date M (date_of now)) R)
      with (check_dates (Medicine.set_last_refill_date M (date_of now)) R).
    rewrite Hdates. split.
    + intros Hp Hb.
      assert (Hc : check_projection (date_of now) (Some P) (Some B)
                   = Return (date_of now + P, date_of now + (P - B))).
      { apply check_projection_returns. exists P, B.
        repeat split; try assumption. lia. }
      rewrite Hc. repeat split. lia.
    + intros Hout.
      assert (Hc : check_projection (date_of now) (Some P) (Some B)
                   = Raise OverflowError_date).
      { apply check_projection_raises. destruct (is_date (date_of now + P)) eqn:Hp.
        - destruct Hout as [?|Hb]; [discriminate|].
          right; right; right. exists P, B. auto 10.
        - right; left. eauto. }
      now rewrite Hc.
Qed.

(** C10. [order_refill] leaves the reminders as they are, markers included,
    when it returns and when it raises; so, if the reminder of the medicine
    was reminded today, no scan of today after the refill sends a message
    for it, wherever the new fire date falls. *)
Theorem order_refill_keeps_reminders uuid_hex now medicine_id self :
  let after := state_of (order_refill uuid_hex now medicine_id self) in
  reminders after = reminders self
  /\ forall R later,
       dict_get medicine_id (reminders self) = Some R ->
       Reminder.last_reminded_date R = Some (date_of now) ->
       date_of later = date_of now ->
       ~ In medicine_id (map fst (sent_of (_check_reminders later after))).
Proof.
  cbv zeta.
  assert (Hkeep : reminders (state_of (order_refill uuid_hex now medicine_id self))
                  = reminders self).
  { rewrite order_refill_run. destruct (dict_get medicine_id (medicines self)); reflexivity. }
  split; [exact Hkeep|].
  intros R later HR Hmark Hday Hin.
  rewrite _check_reminders_scan in Hin.
  destruct (scan later _ _) as [[o s'] w] eqn:Hscan.
  destruct (scan_sound _ _ _ _ _ _ Hscan _ Hin) as [_ Hd].
  rewrite (is_due_reminded_today later _ medicine_id R) in Hd; [discriminate| |congruence].
  now rewrite Hkeep.
Qed.

(* ================================================================== *)
(** ** Reminders without a medicine, and the query *)

(** C7. A reminder whose medicine the store does not hold: the scan sends
    no message for it and leaves its record as it is, the body of the scan
    returns at its key without a write, the query returns no element for it
    and the body of the query returns at its key the list it was given.
    Neither loop raises at it: an exception of the scan or of the query comes
    from a key whose medicine is in the store. *)
Theorem orphan_reminder_is_skipped now self medicine_id :
  dict_get medicine_id (medicines self) = None ->
  ~ In medicine_id (map fst (sent_of (_check_reminders now self)))
  /\ dict_get medicine_id (reminders (state_of (_check_reminders now self)))
     = dict_get medicine_id (reminders self)
  /\ _check_reminder now medicine_id self = (Return tt, self, [])
  /\ (forall l e, outcome_of (get_upcoming_reminders now self) = Return l ->
        In e l -> Upcoming.medicine_id e <> medicine_id)
  /\ (forall upcoming,
        upcoming_reminder now medicine_id upcoming self = (Return upcoming, self, []))
  /\ (forall e, outcome_of (_check_reminders now self) = Raise e ->
        exists k, k <> medicine_id /\ check_raises self k = Some e)
  /\ (forall e, outcome_of (get_upcoming_reminders now self) = Raise e ->
        exists k, k <> medicine_id /\ upcoming_entry now self k = Raise e).
Proof.
  intros Horphan.
  assert (Hnot_due : is_due now self medicine_id = false).
  { unfold is_due. rewrite Horphan. now destruct (dict_get medicine_id (reminders self)). }
  assert (Hno_raise : check_raises self medicine_id = None).
  { unfold check_raises. rewrite Horphan. now destruct (dict_get medicine_id (reminders self)). }
  assert (Hentry : upcoming_entry now self medicine_id = Return None).
  { unfold upcoming_entry. rewrite Horphan.
    now destruct (dict_get medicine_id (reminders self)). }
  assert (Hnot_sent : ~ In medicine_id (map fst (sent_of (_check_reminders now self)))).
  { rewrite _check_reminders_scan.
    destruct (scan now _ self) as [[o s'] w] eqn:Hscan. intros Hin.
    destruct (scan_sound _ _ _ _ _ _ Hscan _ Hin) as [_ Hd]. congruence. }
  split; [exact Hnot_sent|]. split; [|split; [|split; [|split; [|split]]]].
  - rewrite _check_reminders_scan in *.
    destruct (scan now _ self) as [[o s'] w] eqn:Hscan.
    exact (scan_frame _ _ _ _ _ _ Hscan _ Hnot_sent).
  - now rewrite _check_reminder_run, Hno_raise, Hnot_due.
  - intros l e Hl He Hid.
    destruct (proj1 (get_upcoming_reminders_In _ _ _ e Hl) He) as (k & _ & Hk).
    apply upcoming_entry_fields in Hk.
    destruct Hk as (_ & M & _ & HM & _ & Hk & _). congruence.
  - intros upcoming. now rewrite upcoming_reminder_run, Hentry.
  - intros e. rewrite _check_reminders_scan.
    destruct (scan now _ self) as [[o s'] w] eqn:Hscan. cbn. intros ->.
    destruct (scan_raises _ _ _ _ _ _ Hscan) as (k & _ & Hk).
    exists k. split; [congruence|assumption].
  - intros e. rewrite get_upcoming_reminders_run.
    destruct (outcome_of (collect now _ [] self)) as [l|e'] eqn:Hc; [discriminate|].
    cbn. intros [= ->].
    destruct (collect_raises _ _ _ _ _ Hc) as (k & _ & Hk).
    exists k. split; [congruence|assumption].
Qed.

(** C8. When the query returns a list: every element has its reminder date
    on or after today; the list is in non-decreasing order of reminder date;
    and the elements of one reminder date are those of the keys of the
    reminders in the order of the dictionary. *)
Theorem upcoming_reminders_sorted now self l :
  outcome_of (get_upcoming_reminders now self) = Return l ->
  Forall (fun e => date_of now <= Upcoming.reminder_date e) l
  /\ StronglySorted (fun a b => Upcoming.reminder_date a <= Upcoming.reminder_date b) l
  /\ forall d,
       map Upcoming.medicine_id (filter (fun e => Upcoming.reminder_date e =? d) l)
       = filter (upcoming_on now self d) (keys (reminders self)).
Proof.
  intros Hl. split; [|split].
  - apply Forall_forall. intros e He.
    destruct (proj1 (get_upcoming_reminders_In _ _ _ e Hl) He) as (k & _ & Hk).
    apply upcoming_entry_fields in Hk.
    now destruct Hk as (_ & _ & _ & _ & _ & _ & Hle).
  - apply get_upcoming_reminders_returns in Hl. subst l.
    apply (sort_sorted Upcoming.reminder_date).
  - intros d. apply get_upcoming_reminders_returns in Hl. subst l.
    rewrite filter_sort. apply upcoming_entries_on.
Qed.

(** C9. The query leaves the medicines, the reminders with their markers
    and the orders as they are and sends nothing; a second call on the state
    it leaves, at the same time, gives what the first gave. *)
Theorem get_upcoming_reminders_read_only now self :
  let run := get_upcoming_reminders now self in
  state_of run = self
  /\ medicines (state_of run) = medicines self
  /\ reminders (state_of run) = reminders self
  /\ orders (state_of run) = orders self
  /\ sent_of run = []
  /\ get_upcoming_reminders now (state_of run) = run.
Proof.
  cbv zeta.
  assert (Hsame : state_of (get_upcoming_reminders now self) = self).
  { rewrite get_upcoming_reminders_run.
    now destruct (outcome_of (collect now _ [] self)). }
  rewrite !Hsame. repeat split.
  rewrite get_upcoming_reminders_run.
  now destruct (outcome_of (collect now _ [] self)).
Qed.

(* ================================================================== *)
(** ** More on the scan: where it stops, what it sends, what it writes *)

(** X1. The scan writes markers and nothing else: it leaves the medicines
    and the orders, adds and removes no reminder, and the reminder of a key
    is the one it was, with the marker of today when the scan sent a message
    for the key and untouched when it did not. *)
Theorem check_reminders_only_sets_markers now self :
  let run := _check_reminders now self in
  medicines (state_of run) = medicines self
  /\ orders (state_of run) = orders self
  /\ keys (reminders (state_of run)) = keys (reminders self)
  /\ forall k,
       dict_get k (reminders (state_of run))
       = if in_dec string_dec k (map fst (sent_of run))
         then option_map (fun r => Reminder.set_last_reminded_date r (date_of now))
                (dict_get k (reminders self))
         else dict_get k (reminders self).
Proof.
  cbv zeta. rewrite _check_reminders_scan.
  destruct (scan now (keys (reminders self)) self) as [[o s'] w] eqn:Hscan.
  cbn [state_of sent_of fst snd].
  destruct (scan_marked _ _ _ _ _ _ Hscan) as (Hm & Ho & Hk & _).
  repeat split; try assumption.
  intros k. destruct (in_dec string_dec k (map fst w)) as [Hin|Hnin].
  - destruct (scan_marks_sent _ _ _ _ _ _ Hscan k Hin) as (r & -> & ->). reflexivity.
  - exact (scan_frame _ _ _ _ _ _ Hscan k Hnin).
Qed.

(** X2. The scan returns exactly when the body raises at no key of the
    reminders.  When it raises, it raises what the body raises at the first
    such key in the order of the dictionary; the keys before were gone
    through and every message sent is for one of them.  The body raises at
    the reminder [R] of a medicine [M] of the store, and in this order: the
    TypeError of [parse(None)] when [M] has no date (line 102); on the
    reminder time (line 107), the AttributeError of [None.split] when it is
    null and the ValueError of [int] when [int] cannot read its hour; on the
    dates (lines 110 and 111), the TypeError of [relativedelta(days=None)]
    when the refill period or the days before empty are null and the
    OverflowError of the sum when the empty date or the reminder date is no
    day of the years 1 to 9999. *)
Theorem check_reminders_raises_at_first now self :
  let run := _check_reminders now self in
  (outcome_of run = Return tt <->
   forall k, In k (keys (reminders self)) -> check_raises self k = None)
  /\ (forall e, outcome_of run = Raise e ->
        exists pre k post,
          keys (reminders self) = pre ++ k :: post
          /\ (forall k', In k' pre -> check_raises self k' = None)
          /\ check_raises self k = Some e
          /\ (forall k', In k' (map fst (sent_of run)) -> In k' pre))
  /\ (forall k e,
        check_raises self k = Some e <->
        exists M R,
          dict_get k (medicines self) = Some M
          /\ dict_get k (reminders self) = Some R
          /\ ((last_refill_or_added M = None /\ e = TypeError_parse)
              \/ exists D,
                   last_refill_or_added M = Some D
                   /\ ((Reminder.reminder_time R = Null /\ e = AttributeError_split)
                       \/ (exists t,
                             get_or (Reminder.reminder_time R) (Some "08:00") = Some t
                             /\ int (split_colon_0 t) = None
                             /\ e = ValueError_int (split_colon_0 t))
                       \/ ((exists h, reminder_hour_of R = Return h)
                           /\ let P := get_or (Medicine.refill_period_days M) (Some 30) in
                              let B := get_or (Reminder.days_before_empty R) (Some 5) in
                              (P = None /\ e = TypeError_days)
                              \/ (exists p, P = Some p /\ is_date (D + p) = false
                                            /\ e = OverflowError_date)
                              \/ (exists p, P = Some p /\ is_date (D + p) = true
                                            /\ B = None /\ e = TypeError_days)
                              \/ (exists p b, P = Some p /\ is_date (D + p) = true
                                              /\ B = Some b
                                              /\ is_date (D + p - b) = false
                                              /\ e = OverflowError_date))))).
Proof.
  cbv zeta. rewrite _check_reminders_scan.
  destruct (scan now (keys (reminders self)) self) as [[o s'] w] eqn:Hscan.
  cbn [outcome_of sent_of fst snd]. split; [split|split].
  - intros ->. eapply scan_returned; eassumption.
  - intros Hok. eapply scan_returns; eassumption.
  - intros e ->. exact (scan_raised _ _ _ _ _ _ Hscan).
  - intros k e. rewrite check_raises_kind. split.
    + intros (M & R & HM & HR & [H|(D & HD & [H|[Hh H]])]);
        exists M, R; (split; [exact HM|]); (split; [exact HR|]).
      * now left.
      * right. exists D. split; [exact HD|].
        apply reminder_hour_of_raises in H. destruct H as [H|H]; auto.
      * right. exists D. split; [exact HD|]. right; right. split; [exact Hh|].
        now apply check_projection_raises.
    + intros (M & R & HM & HR & [H|(D & HD & [H|[H|[Hh H]]])]);
        exists M, R; (split; [exact HM|]); (split; [exact HR|]).
      * now left.
      * right. exists D. split; [exact HD|]. left.
        apply reminder_hour_of_raises. now left.
      * right. exists D. split; [exact HD|]. left.
        apply reminder_hour_of_raises. now right.
      * right. exists D. split; [exact HD|]. right. split; [exact Hh|].
        now apply check_projection_raises.
Qed.

(** X3. On reminders with distinct keys, the messages of a scan are those of
    the due keys it went through, one each, in the order of the dictionary;
    the body raised at none of the keys it went through, and these are all
    the keys when the scan returns, and the keys before the first one at
    which the body raises when the scan raises.  Each message is the text of
    line 132 with the name and the dosage of the stored medicine. *)
Theorem check_reminders_sends_in_key_order now self :
  NoDup (keys (reminders self)) ->
  let run := _check_reminders now self in
  (exists done,
     map fst (sent_of run) = filter (is_due now self) done
     /\ (forall k, In k done -> check_raises self k = None)
     /\ (outcome_of run = Return tt -> done = keys (reminders self))
     /\ (forall e, outcome_of run = Raise e ->
           exists k post,
             keys (reminders self) = done ++ k :: post
             /\ check_raises self k = Some e))
  /\ forall msg, In msg (sent_of run) ->
       exists M, dict_get (fst msg) (medicines self) = Some M
                 /\ snd msg = whatsapp_message M (fst msg).
Proof.
  intros Hnd. cbv zeta. rewrite _check_reminders_scan.
  destruct (scan now (keys (reminders self)) self) as [[o s'] w] eqn:Hscan.
  cbn [outcome_of sent_of fst snd]. split.
  - destruct (scan_trace _ _ _ _ _ _ Hnd Hscan) as (done & Hw & Hok & Ho).
    exists done. repeat split.
    + rewrite Hw, map_map. erewrite map_ext; [apply map_id|].
      intros k. apply fst_message_for.
    + exact Hok.
    + intros ->. exact Ho.
    + intros e ->. exact Ho.
  - eapply scan_messages; eassumption.
Qed.

(** X4. [set_reminder] re-arms: a reminder that carries the marker of today
    gets no message from a scan of today; once [set_reminder] has stored a
    new reminder for the medicine, whose fire date is today and whose hour
    is the hour of the scan, a scan that runs to its end sends the message
    again the same day. *)
Theorem set_reminder_rearms
    medicine_id days_before_empty reminder_time now self M old empty_date :
  dict_get medicine_id (medicines self) = Some M ->
  dict_get medicine_id (reminders self) = Some old ->
  Reminder.last_reminded_date old = Some (date_of now) ->
  let fresh :=
    {| Reminder.medicine_id := medicine_id;
       Reminder.days_before_empty := Value days_before_empty;
       Reminder.reminder_time := Value reminder_time;
       Reminder.last_reminded_date := None |} in
  let after := state_of (set_reminder medicine_id days_before_empty reminder_time self) in
  check_dates M fresh = Return (empty_date, date_of now) ->
  reminder_hour_of fresh = Return (hour now) ->
  outcome_of (_check_reminders now after) = Return tt ->
  ~ In medicine_id (map fst (sent_of (_check_reminders now self)))
  /\ In medicine_id (map fst (sent_of (_check_reminders now after))).
Proof.
  intros HM Hold Hmark. cbv zeta. intros Hfire Hhour.
  rewrite set_reminder_run, HM. cbv zeta. cbn [state_of fst snd].
  rewrite !_check_reminders_scan. cbn [reminders set_reminders].
  intros Hret. split.
  - intros Hin.
    destruct (scan now (keys (reminders self)) self) as [[o s'] w] eqn:Hscan.
    destruct (scan_sound _ _ _ _ _ _ Hscan _ Hin) as [_ Hd].
    rewrite (is_due_reminded_today _ _ _ _ Hold Hmark) in Hd. discriminate.
  - match goal with |- context [scan now ?ids ?s] =>
      destruct (scan now ids s) as [[o s'] w] eqn:Hscan end.
    cbn in Hret. subst o.
    eapply scan_complete; [exact Hscan| |].
    + apply dict_get_keys. rewrite dict_get_set_same. discriminate.
    + unfold is_due. cbn [reminders medicines set_reminders].
      rewrite dict_get_set_same, HM, Hfire, Hhour. cbn.
      now rewrite !Z.eqb_refl.
Qed.

(** X5. An hour no clock shows never fires: when the hour read from the
    reminder time is not one of 0 to 23, no scan sends a message for the
    reminder ([set_reminder] stores such a time as any other). *)
Theorem reminder_hour_off_the_clock_never_fires now self medicine_id R h :
  dict_get medicine_id (reminders self) = Some R ->
  reminder_hour_of R = Return h ->
  h < 0 \/ 23 < h ->
  0 <= hour now <= 23 ->
  ~ In medicine_id (map fst (sent_of (_check_reminders now self))).
Proof.
  intros HR Hh Hoff Hnow Hin. rewrite _check_reminders_scan in Hin.
  destruct (scan now (keys (reminders self)) self) as [[o s'] w] eqn:Hscan.
  destruct (scan_sound _ _ _ _ _ _ Hscan _ Hin) as [_ Hd].
  unfold is_due in Hd. rewrite HR, Hh in Hd.
  destruct (dict_get medicine_id (medicines self)) as [M|]; [|discriminate].
  destruct (check_dates M R); [|discriminate].
  rewrite !andb_true_iff, !Z.eqb_eq in Hd. lia.
Qed.

(* ================================================================== *)
(** ** Reading the hour of a reminder time *)

Lemma digit_of_cases c d :
  digit_of c = Some d ->
  (c = "0"%char /\ d = 0) \/ (c = "1"%char /\ d = 1) \/ (c = "2"%char /\ d = 2) \/ (c = "3"%char /\ d = 3)
  \/ (c = "4"%char /\ d = 4) \/ (c = "5"%char /\ d = 5) \/ (c = "6"%char /\ d = 6) \/ (c = "7"%char /\ d = 7)
  \/ (c = "8"%char /\ d = 8) \/ (c = "9"%char /\ d = 9).
Proof.
  destruct c as [b0 b1 b2 b3 b4 b5 b6 b7].
  destruct b0, b1, b2, b3, b4, b5, b6, b7; vm_compute; intros [= <-]; tauto.
Qed.

Lemma split_colon_0_app hh mm :
  no_colon hh = true ->
  split_colon_0 (String.append hh (String ":" mm)) = hh.
Proof.
  induction hh as [|c hh IH]; cbn; [reflexivity|].
  destruct (Ascii.eqb c ":"); cbn; [discriminate|].
  intros H. now rewrite IH.
Qed.

(** X6. Of a reminder time the scan reads the text before the first colon
    and nothing after it: the minutes play no part.  A time "H:MM" or
    "HH:MM" with decimal digits is read as the hour H or HH, a reminder
    with no time is read as 8, and a reminder whose time is null raises the
    AttributeError of [None.split]. *)
Theorem reminder_time_read_to_the_colon R :
  (forall hh mm,
     no_colon hh = true ->
     Reminder.reminder_time R = Value (String.append hh (String ":" mm)) ->
     reminder_hour_of R = int_of hh)
  /\ (forall a mm da,
        digit_of a = Some da ->
        Reminder.reminder_time R = Value (String a (String ":" mm)) ->
        reminder_hour_of R = Return da)
  /\ (forall a b mm da db,
        digit_of a = Some da -> digit_of b = Some db ->
        Reminder.reminder_time R = Value (String a (String b (String ":" mm))) ->
        reminder_hour_of R = Return (10 * da + db))
  /\ (Reminder.reminder_time R = Absent -> reminder_hour_of R = Return 8)
  /\ (Reminder.reminder_time R = Null -> reminder_hour_of R = Raise AttributeError_split).
Proof.
  unfold reminder_hour_of. repeat split.
  - intros hh mm Hhh ->. cbn [get_or]. now rewrite split_colon_0_app.
  - intros a mm da Ha ->. cbn [get_or].
    destruct (digit_of_cases _ _ Ha) as
      [[-> ->]|[[-> ->]|[[-> ->]|[[-> ->]|[[-> ->]|[[-> ->]|[[-> ->]|[[-> ->]|[[-> ->]|[-> ->]]]]]]]]]];
      reflexivity.
  - intros a b mm da db Ha Hb ->. cbn [get_or].
    destruct (digit_of_cases _ _ Ha) as
      [[-> ->]|[[-> ->]|[[-> ->]|[[-> ->]|[[-> ->]|[[-> ->]|[[-> ->]|[[-> ->]|[[-> ->]|[-> ->]]]]]]]]]];
    destruct (digit_of_cases _ _ Hb) as
      [[-> ->]|[[-> ->]|[[-> ->]|[[-> ->]|[[-> ->]|[[-> ->]|[[-> ->]|[[-> ->]|[[-> ->]|[-> ->]]]]]]]]]];
      reflexivity.
  - intros ->. reflexivity.
  - intros ->. reflexivity.
Qed.

(* ================================================================== *)
(** ** More on the query: when it raises, what it lists *)

(** X7. The query returns exactly when the dates of no reminder of a
    medicine of the store raise.  When it raises, it raises what the dates
    of the first such reminder raise, in the order of the dictionary: the
    TypeError of [parse(None)] when the medicine has no date (line 214), or,
    on lines 219 and 220, the TypeError of [relativedelta(days=None)] when
    the refill period or the days before empty are null and the
    OverflowError of the sum when the empty date or the reminder date is no
    day of the years 1 to 9999. *)
Theorem get_upcoming_reminders_raises_at_first now self :
  let run := get_upcoming_reminders now self in
  ((exists l, outcome_of run = Return l) <->
   forall k M R e,
     dict_get k (medicines self) = Some M ->
     dict_get k (reminders self) = Some R ->
     upcoming_dates M R <> Raise e)
  /\ (forall e, outcome_of run = Raise e ->
        exists pre k post M R,
          keys (reminders self) = pre ++ k :: post
          /\ (forall k' e', In k' pre -> upcoming_entry now self k' <> Raise e')
          /\ dict_get k (medicines self) = Some M
          /\ dict_get k (reminders self) = Some R
          /\ upcoming_dates M R = Raise e)
  /\ (forall M R e,
        upcoming_dates M R = Raise e <->
        (last_refill_or_added M = None /\ e = TypeError_parse)
        \/ exists D,
             last_refill_or_added M = Some D
             /\ let P := get_or (Medicine.refill_period_days M) (Some 30) in
                let B := get_or (Reminder.days_before_empty R) (Some 5) in
                (P = None /\ e = TypeError_days)
                \/ (exists p, P = Some p /\ is_date (D + p) = false
                              /\ e = OverflowError_date)
                \/ (exists p, P = Some p /\ is_date (D + p) = true
                              /\ B = None /\ e = TypeError_days)
                \/ (exists p b, P = Some p /\ is_date (D + p) = true
                                /\ B = Some b
                                /\ is_date (D + p - b) = false
                                /\ e = OverflowError_date)).
Proof.
  cbv zeta. split; [split|split].
  - intros [l Hl] k M R e HM HR He.
    apply (get_upcoming_reminders_returned now self l k e Hl).
    + apply dict_get_keys. congruence.
    + apply upcoming_entry_raises. eauto.
  - intros Hok. destruct (get_upcoming_reminders_total now self Hok) as [l Hl].
    exists l. now rewrite Hl.
  - intros e. rewrite get_upcoming_reminders_run.
    destruct (outcome_of (collect now _ [] self)) as [l|e'] eqn:Hc; [discriminate|].
    cbn. intros [= ->].
    destruct (collect_raised _ _ _ _ _ Hc) as (pre & k & post & Hkeys & Hpre & Hk).
    apply upcoming_entry_raises in Hk. destruct Hk as (M & R & HM & HR & Hd).
    exists pre, k, post, M, R. auto.
  - intros M R e. change (upcoming_dates M R) with (check_dates M R).
    rewrite check_dates_raises. split.
    + intros [H|(D & HD & H)]; [now left|right].
      exists D. split; [exact HD|]. now apply check_projection_raises.
    + intros [H|(D & HD & H)]; [now left|right].
      exists D. split; [exact HD|]. now apply check_projection_raises.
Qed.

(** X8. When the query returns, on reminders with distinct keys: it lists
    each medicine at most once; a medicine is listed exactly when it is in
    the store with a reminder whose date is not before today; and an element
    carries the name and the dosage of its medicine, the reminder time of
    its reminder (08:00 when it has none) and the two dates computed from
    them. *)
Theorem get_upcoming_reminders_lists_each_once now self l :
  NoDup (keys (reminders self)) ->
  outcome_of (get_upcoming_reminders now self) = Return l ->
  NoDup (map Upcoming.medicine_id l)
  /\ (forall k,
        In k (map Upcoming.medicine_id l) <->
        exists M R empty_date reminder_date,
          dict_get k (medicines self) = Some M
          /\ dict_get k (reminders self) = Some R
          /\ upcoming_dates M R = Return (empty_date, reminder_date)
          /\ date_of now <= reminder_date)
  /\ forall e, In e l ->
       exists M R,
         dict_get (Upcoming.medicine_id e) (medicines self) = Some M
         /\ dict_get (Upcoming.medicine_id e) (reminders self) = Some R
         /\ Upcoming.medicine_name e = Medicine.name M
         /\ Upcoming.medicine_dosage e = Medicine.dosage M
         /\ Upcoming.reminder_time e = get_or (Reminder.reminder_time R) (Some "08:00")
         /\ upcoming_dates M R
            = Return (Upcoming.empty_date e, Upcoming.reminder_date e).
Proof.
  intros Hnd Hl. split; [|split].
  - pose proof (get_upcoming_reminders_returns _ _ _ Hl) as ->.
    eapply Permutation_NoDup.
    + apply Permutation_map, sort_perm.
    + rewrite upcoming_entries_ids. now apply NoDup_filter.
  - intros k. rewrite in_map_iff. split.
    + intros (e & <- & He).
      destruct (proj1 (get_upcoming_reminders_In _ _ _ e Hl) He) as (k & _ & Hk).
      apply upcoming_entry_record in Hk.
      destruct Hk as (M & R & HM & HR & Hp & Hle & <- & _).
      exists M, R, (Upcoming.empty_date e), (Upcoming.reminder_date e). auto.
    + intros (M & R & ed & rd & HM & HR & Hp & Hle).
      set (e := {| Upcoming.medicine_id := k;
                   Upcoming.medicine_name := Medicine.name M;
                   Upcoming.medicine_dosage := Medicine.dosage M;
                   Upcoming.reminder_date := rd;
                   Upcoming.empty_date := ed;
                   Upcoming.reminder_time :=
                     get_or (Reminder.reminder_time R) (Some "08:00") |}).
      exists e. split; [reflexivity|].
      apply (get_upcoming_reminders_In _ _ _ e Hl). exists k. split.
      * apply dict_get_keys. congruence.
      * apply upcoming_entry_record. exists M, R. cbn. repeat split; assumption.
  - intros e He.
    destruct (proj1 (get_upcoming_reminders_In _ _ _ e Hl) He) as (k & _ & Hk).
    apply upcoming_entry_record in Hk.
    destruct Hk as (M & R & HM & HR & Hp & _ & <- & Hn & Hd & Ht).
    exists M, R. repeat split; assumption.
Qed.

(* ================================================================== *)
(** ** More on the mutations, and how the operations compose *)

(** X9. [add_medicine] never raises and sends nothing.  It returns the
    record of its arguments with today as added date and as last refill
    date, stores it under its identifier, and touches no other medicine, no
    reminder and no order.  With a new identifier [list_medicines] then
    gives the medicines it gave before followed by the new one; with an
    identifier in use the record takes the place of the one it replaces. *)
Theorem add_medicine_stores_and_lists
    uuid_hex now name dosage quantity refill_period_days self :
  let run := add_medicine uuid_hex now name dosage quantity refill_period_days self in
  let medicine_id := String.append "med_" uuid_hex in
  let medicine :=
    {| Medicine.id := medicine_id; Medicine.name := name;
       Medicine.dosage := dosage; Medicine.quantity := Value quantity;
       Medicine.refill_period_days := Value refill_period_days;
       Medicine.added_date := Some (date_of now);
       Medicine.last_refill_date := Value (date_of now) |} in
  outcome_of run = Return medicine
  /\ sent_of run = []
  /\ reminders (state_of run) = reminders self
  /\ orders (state_of run) = orders self
  /\ dict_get medicine_id (medicines (state_of run)) = Some medicine
  /\ (forall k, k <> medicine_id ->
        dict_get k (medicines (state_of run)) = dict_get k (medicines self))
  /\ (dict_get medicine_id (medicines self) = None ->
      outcome_of (list_medicines (state_of run))
      = Return (values (medicines self) ++ [medicine]))
  /\ (dict_get medicine_id (medicines self) <> None ->
      keys (medicines (state_of run)) = keys (medicines self)).
Proof.
  cbv zeta. rewrite add_medicine_run. cbv zeta.
  cbn [outcome_of sent_of state_of fst snd reminders orders medicines set_medicines].
  repeat split.
  - apply dict_get_set_same.
  - intros k Hk. apply dict_get_set_other. congruence.
  - intros Hnew. rewrite list_medicines_run. cbn.
    rewrite dict_set_absent by assumption. unfold values. now rewrite map_app.
  - apply keys_dict_set_present.
Qed.

(** X10. Adding a medicine and setting its reminder: the identifier
    [add_medicine] returns is one [set_reminder] takes, and a later query
    that returns lists the medicine exactly when its day is not after the
    added date plus [P - B], with that day as reminder date, the added date
    plus [P] as empty date, and the name, dosage and time given. *)
Theorem added_and_reminded_is_listed
    uuid_hex now name dosage quantity P B reminder_time self later l :
  let medicine_id := String.append "med_" uuid_hex in
  let added := state_of (add_medicine uuid_hex now name dosage quantity P self) in
  let reminded := set_reminder medicine_id B reminder_time added in
  let listed :=
    {| Upcoming.medicine_id := medicine_id;
       Upcoming.medicine_name := name;
       Upcoming.medicine_dosage := dosage;
       Upcoming.reminder_date := date_of now + P - B;
       Upcoming.empty_date := date_of now + P;
       Upcoming.reminder_time := Some reminder_time |} in
  outcome_of (get_upcoming_reminders later (state_of reminded)) = Return l ->
  (exists reminder, outcome_of reminded = Return reminder)
  /\ forall e,
       In e l /\ Upcoming.medicine_id e = medicine_id <->
       date_of later <= date_of now + P - B /\ e = listed.
Proof.
  cbv zeta. rewrite add_medicine_run. cbv zeta. cbn [state_of fst snd].
  rewrite set_reminder_run. cbv zeta. cbn [medicines set_medicines].
  rewrite dict_get_set_same. cbn [state_of outcome_of fst snd].
  set (medicine_id := String.append "med_" uuid_hex).
  set (s2 := set_reminders _ _).
  intros Hl. split; [eexists; reflexivity|].
  assert (Hentry : upcoming_entry later s2 medicine_id
                   = if date_of later <=? date_of now + P - B
                     then Return (Some
                       {| Upcoming.medicine_id := medicine_id;
                          Upcoming.medicine_name := name;
                          Upcoming.medicine_dosage := dosage;
                          Upcoming.reminder_date := date_of now + P - B;
                          Upcoming.empty_date := date_of now + P;
                          Upcoming.reminder_time := Some reminder_time |})
                     else Return None).
  { apply (upcoming_entry_returned later s2 l medicine_id
             {| Medicine.id := medicine_id; Medicine.name := name;
                Medicine.dosage := dosage; Medicine.quantity := Value quantity;
                Medicine.refill_period_days := Value P;
                Medicine.added_date := Some (date_of now);
                Medicine.last_refill_date := Value (date_of now) |}
             {| Reminder.medicine_id := medicine_id;
                Reminder.days_before_empty := Value B;
                Reminder.reminder_time := Value reminder_time;
                Reminder.last_reminded_date := None |}
             (date_of now) P B Hl);
      try reflexivity; unfold s2; cbn [reminders medicines set_reminders set_medicines];
      apply dict_get_set_same. }
  intros e. split.
  - intros [He Hid].
    destruct (proj1 (get_upcoming_reminders_In _ _ _ e Hl) He) as (k & _ & Hk).
    assert (k = medicine_id).
    { apply upcoming_entry_record in Hk.
      destruct Hk as (_ & _ & _ & _ & _ & _ & Hk & _). congruence. }
    subst k. rewrite Hentry in Hk.
    destruct (Z.leb_spec (date_of later) (date_of now + P - B)); [|discriminate].
    injection Hk as <-. split; [assumption|reflexivity].
  - intros [Hle ->]. split; [|reflexivity].
    apply (get_upcoming_reminders_In _ _ _ _ Hl). exists medicine_id. split.
    + apply dict_get_keys. unfold s2. cbn. rewrite dict_get_set_same. discriminate.
    + rewrite Hentry. destruct (Z.leb_spec (date_of later) (date_of now + P - B)); [|lia].
      reflexivity.
Qed.

(** X11. A refill and the query of the same day: after [order_refill], a
    query that returns lists the reminder of the medicine exactly when its
    days before empty [B] do not exceed the refill period [P], and then
    with today plus [P - B] as reminder date and today plus [P] as empty
    date, whatever day the reminder stood at before. *)
Theorem refilled_reminder_is_listed uuid_hex now medicine_id self M R P B l :
  dict_get medicine_id (medicines self) = Some M ->
  dict_get medicine_id (reminders self) = Some R ->
  get_or (Medicine.refill_period_days M) (Some 30) = Some P ->
  get_or (Reminder.days_before_empty R) (Some 5) = Some B ->
  outcome_of (get_upcoming_reminders now
                (state_of (order_refill uuid_hex now medicine_id self))) = Return l ->
  ((exists e, In e l /\ Upcoming.medicine_id e = medicine_id) <-> B <= P)
  /\ forall e, In e l -> Upcoming.medicine_id e = medicine_id ->
       Upcoming.reminder_date e = date_of now + P - B
       /\ Upcoming.empty_date e = date_of now + P.
Proof.
  intros HM HR HP HB. rewrite order_refill_run, HM. cbv zeta. cbn [state_of fst snd].
  set (s' := {| medicines := _; reminders := _; orders := _ |}).
  intros Hl.
  assert (Hentry : upcoming_entry now s' medicine_id
                   = if date_of now <=? date_of now + P - B
                     then Return (Some
                       {| Upcoming.medicine_id := medicine_id;
                          Upcoming.medicine_name := Medicine.name M;
                          Upcoming.medicine_dosage := Medicine.dosage M;
                          Upcoming.reminder_date := date_of now + P - B;
                          Upcoming.empty_date := date_of now + P;
                          Upcoming.reminder_time :=
                            get_or (Reminder.reminder_time R) (Some "08:00") |})
                     else Return None).
  { apply (upcoming_entry_returned now s' l medicine_id
             (Medicine.set_last_refill_date M (date_of now)) R (date_of now) P B Hl);
      try assumption; try reflexivity.
    unfold s'. cbn [medicines]. apply dict_get_set_same. }
  assert (Hfrom : forall e, In e l -> Upcoming.medicine_id e = medicine_id ->
                            upcoming_entry now s' medicine_id = Return (Some e)).
  { intros e He Hid.
    destruct (proj1 (get_upcoming_reminders_In _ _ _ e Hl) He) as (k & _ & Hk).
    assert (k = medicine_id); [|now subst k].
    apply upcoming_entry_record in Hk.
    destruct Hk as (_ & _ & _ & _ & _ & _ & Hk & _). congruence. }
  split; [split|].
  - intros (e & He & Hid). specialize (Hfrom e He Hid). rewrite Hentry in Hfrom.
    match type of Hfrom with (if ?c then _ else _) = _ => destruct c eqn:Hc end;
      [|discriminate].
    apply Z.leb_le in Hc. lia.
  - intros Hle. eexists. split.
    + apply (get_upcoming_reminders_In _ _ _ _ Hl). exists medicine_id. split.
      * apply dict_get_keys. unfold s'. cbn. congruence.
      * rewrite Hentry.
        match goal with |- (if ?c then _ else _) = _ => destruct c eqn:Hc end;
          [reflexivity|].
        apply Z.leb_gt in Hc. lia.
    + reflexivity.
  - intros e He Hid. specialize (Hfrom e He Hid). rewrite Hentry in Hfrom.
    match type of Hfrom with (if ?c then _ else _) = _ => destruct c end;
      [|discriminate].
    injection Hfrom as <-. split; reflexivity.
Qed.

(** X12. No operation removes a record: after each of the five operations
    and after a scan, every medicine, reminder and order of the store is
    still stored under its key. *)
Theorem operations_keep_records self :
  (forall uuid_hex now name dosage quantity refill_period_days,
     keeps_records self
       (state_of (add_medicine uuid_hex now name dosage quantity refill_period_days self)))
  /\ keeps_records self (state_of (list_medicines self))
  /\ (forall medicine_id days_before_empty reminder_time,
        keeps_records self
          (state_of (set_reminder medicine_id days_before_empty reminder_time self)))
  /\ (forall uuid_hex now medicine_id,
        keeps_records self (state_of (order_refill uuid_hex now medicine_id self)))
  /\ (forall now, keeps_records self (state_of (get_upcoming_reminders now self)))
  /\ (forall now, keeps_records self (state_of (_check_reminders now self))).
Proof.
  assert (Hrefl : keeps_records self self).
  { repeat split; apply incl_refl. }
  split; [|split; [|split; [|split; [|split]]]]; intros.
  - rewrite add_medicine_run. repeat split; cbn;
      [apply incl_keys_dict_set|apply incl_refl|apply incl_refl].
  - exact Hrefl.
  - rewrite set_reminder_run. destruct (dict_get _ _); [|exact Hrefl].
    repeat split; cbn; [apply incl_refl|apply incl_keys_dict_set|apply incl_refl].
  - rewrite order_refill_run. destruct (dict_get _ _); [|exact Hrefl].
    repeat split; cbn; [apply incl_keys_dict_set|apply incl_refl|apply incl_keys_dict_set].
  - replace (state_of (get_upcoming_reminders now self)) with self; [exact Hrefl|].
    rewrite get_upcoming_reminders_run. now destruct (outcome_of _).
  - rewrite _check_reminders_scan.
    destruct (scan now _ self) as [[o s'] w] eqn:Hscan.
    destruct (scan_marked _ _ _ _ _ _ Hscan) as (Hm & Ho & Hk & _).
    repeat split; cbn; rewrite ?Hm, ?Ho, ?Hk; apply incl_refl.
Qed.

(** X13. Two refills in a row of a medicine [M] of the store: with two
    different new order identifiers the orders are those before followed by
    the two orders, in the order they were placed; with the same identifier
    drawn twice the second order takes the place of the first.  Either way
    the last refill date is the day of the second refill. *)
Theorem order_refill_twice uuid1 uuid2 now1 now2 medicine_id self M :
  dict_get medicine_id (medicines self) = Some M ->
  let first := order_refill uuid1 now1 medicine_id self in
  let second := order_refill uuid2 now2 medicine_id (state_of first) in
  let order d uuid_hex :=
    {| Order.id := String.append "order_" uuid_hex;
       Order.medicine_id := medicine_id;
       Order.medicine_name := Medicine.name M;
       Order.medicine_dosage := Medicine.dosage M;
       Order.order_date := d;
       Order.status := "placed" |} in
  outcome_of first = Return (order (date_of now1) uuid1)
  /\ outcome_of second = Return (order (date_of now2) uuid2)
  /\ dict_get medicine_id (medicines (state_of second))
     = Some (Medicine.set_last_refill_date M (date_of now2))
  /\ (dict_get (String.append "order_" uuid1) (orders self) = None ->
      dict_get (String.append "order_" uuid2) (orders self) = None ->
      uuid1 <> uuid2 ->
      orders (state_of second)
      = orders self ++ [(String.append "order_" uuid1, order (date_of now1) uuid1);
                        (String.append "order_" uuid2, order (date_of now2) uuid2)])
  /\ (uuid1 = uuid2 ->
      dict_get (String.append "order_" uuid1) (orders (state_of second))
      = Some (order (date_of now2) uuid2)
      /\ keys (orders (state_of second)) = keys (orders (state_of first))).
Proof.
  intros HM. cbv zeta. rewrite (order_refill_run uuid1), HM. cbv zeta.
  cbn [state_of outcome_of fst snd].
  rewrite order_refill_run. cbn [medicines orders reminders].
  rewrite dict_get_set_same. cbv zeta. cbn [state_of outcome_of fst snd medicines orders].
  repeat split.
  - rewrite dict_get_set_same. reflexivity.
  - intros H1 H2 Hne.
    rewrite (dict_set_absent (String.append "order_" uuid2)).
    + rewrite dict_set_absent by assumption. now rewrite <- app_assoc.
    + rewrite dict_get_set_other; [assumption|].
      intros E. apply Hne. eapply append_inj_l. exact E.
  - subst uuid2. apply dict_get_set_same.
  - subst uuid2. apply keys_dict_set_present. rewrite dict_get_set_same. discriminate.
Qed.

(** X14. [list_medicines] after a refill, on medicines with distinct keys:
    the same medicines in the same order, the refilled one with today as its
    last refill date and every other one as it was. *)
Theorem list_medicines_after_refill uuid_hex now medicine_id self M :
  NoDup (keys (medicines self)) ->
  dict_get medicine_id (medicines self) = Some M ->
  outcome_of (list_medicines (state_of (order_refill uuid_hex now medicine_id self)))
  = Return (map (fun item =>
                   if String.eqb medicine_id (fst item)
                   then Medicine.set_last_refill_date M (date_of now)
                   else snd item)
              (medicines self)).
Proof.
  intros Hnd HM. rewrite order_refill_run, HM. cbv zeta. cbn [state_of fst snd].
  rewrite list_medicines_run. cbn [outcome_of fst medicines]. f_equal.
  rewrite dict_set_present_map by (assumption || congruence).
  unfold values. rewrite map_map. apply map_ext.
  intros [k m]. cbn. now destruct (String.eqb medicine_id k).
Qed.

(* ================================================================== *)
(** ** What holds of every store the program reaches *)

Lemma consistent_empty : consistent empty_store.
Proof.
  repeat split; try constructor; cbn; discriminate.
Qed.

Lemma consistent_add_medicine uuid_hex now name dosage quantity refill_period_days self :
  consistent self ->
  consistent (state_of (add_medicine uuid_hex now name dosage quantity
                          refill_period_days self)).
Proof.
  intros ((Hm & Hr & Ho) & HM & HR & HO). rewrite add_medicine_run. cbv zeta.
  cbn [state_of fst snd].
  split; [|split; [|split]]; cbn [medicines reminders orders set_medicines].
  - repeat split; [now apply NoDup_keys_dict_set|assumption|assumption].
  - intros k M. rewrite dict_get_set.
    destruct (String.eqb_spec (String.append "med_" uuid_hex) k) as [<-|_]; [|apply HM].
    intros [= <-]. cbn.
    split; [reflexivity|]. split; [eauto|]. split; [eauto|]. split; [discriminate|eauto].
  - intros k R HkR. destruct (HR k R HkR) as (? & ? & ? & Hin).
    repeat split; try assumption. rewrite dict_get_set.
    now destruct (String.eqb _ k).
  - intros k O HkO. destruct (HO k O HkO) as (? & ? & Hin).
    repeat split; try assumption. rewrite dict_get_set.
    now destruct (String.eqb _ _).
Qed.

Lemma consistent_set_reminder medicine_id days_before_empty reminder_time self :
  consistent self ->
  consistent (state_of (set_reminder medicine_id days_before_empty reminder_time self)).
Proof.
  intros Hc. rewrite set_reminder_run. cbv zeta.
  destruct (dict_get medicine_id (medicines self)) as [M|] eqn:HMid; [|exact Hc].
  destruct Hc as ((Hm & Hr & Ho) & HM & HR & HO). cbn [state_of fst snd].
  split; [|split; [|split]]; cbn [medicines reminders orders set_reminders].
  - repeat split; [assumption|now apply NoDup_keys_dict_set|assumption].
  - exact HM.
  - intros k R. rewrite dict_get_set.
    destruct (String.eqb_spec medicine_id k) as [<-|_]; [|apply HR].
    intros [= <-]. cbn.
    split; [reflexivity|]. split; [eauto|]. split; [eauto|congruence].
  - exact HO.
Qed.

Lemma consistent_order_refill uuid_hex now medicine_id self :
  consistent self ->
  consistent (state_of (order_refill uuid_hex now medicine_id self)).
Proof.
  intros Hc. rewrite order_refill_run.
  destruct (dict_get medicine_id (medicines self)) as [M|] eqn:HMid; [|exact Hc].
  destruct Hc as ((Hm & Hr & Ho) & HM & HR & HO). cbv zeta. cbn [state_of fst snd].
  assert (Hstill : forall k, dict_get k (medicines self) <> None ->
                             dict_get k (dict_set medicine_id
                               (Medicine.set_last_refill_date M (date_of now))
                               (medicines self)) <> None).
  { intros k Hk. rewrite dict_get_set. now destruct (String.eqb medicine_id k). }
  split; [|split; [|split]]; cbn [medicines reminders orders].
  - repeat split; [now apply NoDup_keys_dict_set|assumption|now apply NoDup_keys_dict_set].
  - intros k M'. rewrite dict_get_set.
    destruct (String.eqb_spec medicine_id k) as [<-|_]; [|apply HM].
    intros [= <-]. destruct (HM _ _ HMid) as (? & ? & ? & ? & ?).
    cbn. repeat split; try assumption. eauto.
  - intros k R HkR. destruct (HR k R HkR) as (? & ? & ? & Hin).
    repeat split; try assumption. now apply Hstill.
  - intros k O. rewrite dict_get_set.
    destruct (String.eqb_spec (String.append "order_" uuid_hex) k) as [<-|_].
    + intros [= <-]. cbn. repeat split. apply Hstill. congruence.
    + intros HkO. destruct (HO k O HkO) as (? & ? & Hin).
      repeat split; try assumption. now apply Hstill.
Qed.

Lemma consistent_marked today self self' :
  marked_from today self self' -> consistent self -> consistent self'.
Proof.
  intros (Em & Eo & Ek & Hk) ((Hm & Hr & Ho) & HM & HR & HO).
  split; [|split; [|split]]; rewrite ?Em, ?Eo.
  - unfold well_formed. rewrite Em, Eo, Ek. repeat split; assumption.
  - exact HM.
  - intros k R' HkR'. destruct (Hk k) as [E|(R & E & E')].
    + apply HR. congruence.
    + rewrite E' in HkR'. injection HkR' as <-. exact (HR k R E).
  - exact HO.
Qed.

Lemma reachable_consistent self : reachable self -> consistent self.
Proof.
  induction 1 as [| | | | | now self _ IH | now self _ IH].
  - apply consistent_empty.
  - now apply consistent_add_medicine.
  - assumption.
  - now apply consistent_set_reminder.
  - now apply consistent_order_refill.
  - replace (state_of (get_upcoming_reminders now self)) with self; [assumption|].
    rewrite get_upcoming_reminders_run. now destruct (outcome_of _).
  - rewrite _check_reminders_scan.
    destruct (scan now _ self) as [[o s'] w] eqn:Hscan.
    eapply consistent_marked; [|exact IH]. eapply scan_marked. exact Hscan.
Qed.

(** The fields of a reminder and of its medicine in a store the operations
    wrote. *)
Lemma consistent_fields self k R :
  consistent self ->
  dict_get k (reminders self) = Some R ->
  Reminder.medicine_id R = k
  /\ exists M D P B t,
       dict_get k (medicines self) = Some M
       /\ Medicine.id M = k
       /\ Medicine.last_refill_date M = Value D
       /\ Medicine.refill_period_days M = Value P
       /\ Reminder.days_before_empty R = Value B
       /\ Reminder.reminder_time R = Value t.
Proof.
  intros (_ & HM & HR & _) HkR.
  destruct (HR k R HkR) as (Hid & [B HB] & [t Ht] & Hin).
  split; [exact Hid|].
  destruct (dict_get k (medicines self)) as [M|] eqn:HkM; [|congruence].
  destruct (HM k M HkM) as (HMid & _ & [P HP] & _ & [D HD]).
  exists M, D, P, B, t. auto 10.
Qed.

(** X15. In every store the program reaches from the empty one: a reminder
    is stored under the identifier of a medicine of the store (there is no
    orphan) and, like the medicine, has every field the scan and the query
    read with a default; an order is stored under its identifier, has the
    status "placed" and names a medicine of the store; no key is there
    twice. *)
Theorem reachable_store_is_consistent self :
  reachable self ->
  well_formed self
  /\ (forall k R, dict_get k (reminders self) = Some R ->
        Reminder.medicine_id R = k
        /\ exists M D P B t,
             dict_get k (medicines self) = Some M
             /\ Medicine.id M = k
             /\ Medicine.last_refill_date M = Value D
             /\ Medicine.refill_period_days M = Value P
             /\ Reminder.days_before_empty R = Value B
             /\ Reminder.reminder_time R = Value t)
  /\ (forall k O, dict_get k (orders self) = Some O ->
        Order.id O = k
        /\ Order.status O = "placed"
        /\ exists M, dict_get (Order.medicine_id O) (medicines self) = Some M).
Proof.
  intros Hreach. pose proof (reachable_consistent self Hreach) as Hc.
  split; [apply Hc|]. split.
  - intros k R. now apply consistent_fields.
  - destruct Hc as (_ & _ & _ & HO).
    intros k O HkO. destruct (HO k O HkO) as (Hid & Hst & Hin).
    repeat split; try assumption.
    destruct (dict_get (Order.medicine_id O) (medicines self)) as [M|]; [eauto|congruence].
Qed.

(** X16. On every store the program reaches, no field is missing or null,
    so the query raises nothing but the OverflowError of a date that is no
    day of the years 1 to 9999, and the scan raises nothing but that error
    and the ValueError of [int] on a reminder time whose hour it cannot
    read.  When the empty date and the reminder date of every reminder are
    days of the years 1 to 9999 the query returns, and the scan returns too
    when [int] reads the hour of every reminder time. *)
Theorem reachable_store_raises_on_hours_and_range now self :
  reachable self ->
  (forall e, outcome_of (get_upcoming_reminders now self) = Raise e ->
     e = OverflowError_date)
  /\ (forall e, outcome_of (_check_reminders now self) = Raise e ->
        e = OverflowError_date
        \/ exists k R t,
             dict_get k (reminders self) = Some R
             /\ Reminder.reminder_time R = Value t
             /\ int (split_colon_0 t) = None
             /\ e = ValueError_int (split_colon_0 t))
  /\ ((forall k M R D P B,
         dict_get k (medicines self) = Some M ->
         dict_get k (reminders self) = Some R ->
         Medicine.last_refill_date M = Value D ->
         Medicine.refill_period_days M = Value P ->
         Reminder.days_before_empty R = Value B ->
         is_date (D + P) = true /\ is_date (D + P - B) = true) ->
      (exists l, get_upcoming_reminders now self = (Return l, self, []))
      /\ ((forall k R, dict_get k (reminders self) = Some R ->
             exists h, reminder_hour_of R = Return h) ->
          outcome_of (_check_reminders now self) = Return tt)).
Proof.
  intros Hreach. pose proof (reachable_consistent self Hreach) as Hc.
  assert (Hdates : forall k M R e,
            dict_get k (medicines self) = Some M ->
            dict_get k (reminders self) = Some R ->
            check_dates M R = Raise e ->
            e = OverflowError_date
            /\ exists D P B,
                 Medicine.last_refill_date M = Value D
                 /\ Medicine.refill_period_days M = Value P
                 /\ Reminder.days_before_empty R = Value B
                 /\ (is_date (D + P) = false \/ is_date (D + P - B) = false)).
  { intros k M R e HkM HkR He.
    destruct (consistent_fields self k R Hc HkR)
      as (_ & M' & D & P & B & t & HkM' & _ & HD & HP & HB & _).
    assert (M' = M) by congruence. subst M'.
    apply check_dates_raises in He. unfold last_refill_or_added in He.
    rewrite HD, HP, HB in He. cbn [get_or] in He.
    destruct He as [[[=] _]|(D' & [= <-] & He)].
    apply check_projection_raises in He.
    destruct He as [[[=] _]|[(p & [= <-] & Hp & ->)|[(p & _ & _ & [=] & _)
                                                     |(p & b & [= <-] & _ & [= <-] & Hb & ->)]]];
      (split; [reflexivity|]); exists D, P, B; auto. }
  assert (Hkind : forall k e, check_raises self k = Some e ->
            e = OverflowError_date
            \/ exists R t, dict_get k (reminders self) = Some R
                           /\ Reminder.reminder_time R = Value t
                           /\ int (split_colon_0 t) = None
                           /\ e = ValueError_int (split_colon_0 t)).
  { intros k e Hk. apply check_raises_kind in Hk.
    destruct Hk as (M & R & HkM & HkR & Hwhy).
    destruct (consistent_fields self k R Hc HkR)
      as (_ & M' & D & P & B & t & HkM' & _ & HD & HP & HB & Ht).
    assert (M' = M) by congruence. subst M'.
    unfold last_refill_or_added in Hwhy. rewrite HD in Hwhy. cbn [get_or] in Hwhy.
    destruct Hwhy as [[[=] _]|(D' & [= <-] & [Hh|[_ Hp]])].
    - right. apply reminder_hour_of_raises in Hh. rewrite Ht in Hh. cbn [get_or] in Hh.
      destruct Hh as [[[=] _]|(t' & [= <-] & Hint & ->)]. exists R, t. auto.
    - left. eapply (Hdates k M R e HkM HkR).
      unfold check_dates, last_refill_or_added. rewrite HD. exact Hp. }
  split; [|split].
  - intros e. rewrite get_upcoming_reminders_run.
    destruct (outcome_of (collect now _ [] self)) as [l|e'] eqn:Hcol; [discriminate|].
    cbn. intros [= ->].
    destruct (collect_raises _ _ _ _ _ Hcol) as (k & _ & Hk).
    apply upcoming_entry_raises in Hk. destruct Hk as (M & R & HkM & HkR & He).
    now destruct (Hdates k M R e HkM HkR He).
  - intros e. rewrite _check_reminders_scan.
    destruct (scan now _ self) as [[o s'] w] eqn:Hscan. cbn. intros ->.
    destruct (scan_raises _ _ _ _ _ _ Hscan) as (k & _ & Hk).
    destruct (Hkind k e Hk) as [->|(R & t & ?)]; [now left|right].
    exists k, R, t. assumption.
  - intros Hrange.
    assert (Hok : forall k M R e,
              dict_get k (medicines self) = Some M ->
              dict_get k (reminders self) = Some R ->
              check_dates M R <> Raise e).
    { intros k M R e HkM HkR He.
      destruct (Hdates k M R e HkM HkR He) as (_ & D & P & B & HD & HP & HB & Hout).
      destruct (Hrange k M R D P B HkM HkR HD HP HB) as [Hp Hb].
      destruct Hout; congruence. }
    split; [exact (get_upcoming_reminders_total now self Hok)|].
    intros Hhours. rewrite _check_reminders_scan.
    destruct (scan now _ self) as [[o s'] w] eqn:Hscan. cbn.
    eapply scan_returns; [|exact Hscan].
    intros k _. destruct (check_raises self k) as [e|] eqn:Hk; [exfalso|reflexivity].
    apply check_raises_kind in Hk. destruct Hk as (M & R & HkM & HkR & Hwhy).
    destruct (Hhours k R HkR) as [h Hh].
    destruct Hwhy as [[Hnone ->]|(D & HD & [Hr|[_ Hp]])].
    + apply (Hok k M R TypeError_parse HkM HkR).
      unfold check_dates. now rewrite Hnone.
    + congruence.
    + apply (Hok k M R e HkM HkR). unfold check_dates. now rewrite HD.
Qed.

(* ================================================================== *)
(** ** Scan after scan *)

(** Once a scan has marked a reminder it found due, no scan finds it due
    again: its fire date is the day of the marker. *)
Lemma marked_key_never_due now self self' k r :
  marked_from (date_of now) self self' ->
  dict_get k (reminders self) = Some r ->
  dict_get k (reminders self')
  = Some (Reminder.set_last_reminded_date r (date_of now)) ->
  is_due now self k = true ->
  never_due self' k.
Proof.
  intros (Em & _) Hr Hr' Hdue later. unfold is_due in *. rewrite Hr', Em. rewrite Hr in Hdue.
  destruct (dict_get k (medicines self)) as [M|]; [|reflexivity].
  rewrite check_dates_marker, reminder_hour_of_marker.
  destruct (check_dates M r) as [dates|]; [|reflexivity].
  destruct (reminder_hour_of r) as [h|]; [|reflexivity].
  cbn [Reminder.last_reminded_date Reminder.set_last_reminded_date opt_date_eqb].
  rewrite !andb_true_iff, Z.eqb_eq in Hdue. destruct Hdue as [[Hfire _] _].
  destruct (Z.eqb_spec (snd dates) (date_of later)) as [E|]; [|reflexivity].
  rewrite Hfire in E. rewrite E, Z.eqb_refl. cbn. apply andb_false_r.
Qed.

Lemma scan_never_due now ids self o self' sent :
  scan now ids self = (o, self', sent) ->
  forall k, never_due self k \/ In k (map fst sent) -> never_due self' k.
Proof.
  intros Hscan k Hk.
  pose proof (scan_marked _ _ _ _ _ _ Hscan) as Hm.
  destruct (in_dec string_dec k (map fst sent)) as [Hin|Hnin].
  - destruct (scan_marks_sent _ _ _ _ _ _ Hscan k Hin) as (r & Hr & Hr').
    destruct (scan_sound _ _ _ _ _ _ Hscan k Hin) as [_ Hdue].
    eapply marked_key_never_due; eassumption.
  - destruct Hk as [Hnever|]; [|contradiction].
    intros later. rewrite <- (Hnever later). unfold is_due.
    rewrite (scan_frame _ _ _ _ _ _ Hscan k Hnin).
    destruct Hm as (-> & _). reflexivity.
Qed.

Lemma scans_never_due nows : forall self,
  NoDup (map fst (snd (scans nows self)))
  /\ forall k, never_due self k -> ~ In k (map fst (snd (scans nows self))).
Proof.
  induction nows as [|now nows IH]; intros self.
  - split; [constructor|intros k _ []].
  - cbn [scans snd]. rewrite _check_reminders_scan.
    destruct (scan now (keys (reminders self)) self) as [[o s1] w1] eqn:Hscan.
    cbn [state_of sent_of fst snd]. destruct (IH s1) as [Hnd Hnever].
    rewrite map_app. split.
    + apply NoDup_app; [eapply scan_NoDup; eassumption|assumption|].
      intros k Hk1. apply Hnever. eapply scan_never_due; [eassumption|now right].
    + intros k Hk Hin. apply in_app_or in Hin. destruct Hin as [Hin|Hin].
      * destruct (scan_sound _ _ _ _ _ _ Hscan k Hin) as [_ Hdue].
        rewrite Hk in Hdue. discriminate.
      * revert Hin. apply Hnever. eapply scan_never_due; [eassumption|now left].
Qed.

(** X17. However many scans run one after another, and at whatever times,
    no reminder gets a second message: over the scans of a store that no
    operation changes in between, a reminder fires at most once, and the
    scans leave the medicines and the orders as they were. *)
Theorem scans_fire_each_reminder_once nows self :
  NoDup (map fst (snd (scans nows self)))
  /\ medicines (fst (scans nows self)) = medicines self
  /\ orders (fst (scans nows self)) = orders self
  /\ keys (reminders (fst (scans nows self))) = keys (reminders self).
Proof.
  split; [apply scans_never_due|].
  revert self. induction nows as [|now nows IH]; intros self; [repeat split|].
  cbn [scans fst]. rewrite _check_reminders_scan.
  destruct (scan now (keys (reminders self)) self) as [[o s1] w1] eqn:Hscan.
  cbn [state_of fst snd].
  destruct (scan_marked _ _ _ _ _ _ Hscan) as (Em & Eo & Ek & _).
  destruct (IH s1) as (-> & -> & ->). auto.
Qed.

End Scan.

(* ================================================================== *)
(** ** The example, run *)

(** Distinct keys of a store written out. *)
Ltac distinct_keys :=
  cbn; repeat (constructor; [cbn; intuition discriminate|]); constructor.

Example example_store_medicine :
  dict_get "med_0a1b2c3d" (medicines Sample.store) = Some Sample.lisinopril.
Proof. reflexivity. Qed.

Example example_store_reminder :
  dict_get "med_0a1b2c3d" (reminders Sample.store) = Some Sample.at_8.
Proof. reflexivity. Qed.

(** The example of the specification: the scan of 2024-01-26 at 8 fires
    once, a second scan the same day does not. *)
Example example_scan_fires_once :
  forall int_beyond_ascii,
    _check_reminders int_beyond_ascii Sample.jan_26_8h Sample.store
    = (Return tt, Sample.reminded_store,
       [("med_0a1b2c3d",
         "Reminder: Your Lisinopril (10mg) will run out soon. Reply 'ORDER med_0a1b2c3d' to place a refill order.")])
    /\ _check_reminders int_beyond_ascii Sample.jan_26_8h Sample.reminded_store
       = (Return tt, Sample.reminded_store, []).
Proof. split; reflexivity. Qed.

Example example_reminded_on_refill_day :
  forall int_beyond_ascii,
    state_of (_check_reminders int_beyond_ascii {| date_of := 738886; hour := 8 |}
                (state_of (set_reminder "med_0a1b2c3d" 30 "08:00" Sample.added)))
    = Sample.reminded_on_refill_day.
Proof. reflexivity. Qed.

Example int_08 : forall int_beyond_ascii, int int_beyond_ascii (split_colon_0 "08:00") = Some 8.
Proof. reflexivity. Qed.

Example int_padded : forall int_beyond_ascii, int int_beyond_ascii " +1_7 " = Some 17.
Proof. reflexivity. Qed.

Example int_8am : forall int_beyond_ascii, int int_beyond_ascii (split_colon_0 "8am") = None.
Proof. reflexivity. Qed.

Example int_no_hour : forall int_beyond_ascii, int int_beyond_ascii (split_colon_0 ":30") = None.
Proof. reflexivity. Qed.

(** The characters 28 to 31 are no white space to [int]. *)
Example int_file_separator :
  forall int_beyond_ascii,
    int int_beyond_ascii (String (ascii_of_nat 28) "8") = None
    /\ int int_beyond_ascii (String (ascii_of_nat 12) "8") = Some 8.
Proof. split; reflexivity. Qed.

(** [int] reads a numeral of 4300 digits and refuses one of 4301. *)
Example int_max_str_digits :
  forall int_beyond_ascii,
    int int_beyond_ascii (More.zeros 4300) = Some 0
    /\ int int_beyond_ascii (More.zeros 4301) = None.
Proof. intros f. split; vm_compute; reflexivity. Qed.

Example four_reminders_query :
  get_upcoming_reminders Sample.jan_6 Sample.four_reminders
  = (Return Sample.four_upcoming, Sample.four_reminders, []).
Proof. reflexivity. Qed.

(** A refill period of 3000000 days: the query and the scan raise. *)
Example far_raises :
  get_upcoming_reminders Sample.jan_1 More.far = (Raise OverflowError_date, More.far, [])
  /\ forall int_beyond_ascii,
       _check_reminders int_beyond_ascii Sample.jan_1 More.far
       = (Raise OverflowError_date, More.far, []).
Proof. split; reflexivity. Qed.

(** A null last refill date: [parse(None)], whatever the added date. *)
Example null_refill_date_raises :
  get_upcoming_reminders Sample.jan_1 More.null_refill_date
  = (Raise TypeError_parse, More.null_refill_date, [])
  /\ forall int_beyond_ascii,
       _check_reminders int_beyond_ascii Sample.jan_1 More.null_refill_date
       = (Raise TypeError_parse, More.null_refill_date, []).
Proof. split; reflexivity. Qed.

Example scans_of_a_day :
  forall int_beyond_ascii,
    map fst (snd (scans int_beyond_ascii
                    [ {| date_of := 738911; hour := 7 |};
                      {| date_of := 738911; hour := 8 |};
                      {| date_of := 738911; hour := 8 |};
                      {| date_of := 738911; hour := 9 |};
                      {| date_of := 738912; hour := 8 |} ] Sample.store))
    = ["med_0a1b2c3d"].
Proof. reflexivity. Qed.

(** The example stores are stores the program reaches. *)
Lemma reachable_sample_store int_beyond_ascii : reachable int_beyond_ascii Sample.store.
Proof.
  unfold Sample.store, Sample.added.
  apply reach_set_reminder, reach_add_medicine, reach_empty.
Qed.

Lemma reachable_far_store int_beyond_ascii : reachable int_beyond_ascii More.far.
Proof.
  unfold More.far.
  apply reach_set_reminder, reach_add_medicine, reach_empty.
Qed.

(* ================================================================== *)
(** ** The theorems on the examples *)

(** C1 on the example store, scanned on 2024-01-26 at 8: Lisinopril runs
    out on day 738916 and its reminder is for day 738911; that day the query
    lists it with these dates and the scan sends its message and sets its
    marker. *)
Lemma projection_exact_witness :
  check_projection 738886 (Some 30) (Some 5) = Return (738916, 738911)
  /\ upcoming_projection 738886 (Some 30) (Some 5) = Return (738916, 738911)
  /\ upcoming_reminder Sample.jan_26_8h "med_0a1b2c3d" [] Sample.store
     = (Return [ {| Upcoming.medicine_id := "med_0a1b2c3d";
                    Upcoming.medicine_name := "Lisinopril";
                    Upcoming.medicine_dosage := "10mg";
                    Upcoming.reminder_date := 738911;
                    Upcoming.empty_date := 738916;
                    Upcoming.reminder_time := Some "08:00" |} ],
        Sample.store, [])
  /\ _check_reminder Sample.int_ascii_only Sample.jan_26_8h "med_0a1b2c3d" Sample.store
     = (Return tt, Sample.reminded_store,
        [("med_0a1b2c3d", whatsapp_message Sample.lisinopril "med_0a1b2c3d")])
  /\ In "med_0a1b2c3d"
       (map fst (sent_of (_check_reminders Sample.int_ascii_only Sample.jan_26_8h
                            Sample.store))).
Proof.
  destruct (projection_exact Sample.int_ascii_only Sample.jan_26_8h Sample.store
              "med_0a1b2c3d" Sample.lisinopril Sample.at_8 738886 30 5
              eq_refl eq_refl eq_refl eq_refl eq_refl) as [Hin _].
  destruct (Hin eq_refl eq_refl) as (H1 & H2 & H3 & _ & H5 & H6).
  split; [exact H1|]. split; [exact H2|]. split; [exact (H3 [])|].
  split; [exact (H5 8 eq_refl)|].
  apply (proj2 (H6 eq_refl)). split; [reflexivity|]. split; [reflexivity|discriminate].
Defined.

(** C1 fails as stated: a medicine added on 2024-01-01 with a refill period
    of 3000000 days, which [add_medicine] stores as any other, and reminded:
    [D + P] is past the year 9999 and lines 110 and 219 raise OverflowError,
    in the scan and in the query, instead of giving the two dates. *)
Lemma projection_leaves_the_calendar :
  option_map (fun M => (Medicine.last_refill_date M, Medicine.refill_period_days M))
    (dict_get "med_0a1b2c3d" (medicines More.far))
  = Some (Value 738886, Value 3000000)
  /\ option_map Reminder.days_before_empty (dict_get "med_0a1b2c3d" (reminders More.far))
     = Some (Value 5)
  /\ is_date (738886 + 3000000) = false
  /\ check_projection 738886 (Some 3000000) (Some 5) = Raise OverflowError_date
  /\ upcoming_projection 738886 (Some 3000000) (Some 5) = Raise OverflowError_date
  /\ get_upcoming_reminders Sample.jan_1 More.far = (Raise OverflowError_date, More.far, [])
  /\ forall int_beyond_ascii,
       reachable int_beyond_ascii More.far
       /\ _check_reminders int_beyond_ascii Sample.jan_1 More.far
          = (Raise OverflowError_date, More.far, []).
Proof.
  repeat (split; [reflexivity|]).
  intros f. split; [apply reachable_far_store|reflexivity].
Qed.

(** C2 where the scan raises at the second reminder, whose time is ["8am"]:
    on 2024-01-26 at 8 the reminder of Lisinopril, the first, meets the four
    conditions and gets its message before the scan raises. *)
Lemma check_reminders_notifies_eligible_witness :
  _check_reminders Sample.int_ascii_only Sample.jan_26_8h Sample.bad_time_second
  = (Raise (ValueError_int "8am"),
     mark_reminded 738911 "med_0a1b2c3d" Sample.bad_time_second,
     [("med_0a1b2c3d", whatsapp_message Sample.lisinopril "med_0a1b2c3d")])
  /\ (In "med_0a1b2c3d"
        (map fst [("med_0a1b2c3d", whatsapp_message Sample.lisinopril "med_0a1b2c3d")]) <->
      eligible Sample.int_ascii_only Sample.jan_26_8h Sample.bad_time_second
        "med_0a1b2c3d" Sample.at_8
      /\ reached Sample.int_ascii_only Sample.bad_time_second "med_0a1b2c3d")
  /\ (Raise (ValueError_int "8am") = Return tt <->
      forall k, In k (keys (reminders Sample.bad_time_second)) ->
                check_raises Sample.int_ascii_only Sample.bad_time_second k = None)
  /\ check_raises Sample.int_ascii_only Sample.bad_time_second "med_99aa88bb"
     = Some (ValueError_int "8am").
Proof.
  split; [reflexivity|].
  split; [|split; [|reflexivity]];
  apply (check_reminders_notifies_eligible Sample.int_ascii_only Sample.jan_26_8h
           Sample.bad_time_second (Raise (ValueError_int "8am"))
           (mark_reminded 738911 "med_0a1b2c3d" Sample.bad_time_second)
           [("med_0a1b2c3d", whatsapp_message Sample.lisinopril "med_0a1b2c3d")]
           "med_0a1b2c3d" Sample.at_8); reflexivity.
Defined.

(** C2 fails as stated: on 2024-01-26 at 8 the reminder of Metformin meets
    the four conditions, but the scan raises at the reminder before it,
    whose time is ["8am"], and never reaches it. *)
Lemma check_reminders_stops_at_unreadable_time :
  dict_get "med_99aa88bb" (reminders Sample.bad_time_first) = Some Sample.metformin_at_8
  /\ forall int_beyond_ascii,
       eligible int_beyond_ascii Sample.jan_26_8h Sample.bad_time_first "med_99aa88bb"
         Sample.metformin_at_8
       /\ _check_reminders int_beyond_ascii Sample.jan_26_8h Sample.bad_time_first
          = (Raise (ValueError_int "8am"), Sample.bad_time_first, [])
       /\ ~ In "med_99aa88bb"
            (map fst (sent_of (_check_reminders int_beyond_ascii Sample.jan_26_8h
                                 Sample.bad_time_first))).
Proof.
  split; [reflexivity|]. intros f. split; [|split; [reflexivity|]].
  - eexists. split; [reflexivity|]. split; [eexists; reflexivity|].
    split; [reflexivity|discriminate].
  - cbn. tauto.
Qed.

(** C4 fails as stated: [add_medicine] with a refill period of 0 days
    returns the record and stores it, and [set_reminder] with -1 days before
    empty returns the reminder and stores it. *)
Lemma add_medicine_and_set_reminder_take_bad_numbers :
  outcome_of (add_medicine "0a1b2c3d" Sample.jan_1 "Lisinopril" "10mg" 30 0 empty_store)
  = Return {| Medicine.id := "med_0a1b2c3d"; Medicine.name := "Lisinopril";
              Medicine.dosage := "10mg"; Medicine.quantity := Value 30;
              Medicine.refill_period_days := Value 0;
              Medicine.added_date := Some 738886;
              Medicine.last_refill_date := Value 738886 |}
  /\ option_map Medicine.refill_period_days
       (dict_get "med_0a1b2c3d"
          (medicines (state_of (add_medicine "0a1b2c3d" Sample.jan_1
                                  "Lisinopril" "10mg" 30 0 empty_store))))
     = Some (Value 0)
  /\ outcome_of (set_reminder "med_0a1b2c3d" (-1) "08:00" Sample.added)
     = Return {| Reminder.medicine_id := "med_0a1b2c3d";
                 Reminder.days_before_empty := Value (-1);
                 Reminder.reminder_time := Value "08:00";
                 Reminder.last_reminded_date := None |}
  /\ option_map Reminder.days_before_empty
       (dict_get "med_0a1b2c3d"
          (reminders (state_of (set_reminder "med_0a1b2c3d" (-1) "08:00" Sample.added))))
     = Some (Value (-1)).
Proof. repeat split. Qed.

(** C4 with a refill period of -7 days for the first medicine of a store,
    and a reminder -3 days before empty. *)
Lemma add_medicine_and_set_reminder_take_any_number_witness :
  (exists medicine,
     add_medicine "0a1b2c3d" Sample.jan_1 "Lisinopril" "10mg" 30 (-7) empty_store
     = (Return medicine,
        set_medicines empty_store
          (dict_set (Medicine.id medicine) medicine (medicines empty_store)),
        [])
     /\ Medicine.id medicine = "med_0a1b2c3d"
     /\ Medicine.refill_period_days medicine = Value (-7)
     /\ dict_get (Medicine.id medicine)
          (medicines (state_of (add_medicine "0a1b2c3d" Sample.jan_1 "Lisinopril" "10mg"
                                  30 (-7) empty_store)))
        = Some medicine)
  /\ exists reminder,
       set_reminder "med_0a1b2c3d" (-3) "08:00" Sample.added
       = (Return reminder,
          set_reminders Sample.added
            (dict_set "med_0a1b2c3d" reminder (reminders Sample.added)), [])
       /\ Reminder.days_before_empty reminder = Value (-3)
       /\ dict_get "med_0a1b2c3d"
            (reminders (state_of (set_reminder "med_0a1b2c3d" (-3) "08:00" Sample.added)))
          = Some reminder.
Proof.
  split.
  - apply (add_medicine_and_set_reminder_take_any_number
             "0a1b2c3d" Sample.jan_1 "Lisinopril" "10mg" 30 (-7)
             "med_0a1b2c3d" (-3) "08:00" empty_store).
  - apply (add_medicine_and_set_reminder_take_any_number
             "99aa88bb" Sample.jan_1 "Metformin" "500mg" 60 (-7)
             "med_0a1b2c3d" (-3) "08:00" Sample.added).
    discriminate.
Defined.

(** C5 on the store a scan has marked: an unknown medicine is refused, and
    a new reminder for Lisinopril takes the place of the marked one. *)
Lemma set_reminder_not_found_or_replaces_witness :
  set_reminder "med_deadbeef" 5 "08:00" Sample.reminded_store
  = (Raise (ValueError_not_found "med_deadbeef"), Sample.reminded_store, [])
  /\ option_map Reminder.last_reminded_date
       (dict_get "med_0a1b2c3d" (reminders Sample.reminded_store)) = Some (Some 738911)
  /\ dict_get "med_0a1b2c3d"
       (reminders (state_of (set_reminder "med_0a1b2c3d" 3 "09:30" Sample.reminded_store)))
     = Some {| Reminder.medicine_id := "med_0a1b2c3d";
               Reminder.days_before_empty := Value 3;
               Reminder.reminder_time := Value "09:30";
               Reminder.last_reminded_date := None |}.
Proof.
  split; [|split; [reflexivity|]].
  - apply (set_reminder_not_found_or_replaces "med_deadbeef" 5 "08:00" Sample.reminded_store).
    reflexivity.
  - apply (set_reminder_not_found_or_replaces "med_0a1b2c3d" 3 "09:30" Sample.reminded_store).
    discriminate.
Defined.

(** C6 on the example store: an unknown medicine is refused, the first
    order of Lisinopril is the one order of the store, and the fire date
    moves to 2024-02-20. *)
Lemma order_refill_not_found_or_places_witness :
  order_refill "ffff0000" Sample.jan_26_8h "med_deadbeef" Sample.store
  = (Raise (ValueError_not_found "med_deadbeef"), Sample.store, [])
  /\ orders (state_of (order_refill "ffff0000" Sample.jan_26_8h "med_0a1b2c3d"
                         Sample.store))
     = [("order_ffff0000",
         {| Order.id := "order_ffff0000"; Order.medicine_id := "med_0a1b2c3d";
            Order.medicine_name := "Lisinopril"; Order.medicine_dosage := "10mg";
            Order.order_date := 738911; Order.status := "placed" |})]
  /\ check_dates (Medicine.set_last_refill_date Sample.lisinopril 738911) Sample.at_8
     = Return (738941, 738936).
Proof.
  split; [|split].
  - apply (order_refill_not_found_or_places "ffff0000" Sample.jan_26_8h "med_deadbeef"
             Sample.store).
    reflexivity.
  - apply (order_refill_not_found_or_places "ffff0000" Sample.jan_26_8h "med_0a1b2c3d"
             Sample.store) with (M := Sample.lisinopril); reflexivity.
  - apply (order_refill_not_found_or_places "ffff0000" Sample.jan_26_8h "med_0a1b2c3d"
             Sample.store) with (M := Sample.lisinopril) (R := Sample.at_8)
                                (P := 30) (B := 5); reflexivity.
Defined.

(** C6 fails as stated.  A refill of Metformin that draws the identifier of
    the order of Lisinopril appends nothing: the store has one order before
    and one after, that of Metformin in the place of that of Lisinopril.
    And after the refill of a medicine whose refill period is 3000000 days
    the fire date is not computed: the query raises OverflowError. *)
Lemma order_refill_replaces_and_overflows :
  orders Sample.lisinopril_refilled
  = [("order_ffff0000",
      {| Order.id := "order_ffff0000"; Order.medicine_id := "med_0a1b2c3d";
         Order.medicine_name := "Lisinopril"; Order.medicine_dosage := "10mg";
         Order.order_date := 738911; Order.status := "placed" |})]
  /\ order_refill "ffff0000" Sample.jan_26_8h "med_99aa88bb" Sample.lisinopril_refilled
     = (Return {| Order.id := "order_ffff0000"; Order.medicine_id := "med_99aa88bb";
                  Order.medicine_name := "Metformin"; Order.medicine_dosage := "500mg";
                  Order.order_date := 738911; Order.status := "placed" |},
        Sample.both_refilled, [])
  /\ orders Sample.both_refilled
     = [("order_ffff0000",
         {| Order.id := "order_ffff0000"; Order.medicine_id := "med_99aa88bb";
            Order.medicine_name := "Metformin"; Order.medicine_dosage := "500mg";
            Order.order_date := 738911; Order.status := "placed" |})]
  /\ option_map Medicine.last_refill_date
       (dict_get "med_0a1b2c3d"
          (medicines (state_of (order_refill "ffff0000" Sample.jan_26_8h "med_0a1b2c3d"
                                  More.far))))
     = Some (Value 738911)
  /\ outcome_of (get_upcoming_reminders Sample.jan_26_8h
                   (state_of (order_refill "ffff0000" Sample.jan_26_8h "med_0a1b2c3d"
                                More.far)))
     = Raise OverflowError_date.
Proof. repeat split. Qed.

(** C10 where the new fire date is today: reminded on the day of the refill,
    refilled that day, and the scan of that day at 8 sends nothing. *)
Lemma order_refill_keeps_reminders_witness :
  option_map Reminder.last_reminded_date
    (dict_get "med_0a1b2c3d" (reminders Sample.reminded_on_refill_day)) = Some (Some 738886)
  /\ option_map (fun r => check_dates
                            (Medicine.set_last_refill_date Sample.lisinopril 738886) r)
       (dict_get "med_0a1b2c3d" (reminders Sample.reminded_on_refill_day))
     = Some (Return (738916, 738886))
  /\ ~ In "med_0a1b2c3d"
       (map fst (sent_of (_check_reminders Sample.int_ascii_only
          {| date_of := 738886; hour := 8 |}
          (state_of (order_refill "ffff0000" {| date_of := 738886; hour := 8 |}
                       "med_0a1b2c3d" Sample.reminded_on_refill_day))))).
Proof.
  split; [reflexivity|]. split; [reflexivity|].
  apply (order_refill_keeps_reminders Sample.int_ascii_only "ffff0000"
           {| date_of := 738886; hour := 8 |}
           "med_0a1b2c3d" Sample.reminded_on_refill_day)
    with (R := {| Reminder.medicine_id := "med_0a1b2c3d";
                  Reminder.days_before_empty := Value 30;
                  Reminder.reminder_time := Value "08:00";
                  Reminder.last_reminded_date := Some 738886 |});
    reflexivity.
Defined.

(** C7 on the example store with a reminder for a medicine it does not hold. *)
Lemma orphan_reminder_is_skipped_witness :
  dict_get "med_deadbeef" (reminders Sample.with_orphan) = Some Sample.at_8
  /\ ~ In "med_deadbeef"
       (map fst (sent_of (_check_reminders Sample.int_ascii_only Sample.jan_26_8h
                            Sample.with_orphan)))
  /\ dict_get "med_deadbeef"
       (reminders (state_of (_check_reminders Sample.int_ascii_only Sample.jan_26_8h
                               Sample.with_orphan)))
     = dict_get "med_deadbeef" (reminders Sample.with_orphan)
  /\ _check_reminder Sample.int_ascii_only Sample.jan_26_8h "med_deadbeef"
       Sample.with_orphan
     = (Return tt, Sample.with_orphan, []).
Proof.
  split; [reflexivity|].
  pose proof (orphan_reminder_is_skipped Sample.int_ascii_only Sample.jan_26_8h
                Sample.with_orphan "med_deadbeef" eq_refl) as H.
  repeat split; apply H.
Defined.

(** C8 on four reminders, one of them past: b before a and c, which share a
    date and keep the order of the dictionary. *)
Lemma upcoming_reminders_sorted_witness :
  Forall (fun e => date_of Sample.jan_6 <= Upcoming.reminder_date e) Sample.four_upcoming
  /\ StronglySorted (fun a b => Upcoming.reminder_date a <= Upcoming.reminder_date b)
       Sample.four_upcoming
  /\ forall d,
       map Upcoming.medicine_id
         (filter (fun e => Upcoming.reminder_date e =? d) Sample.four_upcoming)
       = filter (upcoming_on Sample.jan_6 Sample.four_reminders d)
           (keys (reminders Sample.four_reminders)).
Proof.
  apply (upcoming_reminders_sorted Sample.jan_6 Sample.four_reminders Sample.four_upcoming).
  reflexivity.
Defined.

(** X2 on the store whose first reminder has the time "8am": the scan raises
    the ValueError of [int] at the first key and has sent nothing. *)
Lemma check_reminders_raises_at_first_witness :
  outcome_of (_check_reminders Sample.int_ascii_only Sample.jan_26_8h Sample.bad_time_first)
  = Raise (ValueError_int "8am")
  /\ exists pre k post,
       keys (reminders Sample.bad_time_first) = pre ++ k :: post
       /\ (forall k', In k' pre ->
             check_raises Sample.int_ascii_only Sample.bad_time_first k' = None)
       /\ check_raises Sample.int_ascii_only Sample.bad_time_first k
          = Some (ValueError_int "8am")
       /\ (forall k',
             In k' (map fst (sent_of (_check_reminders Sample.int_ascii_only
                                        Sample.jan_26_8h Sample.bad_time_first))) ->
             In k' pre).
Proof.
  split; [reflexivity|].
  apply (check_reminders_raises_at_first Sample.int_ascii_only Sample.jan_26_8h
           Sample.bad_time_first).
  reflexivity.
Defined.

(** X3 on three reminders stored in the order b, a, c, all due, the second
    with a time [int] cannot read: b gets its message, then the scan raises
    at a, and c gets none. *)
Lemma check_reminders_sends_in_key_order_witness :
  _check_reminders Sample.int_ascii_only Sample.jan_26_8h More.unreadable_second
  = (Raise (ValueError_int "8 o'clock"),
     mark_reminded 738911 "med_bbbbbbbb" More.unreadable_second,
     [("med_bbbbbbbb",
       "Reminder: Your Beta (1mg) will run out soon. Reply 'ORDER med_bbbbbbbb' to place a refill order.")])
  /\ filter (is_due Sample.int_ascii_only Sample.jan_26_8h More.unreadable_second)
       (keys (reminders More.unreadable_second))
     = ["med_bbbbbbbb"; "med_cccccccc"]
  /\ ((exists done,
         map fst (sent_of (_check_reminders Sample.int_ascii_only Sample.jan_26_8h
                             More.unreadable_second))
         = filter (is_due Sample.int_ascii_only Sample.jan_26_8h More.unreadable_second)
             done
         /\ (forall k, In k done ->
               check_raises Sample.int_ascii_only More.unreadable_second k = None)
         /\ (outcome_of (_check_reminders Sample.int_ascii_only Sample.jan_26_8h
                           More.unreadable_second) = Return tt ->
             done = keys (reminders More.unreadable_second))
         /\ (forall e,
               outcome_of (_check_reminders Sample.int_ascii_only Sample.jan_26_8h
                             More.unreadable_second) = Raise e ->
               exists k post,
                 keys (reminders More.unreadable_second) = done ++ k :: post
                 /\ check_raises Sample.int_ascii_only More.unreadable_second k = Some e))
      /\ forall msg,
           In msg (sent_of (_check_reminders Sample.int_ascii_only Sample.jan_26_8h
                              More.unreadable_second)) ->
           exists M, dict_get (fst msg) (medicines More.unreadable_second) = Some M
                     /\ snd msg = whatsapp_message M (fst msg)).
Proof.
  split; [reflexivity|]. split; [reflexivity|].
  apply (check_reminders_sends_in_key_order Sample.int_ascii_only Sample.jan_26_8h
           More.unreadable_second).
  distinct_keys.
Defined.

(** X4 on the example: the scan of 2024-01-26 at 8 has sent the message;
    the same reminder is set again, and the next scan at 8 sends it again. *)
Lemma set_reminder_rearms_witness :
  ~ In "med_0a1b2c3d"
      (map fst (sent_of (_check_reminders Sample.int_ascii_only Sample.jan_26_8h
                           Sample.reminded_store)))
  /\ In "med_0a1b2c3d"
       (map fst (sent_of (_check_reminders Sample.int_ascii_only Sample.jan_26_8h
          (state_of (set_reminder "med_0a1b2c3d" 5 "08:00" Sample.reminded_store))))).
Proof.
  apply (set_reminder_rearms Sample.int_ascii_only "med_0a1b2c3d" 5 "08:00"
           Sample.jan_26_8h Sample.reminded_store Sample.lisinopril
           (Reminder.set_last_reminded_date Sample.at_8 738911) 738916);
    reflexivity.
Defined.

(** X5 on a reminder for "24:00", on its fire date at midnight. *)
Lemma reminder_hour_off_the_clock_never_fires_witness :
  option_map Reminder.reminder_time (dict_get "med_0a1b2c3d" (reminders More.at_24))
  = Some (Value "24:00")
  /\ ~ In "med_0a1b2c3d"
       (map fst (sent_of (_check_reminders Sample.int_ascii_only
                            {| date_of := 738911; hour := 0 |} More.at_24))).
Proof.
  split; [reflexivity|].
  apply (reminder_hour_off_the_clock_never_fires Sample.int_ascii_only
           {| date_of := 738911; hour := 0 |}
           More.at_24 "med_0a1b2c3d"
           {| Reminder.medicine_id := "med_0a1b2c3d";
              Reminder.days_before_empty := Value 5;
              Reminder.reminder_time := Value "24:00";
              Reminder.last_reminded_date := None |} 24);
    [reflexivity|reflexivity|lia|cbn; lia].
Defined.

(** X7 on the store whose medicine runs out after the year 9999: the query
    raises the OverflowError of line 219 at its one key. *)
Lemma get_upcoming_reminders_raises_at_first_witness :
  get_upcoming_reminders Sample.jan_1 More.far = (Raise OverflowError_date, More.far, [])
  /\ get_upcoming_reminders Sample.jan_1 More.undated
     = (Raise TypeError_parse, More.undated, [])
  /\ exists pre k post M R,
       keys (reminders More.far) = pre ++ k :: post
       /\ (forall k' e', In k' pre -> upcoming_entry Sample.jan_1 More.far k' <> Raise e')
       /\ dict_get k (medicines More.far) = Some M
       /\ dict_get k (reminders More.far) = Some R
       /\ upcoming_dates M R = Raise OverflowError_date.
Proof.
  split; [reflexivity|]. split; [reflexivity|].
  apply (get_upcoming_reminders_raises_at_first Sample.jan_1 More.far).
  reflexivity.
Defined.

(** X8 on the four reminders, one of them past. *)
Lemma get_upcoming_reminders_lists_each_once_witness :
  map Upcoming.medicine_id Sample.four_upcoming
  = ["med_bbbbbbbb"; "med_aaaaaaaa"; "med_cccccccc"]
  /\ NoDup (map Upcoming.medicine_id Sample.four_upcoming)
  /\ (forall k,
        In k (map Upcoming.medicine_id Sample.four_upcoming) <->
        exists M R empty_date reminder_date,
          dict_get k (medicines Sample.four_reminders) = Some M
          /\ dict_get k (reminders Sample.four_reminders) = Some R
          /\ upcoming_dates M R = Return (empty_date, reminder_date)
          /\ date_of Sample.jan_6 <= reminder_date)
  /\ forall e, In e Sample.four_upcoming ->
       exists M R,
         dict_get (Upcoming.medicine_id e) (medicines Sample.four_reminders) = Some M
         /\ dict_get (Upcoming.medicine_id e) (reminders Sample.four_reminders) = Some R
         /\ Upcoming.medicine_name e = Medicine.name M
         /\ Upcoming.medicine_dosage e = Medicine.dosage M
         /\ Upcoming.reminder_time e = get_or (Reminder.reminder_time R) (Some "08:00")
         /\ upcoming_dates M R
            = Return (Upcoming.empty_date e, Upcoming.reminder_date e).
Proof.
  split; [reflexivity|].
  apply (get_upcoming_reminders_lists_each_once Sample.jan_6 Sample.four_reminders
           Sample.four_upcoming); [distinct_keys|reflexivity].
Defined.

(** X10 on the example: Lisinopril, added on 2024-01-01 and reminded, is the
    one element of the list. *)
Lemma added_and_reminded_is_listed_witness :
  (exists reminder,
     outcome_of (set_reminder "med_0a1b2c3d" 5 "08:00" Sample.added) = Return reminder)
  /\ forall e,
       In e [ {| Upcoming.medicine_id := "med_0a1b2c3d";
                 Upcoming.medicine_name := "Lisinopril";
                 Upcoming.medicine_dosage := "10mg";
                 Upcoming.reminder_date := 738886 + 30 - 5;
                 Upcoming.empty_date := 738886 + 30;
                 Upcoming.reminder_time := Some "08:00" |} ]
       /\ Upcoming.medicine_id e = "med_0a1b2c3d" <->
       date_of Sample.jan_6 <= 738886 + 30 - 5
       /\ e = {| Upcoming.medicine_id := "med_0a1b2c3d";
                 Upcoming.medicine_name := "Lisinopril";
                 Upcoming.medicine_dosage := "10mg";
                 Upcoming.reminder_date := 738886 + 30 - 5;
                 Upcoming.empty_date := 738886 + 30;
                 Upcoming.reminder_time := Some "08:00" |}.
Proof.
  apply (added_and_reminded_is_listed "0a1b2c3d" Sample.jan_1 "Lisinopril" "10mg" 30
           30 5 "08:00" empty_store Sample.jan_6). reflexivity.
Defined.

(** X11 on the example store, refilled on 2024-01-26: the reminder moves from
    that day to 2024-02-20. *)
Lemma refilled_reminder_is_listed_witness :
  ((exists e,
      In e [ {| Upcoming.medicine_id := "med_0a1b2c3d";
                Upcoming.medicine_name := "Lisinopril";
                Upcoming.medicine_dosage := "10mg";
                Upcoming.reminder_date := 738936;
                Upcoming.empty_date := 738941;
                Upcoming.reminder_time := Some "08:00" |} ]
      /\ Upcoming.medicine_id e = "med_0a1b2c3d") <-> 5 <= 30)
  /\ forall e,
       In e [ {| Upcoming.medicine_id := "med_0a1b2c3d";
                 Upcoming.medicine_name := "Lisinopril";
                 Upcoming.medicine_dosage := "10mg";
                 Upcoming.reminder_date := 738936;
                 Upcoming.empty_date := 738941;
                 Upcoming.reminder_time := Some "08:00" |} ] ->
       Upcoming.medicine_id e = "med_0a1b2c3d" ->
       Upcoming.reminder_date e = 738911 + 30 - 5
       /\ Upcoming.empty_date e = 738911 + 30.
Proof.
  apply (refilled_reminder_is_listed "ffff0000" Sample.jan_26_8h "med_0a1b2c3d"
           Sample.store Sample.lisinopril Sample.at_8 30 5); reflexivity.
Defined.

(** X13 on the example store: two refills, on 2024-01-26 and the day after. *)
Lemma order_refill_twice_witness :
  orders (state_of (order_refill "ffff0001" {| date_of := 738912; hour := 9 |}
                      "med_0a1b2c3d"
                      (state_of (order_refill "ffff0000" Sample.jan_26_8h "med_0a1b2c3d"
                                   Sample.store))))
  = [("order_ffff0000",
      {| Order.id := "order_ffff0000"; Order.medicine_id := "med_0a1b2c3d";
         Order.medicine_name := "Lisinopril"; Order.medicine_dosage := "10mg";
         Order.order_date := 738911; Order.status := "placed" |});
     ("order_ffff0001",
      {| Order.id := "order_ffff0001"; Order.medicine_id := "med_0a1b2c3d";
         Order.medicine_name := "Lisinopril"; Order.medicine_dosage := "10mg";
         Order.order_date := 738912; Order.status := "placed" |})].
Proof.
  apply (order_refill_twice "ffff0000" "ffff0001" Sample.jan_26_8h
           {| date_of := 738912; hour := 9 |} "med_0a1b2c3d" Sample.store
           Sample.lisinopril); [reflexivity|reflexivity|reflexivity|discriminate].
Defined.

(** X14 on the two medicines of the example, the second refilled. *)
Lemma list_medicines_after_refill_witness :
  outcome_of (list_medicines
                (state_of (order_refill "ffff0000" Sample.jan_26_8h "med_99aa88bb"
                             Sample.two_added)))
  = Return [ Sample.lisinopril;
             {| Medicine.id := "med_99aa88bb"; Medicine.name := "Metformin";
                Medicine.dosage := "500mg"; Medicine.quantity := Value 60;
                Medicine.refill_period_days := Value 30;
                Medicine.added_date := Some 738886;
                Medicine.last_refill_date := Value 738911 |} ].
Proof.
  apply (list_medicines_after_refill "ffff0000" Sample.jan_26_8h "med_99aa88bb"
           Sample.two_added Sample.metformin);
    [distinct_keys|reflexivity].
Defined.

(** X15 on the example store. *)
Lemma reachable_store_is_consistent_witness :
  well_formed Sample.store
  /\ (forall k R, dict_get k (reminders Sample.store) = Some R ->
        Reminder.medicine_id R = k
        /\ exists M D P B t,
             dict_get k (medicines Sample.store) = Some M
             /\ Medicine.id M = k
             /\ Medicine.last_refill_date M = Value D
             /\ Medicine.refill_period_days M = Value P
             /\ Reminder.days_before_empty R = Value B
             /\ Reminder.reminder_time R = Value t)
  /\ (forall k O, dict_get k (orders Sample.store) = Some O ->
        Order.id O = k
        /\ Order.status O = "placed"
        /\ exists M, dict_get (Order.medicine_id O) (medicines Sample.store) = Some M).
Proof.
  apply (reachable_store_is_consistent Sample.int_ascii_only Sample.store).
  apply reachable_sample_store.
Defined.

(** X16 on two stores the program reaches.  On the example store the dates
    are days of the years 1 to 9999 and the hour is read: the query and the
    scan return.  On the store whose medicine runs out after the year 9999
    the scan and the query raise, and OverflowError is what they raise. *)
Lemma reachable_store_raises_on_hours_and_range_witness :
  ((exists l, get_upcoming_reminders Sample.jan_26_8h Sample.store
              = (Return l, Sample.store, []))
   /\ outcome_of (_check_reminders Sample.int_ascii_only Sample.jan_26_8h Sample.store)
      = Return tt)
  /\ outcome_of (get_upcoming_reminders Sample.jan_26_8h More.far) = Raise OverflowError_date
  /\ outcome_of (_check_reminders Sample.int_ascii_only Sample.jan_26_8h More.far)
     = Raise OverflowError_date
  /\ (forall e, outcome_of (get_upcoming_reminders Sample.jan_26_8h More.far) = Raise e ->
        e = OverflowError_date)
  /\ (forall e,
        outcome_of (_check_reminders Sample.int_ascii_only Sample.jan_26_8h More.far)
        = Raise e ->
        e = OverflowError_date
        \/ exists k R t,
             dict_get k (reminders More.far) = Some R
             /\ Reminder.reminder_time R = Value t
             /\ int Sample.int_ascii_only (split_colon_0 t) = None
             /\ e = ValueError_int (split_colon_0 t))
  /\ ((forall k M R D P B,
         dict_get k (medicines More.far) = Some M ->
         dict_get k (reminders More.far) = Some R ->
         Medicine.last_refill_date M = Value D ->
         Medicine.refill_period_days M = Value P ->
         Reminder.days_before_empty R = Value B ->
         is_date (D + P) = true /\ is_date (D + P - B) = true) ->
      (exists l, get_upcoming_reminders Sample.jan_26_8h More.far
                 = (Return l, More.far, []))
      /\ ((forall k R, dict_get k (reminders More.far) = Some R ->
             exists h, reminder_hour_of Sample.int_ascii_only R = Return h) ->
          outcome_of (_check_reminders Sample.int_ascii_only Sample.jan_26_8h More.far)
          = Return tt)).
Proof.
  split.
  - destruct (reachable_store_raises_on_hours_and_range Sample.int_ascii_only
                Sample.jan_26_8h Sample.store (reachable_sample_store _))
      as (_ & _ & Hreturns).
    destruct Hreturns as [Hquery Hscan].
    + intros k M R D P B HM HR HD HP HB.
      change (medicines Sample.store) with [("med_0a1b2c3d", Sample.lisinopril)] in HM.
      change (reminders Sample.store) with [("med_0a1b2c3d", Sample.at_8)] in HR.
      cbn [dict_get] in HM, HR.
      destruct (String.eqb k "med_0a1b2c3d"); [|discriminate].
      injection HM as <-. injection HR as <-.
      injection HD as <-. injection HP as <-. injection HB as <-.
      split; reflexivity.
    + split; [exact Hquery|]. apply Hscan.
      intros k R HR.
      change (reminders Sample.store) with [("med_0a1b2c3d", Sample.at_8)] in HR.
      cbn [dict_get] in HR.
      destruct (String.eqb k "med_0a1b2c3d"); [|discriminate].
      injection HR as <-. exists 8. reflexivity.
  - split; [reflexivity|]. split; [reflexivity|].
    apply (reachable_store_raises_on_hours_and_range Sample.int_ascii_only
             Sample.jan_26_8h More.far).
    apply reachable_far_store.
Defined.
